(** * CN-ns3-project: flow-metrics analysis and scenario runner

    A shallow embedding of [analyze_results.py] and [run_scenarios.py].

    - [Py]: the fragment of the Python runtime the two scripts rely on:
      exceptions, [int] and [float] values with IEEE-754 binary64 arithmetic
      (the kernel's primitive floats), insertion-ordered dictionaries.
    - [OS]: the process environment: working directory, directories, files,
      console.
    - [AnalyzeResults]: [NetworkSimulationAnalyzer] and its [main].
    - [RunScenarios]: [SimulationRunner] and its [main]. *)

From Stdlib Require Import ZArith QArith Qround Lia Ascii PrimFloat SpecFloat FloatOps.
From stdpp Require Import base option list gmap strings pretty.

Local Open Scope Z_scope.
Local Open Scope string_scope.

(** Sequencing, for computations that raise and for those that also act on
    the world: the computation is elaborated before its continuation. *)
Definition and_then {M : Type -> Type} `{MBind M} {A B : Type}
    (m : M A) (k : A -> M B) : M B := mbind k m.

Declare Scope py_scope.
Notation "x ← y ; z" := (and_then y (fun x => z))
  (at level 20, y at level 100, z at level 200, only parsing) : py_scope.
Notation "' x ← y ; z" := (and_then y (fun x => z))
  (at level 20, x pattern, y at level 100, z at level 200, only parsing) : py_scope.
Notation "x ;; z" := (and_then x (fun _ => z))
  (at level 100, z at level 200, only parsing, right associativity) : py_scope.
Local Open Scope py_scope.

(* ================================================================== *)
(** * The Python runtime fragment *)
(* ================================================================== *)
Module Py.

(** Exceptions the scripts can meet.  All are subclasses of [Exception]. *)
Inductive exn : Set :=
  | ZeroDivisionError
  | OverflowError
  | ValueError
  | TypeError
  | ParseError            (* xml.etree.ElementTree.ParseError *)
  | FileNotFoundError
  | TimeoutExpired        (* subprocess.TimeoutExpired *)
  | ImportError
  | OSError.

#[global] Instance exn_eq_dec : EqDecision exn.
Proof. solve_decision. Defined.

(** A computation either returns or raises. *)
Inductive result (A : Type) : Type :=
  | Ok (a : A)
  | Raise (e : exn).
Arguments Ok {A} a.
Arguments Raise {A} e.

#[global] Instance result_ret : MRet result := @Ok.
#[global] Instance result_bind : MBind result :=
  fun A B f m => match m with Ok a => f a | Raise e => Raise e end.
#[global] Instance result_fmap : FMap result :=
  fun A B f m => match m with Ok a => Ok (f a) | Raise e => Raise e end.

Definition is_ok {A} (r : result A) : bool :=
  match r with Ok _ => true | Raise _ => false end.

(** Exit status of [exit(main())]: the returned code, or 1 after the
    traceback of an exception nobody handled. *)
Definition exit_status (r : result Z) : Z :=
  match r with Ok c => c | Raise _ => 1 end.

(** ** Numbers: [int] is unbounded, [float] is binary64 *)
Inductive num : Set :=
  | PInt (z : Z)
  | PFloat (f : float).

(** An integer as an exact (unrounded) binary value. *)
Definition exact (z : Z) : spec_float :=
  match z with
  | Z0 => S754_zero false
  | Zpos p => S754_finite false p 0
  | Zneg p => S754_finite true p 0
  end.

Definition finite_or_overflow (s : spec_float) : result float :=
  match s with
  | S754_infinity _ => Raise OverflowError
  | _ => Ok (SF2Prim s)
  end.

(** [float(z)]: round to nearest even; too large an [int] raises. *)
Definition float_of_int (z : Z) : result float :=
  finite_or_overflow (binary_normalize prec emax z 0 false).

(** [a / b] on two [int]s: the correctly rounded quotient. *)
Definition int_truediv (a b : Z) : result float :=
  if decide (b = 0) then Raise ZeroDivisionError
  else finite_or_overflow (SFdiv prec emax (exact a) (exact b)).

(** [x / y] on two [float]s: a zero divisor (of either sign) raises. *)
Definition float_truediv (x y : float) : result float :=
  if PrimFloat.eqb y 0%float then Raise ZeroDivisionError
  else Ok (PrimFloat.div x y).

Definition to_float (n : num) : result float :=
  match n with
  | PInt z => float_of_int z
  | PFloat f => Ok f
  end.

(** The binary operators, with Python's coercion of a mixed pair to [float]. *)
Definition truediv (a b : num) : result num :=
  match a, b with
  | PInt x, PInt y => PFloat <$> int_truediv x y
  | _, _ => x ← to_float a; y ← to_float b; PFloat <$> float_truediv x y
  end.

Definition mul (a b : num) : result num :=
  match a, b with
  | PInt x, PInt y => Ok (PInt (x * y))
  | _, _ => x ← to_float a; y ← to_float b; Ok (PFloat (PrimFloat.mul x y))
  end.

Definition sub (a b : num) : result num :=
  match a, b with
  | PInt x, PInt y => Ok (PInt (x - y))
  | _, _ => x ← to_float a; y ← to_float b; Ok (PFloat (PrimFloat.sub x y))
  end.

(** [x <= 0] for a [float] ([nan] compares false). *)
Definition float_le_zero (x : float) : bool := PrimFloat.leb x 0%float.

(** Built-ins whose definition lies in the interpreter: the parsers behind
    [int(s)] and [float(s)] and the formatters behind [str(x)] and
    [format(x, spec)]. *)
Class Builtins := {
  int_of_string : string -> result Z;
  float_of_string : string -> result float;
  str_of_float : float -> string;
  format : num -> string -> string;
  str_of_exn : exn -> string;
}.

(** The newline character and ["\n".join(lines)]. *)
Definition nl : string := String (Ascii.ascii_of_nat 10) EmptyString.
Definition join_lines (lines : list string) : string := String.concat nl lines.

(** [s * n] for a string. *)
Definition str_repeat (s : string) (n : nat) : string :=
  String.concat "" (replicate n s).

(** [str(z)] for an [int]. *)
Definition str_of_int (z : Z) : string := pretty z.

(** [str(b).lower()] for a [bool]. *)
Definition str_of_bool_lower (b : bool) : string :=
  if b then "true" else "false".

(** ** Insertion-ordered dictionaries

    [d[k] = v] keeps the position of a key already present and appends a
    new key at the end. *)
Section dict.
Context {K V : Type} `{EqDecision K}.

Definition dict := list (K * V).

Fixpoint dict_set (k : K) (v : V) (d : list (K * V)) : list (K * V) :=
  match d with
  | [] => [(k, v)]
  | (k', v') :: d' =>
      if decide (k' = k) then (k, v) :: d' else (k', v') :: dict_set k v d'
  end.

Fixpoint dict_get (k : K) (d : list (K * V)) : option V :=
  match d with
  | [] => None
  | (k', v') :: d' => if decide (k' = k) then Some v' else dict_get k d'
  end.

(** The keys after [d[k] = v], on the list of keys alone. *)
Definition key_set (k : K) (ks : list K) : list K :=
  if decide (k ∈ ks) then ks else ks ++ [k].

Definition dict_keys (d : list (K * V)) : list K := d.*1.
Definition dict_values (d : list (K * V)) : list V := d.*2.
End dict.

End Py.
Export Py.

(* ================================================================== *)
(** * The process environment *)
(* ================================================================== *)
Module OS.

(** File contents.  [XmlDoc flows] is a well-formed XML document whose
    [<Flow>] elements below the root are, in document order, [flows], each
    given by its attributes; any other content is not well-formed XML. *)
Inductive content : Type :=
  | XmlDoc (flows : list (gmap string string))
  | Text (s : string)
  | Blob.

(** A path as written in the program: components relative to the working
    directory or to the root; [Up] is [".."].  A [Name] is one component
    (the scripts never put a separator into one). *)
Inductive comp : Set := Up | Name (s : string).
Inductive pypath : Set := Rel (cs : list comp) | Abs (cs : list comp).

(** A canonical absolute path: the names from the root down. *)
Abbreviation path := (list string).

Definition step (p : path) (c : comp) : path :=
  match c with Up => removelast p | Name s => p ++ [s] end.

Definition resolve (cwd : path) (p : pypath) : path :=
  match p with
  | Rel cs => fold_left step cs cwd
  | Abs cs => fold_left step cs []
  end.

(** [os.path.join(a, b)] and [f"{a}/{b}"] for a relative [b]. *)
Definition join (a : pypath) (b : list comp) : pypath :=
  match a with Rel cs => Rel (cs ++ b) | Abs cs => Abs (cs ++ b) end.

Definition comp_str (c : comp) : string :=
  match c with Up => ".." | Name s => s end.

(** The text of a path, as it appears in messages. *)
Definition path_str (p : pypath) : string :=
  match p with
  | Rel cs => String.concat "/" (comp_str <$> cs)
  | Abs cs => "/" +:+ String.concat "/" (comp_str <$> cs)
  end.

(** What happened to the child processes the script started, oldest first. *)
Inductive proc_event : Type :=
  | Spawned (cmd : list string)
  | Exited (cmd : list string) (returncode : Z)
  | Killed (cmd : list string).

(** The world a script runs in.  The root directory always exists.
    Permissions, and names that are both a file and a directory, are outside
    the model. *)
Record World : Type := mkWorld {
  cwd : path;
  dirs : gset path;
  files : gmap path content;
  console : list string;
  children : list proc_event;
}.

Definition set_cwd (p : path) (w : World) : World :=
  mkWorld p (dirs w) (files w) (console w) (children w).
Definition set_dirs (d : gset path) (w : World) : World :=
  mkWorld (cwd w) d (files w) (console w) (children w).
Definition set_files (f : gmap path content) (w : World) : World :=
  mkWorld (cwd w) (dirs w) f (console w) (children w).
Definition set_console (c : list string) (w : World) : World :=
  mkWorld (cwd w) (dirs w) (files w) c (children w).
Definition set_children (l : list proc_event) (w : World) : World :=
  mkWorld (cwd w) (dirs w) (files w) (console w) l.

(** Effectful code: the world is threaded through, and what was done before
    an exception stays done. *)
Definition io (A : Type) : Type := World -> result A * World.

#[global] Instance io_ret : MRet io := fun A a w => (Ok a, w).
#[global] Instance io_bind : MBind io :=
  fun A B f m w =>
    match m w with
    | (Ok a, w') => f a w'
    | (Raise e, w') => (Raise e, w')
    end.

Definition lift {A} (r : result A) : io A := fun w => (r, w).

(** [try: body / except Exception as e: handler e]. *)
Definition try_except {A} (body : io A) (handler : exn -> io A) : io A :=
  fun w =>
    match body w with
    | (Raise e, w') => handler e w'
    | r => r
    end.

(** [try: body / finally: fin]. *)
Definition try_finally {A} (body : io A) (fin : io unit) : io A :=
  fun w =>
    let (r, w') := body w in
    match fin w' with
    | (Ok _, w'') => (r, w'')
    | (Raise e, w'') => (Raise e, w'')
    end.

Definition print (s : string) : io unit :=
  fun w => (Ok tt, set_console (console w ++ [s]) w).

(** [os.getcwd()]: the working directory as an absolute path. *)
Definition getcwd : io pypath :=
  fun w => (Ok (Abs (Name <$> cwd w)), w).

(** [os.chdir(p)]. *)
Definition chdir (p : pypath) : io unit :=
  fun w => (Ok tt, set_cwd (resolve (cwd w) p) w).

Definition parent (p : path) : path := removelast p.

Definition dir_exists (w : World) (p : path) : bool :=
  bool_decide (p = [] ∨ p ∈ dirs w).

Definition file_exists (w : World) (p : path) : bool :=
  bool_decide (is_Some (files w !! p)).

(** [os.path.exists(p)]. *)
Definition path_exists (p : pypath) : io bool :=
  fun w =>
    let q := resolve (cwd w) p in
    (Ok (dir_exists w q || file_exists w q), w).

(** The directories [os.makedirs] makes sure of: the path and the ones
    above it. *)
Definition ancestors (p : path) : list path :=
  (fun n => take n p) <$> seq 1 (length p).

(** [os.makedirs(p, exist_ok=True)], and [os.makedirs(p)] behind an
    [os.path.exists] test. *)
Definition makedirs (p : pypath) : io unit :=
  fun w =>
    let q := resolve (cwd w) p in
    (Ok tt, set_dirs (list_to_set (ancestors q) ∪ dirs w) w).

(** [with open(p, 'w') as f: f.write(c)]: the directory of [p] has to
    exist. *)
Definition open_write (p : pypath) (c : content) : io unit :=
  fun w =>
    let q := resolve (cwd w) p in
    if dir_exists w (parent q)
    then (Ok tt, set_files (<[q := c]> (files w)) w)
    else (Raise FileNotFoundError, w).

(** [os.rename(src, dst)] of a file.  (Moving a directory is outside the
    model: it is reported as [OSError].) *)
Definition rename (src dst : pypath) : io unit :=
  fun w =>
    let s := resolve (cwd w) src in
    let d := resolve (cwd w) dst in
    match files w !! s with
    | Some c =>
        if dir_exists w (parent d)
        then (Ok tt, set_files (<[d := c]> (delete s (files w))) w)
        else (Raise FileNotFoundError, w)
    | None => (Raise OSError, w)
    end.

(** [ET.parse(p).getroot().findall('.//Flow')]. *)
Definition et_parse_flows (p : pypath) : io (list (gmap string string)) :=
  fun w =>
    match files w !! resolve (cwd w) p with
    | Some (XmlDoc flows) => (Ok flows, w)
    | Some _ => (Raise ParseError, w)
    | None => (Raise FileNotFoundError, w)
    end.

(** ** Relations between the world before and after a computation *)

(** [respects R m]: whatever [m] does and however it ends, the world after
    is related by [R] to the world before. *)
Definition respects {A} (R : World -> World -> Prop) (m : io A) : Prop :=
  forall w, R w (m w).2.

(** The working directory is the same. *)
Definition same_cwd (w w' : World) : Prop := cwd w' = cwd w.

(** No directory is lost. *)
Definition dirs_grow (w w' : World) : Prop := dirs w ⊆ dirs w'.

(** The working directory is the same and no directory is lost. *)
Definition stays (w w' : World) : Prop := same_cwd w w' /\ dirs_grow w w'.

(** Nothing but the console and the set of directories has changed, and
    these have only grown. *)
Definition quiet (w w' : World) : Prop :=
  cwd w' = cwd w /\ files w' = files w /\ children w' = children w /\
  dirs w ⊆ dirs w' /\ exists printed, console w' = (console w ++ printed)%list.

(** The working directory is the same, and no file has changed but those
    [targets] names for that working directory. *)
Definition writes_only (targets : path -> list path) (w w' : World) : Prop :=
  cwd w' = cwd w /\
  forall q, q ∉ targets (cwd w) -> files w' !! q = files w !! q.

(** [m] never raises. *)
Definition returns {A} (m : io A) : Prop :=
  forall w, exists a, (m w).1 = Ok a.

(** [m] returns, and is quiet. *)
Definition quietly (m : io unit) : Prop :=
  forall w, exists w1, m w = (Ok tt, w1) /\ quiet w w1.

End OS.
Export OS.

(* ================================================================== *)
(** * analyze_results.py *)
(* ================================================================== *)
Module AnalyzeResults.

(** The dictionary stored per flow in [self.flows]. *)
Record flow_data : Set := mkFlow {
  tx_packets : Z;
  rx_packets : Z;
  tx_bytes : Z;
  rx_bytes : Z;
  packet_loss_rate : num;
  avg_delay : num;
  avg_jitter : num;
}.

(** [self.flows]: flow id to flow data, in insertion order.  ([node_stats]
    is never used, and [footballer_names] never changes.) *)
Abbreviation flow_table := (list (Z * flow_data)).

(** [NetworkSimulationAnalyzer.__init__]. *)
Definition init_flows : flow_table := [].

Definition footballer_names : gmap nat string :=
  list_to_map
    [(0%nat, "Messi"); (1%nat, "Ronaldo"); (2%nat, "Neymar");
     (3%nat, "Mbappe"); (4%nat, "Haaland")].

(** [self.footballer_names.get(i, f"Player_{i}")]. *)
Definition footballer (i : nat) : string :=
  default ("Player_" +:+ pretty i) (footballer_names !! i).

(** One row of the data frame [export_csv_report] builds. *)
Record csv_row : Set := mkRow {
  Flow_ID : Z;
  Footballer : string;
  Packets_Sent : Z;
  Packets_Received : Z;
  Bytes_Sent : Z;
  Bytes_Received : Z;
  Packet_Loss_Rate_pct : num;
  Avg_Delay_ms : num;
  Avg_Jitter_ms : num;
  Throughput_Mbps : num;
  Success_Rate_pct : num;
}.

(** [pd.DataFrame(data).to_csv(index=False)]: the text pandas writes. *)
Class Pandas := { to_csv : list csv_row -> string }.

(** The plotting layer: how many of the four figure files it saved, and
    whether it then returned or raised. *)
Class Matplotlib := { render : flow_table -> nat * result unit }.

Definition plot_files : list string :=
  ["performance_analysis.png"; "performance_analysis.pdf";
   "performance_comparison.png"; "performance_comparison.pdf"].

(** Command-line arguments of [main], after [argparse]. *)
Record args : Set := mkArgs {
  flowmon : pypath;
  output : pypath;
  simulation_time : float;
  image_size : Z;
  no_plots : bool;
}.

(** ** The command line, as [argparse] reads it

    [parser.parse_args()] (line 281) works on strings.  A program that
    builds the command line has to know which strings the parser takes for
    the value of the option before them. *)

(** The option strings of the parser: the help option [argparse] adds and
    the five of lines 271-279. *)
Definition option_strings : list string :=
  ["-h"; "--help"; "--flowmon"; "--output"; "--simulation-time";
   "--image-size"; "--no-plots"].

Definition is_digit (a : Ascii.ascii) : bool :=
  let n := Ascii.nat_of_ascii a in ((48 <=? n) && (n <=? 57))%nat.

Fixpoint all_digits (s : string) : bool :=
  match s with
  | EmptyString => true
  | String a rest => is_digit a && all_digits rest
  end.

(** [c in s]. *)
Fixpoint has_char (c : Ascii.ascii) (s : string) : bool :=
  match s with
  | EmptyString => false
  | String a rest => Ascii.eqb a c || has_char c rest
  end.

(** [s.split(c, 1)]: the text before the first [c], and the text after it
    when there is one. *)
Fixpoint split_at (c : Ascii.ascii) (s : string) : string * option string :=
  match s with
  | EmptyString => (EmptyString, None)
  | String a rest =>
      if Ascii.eqb a c then (EmptyString, Some rest)
      else let '(before, after) := split_at c rest in (String a before, after)
  end.

(** The text without the newline at its end, if it has one: [$] in a
    pattern also matches before it. *)
Fixpoint chomp (s : string) : string :=
  match s with
  | EmptyString => EmptyString
  | String a rest =>
      match rest with
      | EmptyString => if Ascii.eqb a (Ascii.ascii_of_nat 10) then EmptyString else s
      | _ => String a (chomp rest)
      end
  end.

(** [^-\d+$|^-\d*\.\d+$]: the pattern by which [argparse] knows a negative
    number (on ASCII digits). *)
Definition negative_number (s : string) : bool :=
  match chomp s with
  | String "-"%char body =>
      match split_at "."%char body with
      | (digits, None) => negb (bool_decide (digits = "")) && all_digits digits
      | (digits, Some decimals) =>
          all_digits digits && negb (bool_decide (decimals = ""))
          && all_digits decimals
      end
  | _ => false
  end.

(** [_get_option_tuples]: the options a string of two characters or more
    that starts with ["-"] abbreviates. *)
Definition option_tuples (s : string) : list string :=
  match s with
  | String _ (String b _) =>
      if Ascii.eqb b "-"%char then
        filter (fun o => String.prefix (split_at "="%char s).1 o = true) option_strings
      else
        filter (fun o => o = String.substring 0 2 s \/ String.prefix s o = true)
               option_strings
  | _ => []
  end.

(** [_parse_optional]: whether an argument string is read as a value.  A
    string that starts with ["-"] is read as an option, known or not,
    unless it is ["-"] alone, has the form of a negative number, or holds a
    space and abbreviates no option. *)
Definition read_as_value (s : string) : bool :=
  match s with
  | EmptyString => true
  | String a rest =>
      if negb (Ascii.eqb a "-"%char) then true
      else if bool_decide (s ∈ option_strings) then false
      else if bool_decide (rest = "") then true
      else if has_char "="%char s
              && bool_decide ((split_at "="%char s).1 ∈ option_strings) then false
      else
        match option_tuples s with
        | _ :: _ => false
        | [] => negative_number s || has_char " "%char s
        end
  end.

(** What [parser.parse_args()] makes of a command line: the arguments, a
    usage error (the process exits with status 2), or an exception that
    [argparse] does not report as one. *)
Inductive command_line : Set :=
  | Parsed (a : args)
  | Rejected
  | Crashed (e : exn).

Section analyzer.
Context `{Builtins} `{Pandas} `{Matplotlib}.

(** [int(flow.get(k, 0))]. *)
Definition attr_int (flow : gmap string string) (k : string) : result Z :=
  match flow !! k with
  | Some s => int_of_string s
  | None => Ok 0
  end.

(** [float(flow.get(k, 0))]. *)
Definition attr_float (flow : gmap string string) (k : string) : result float :=
  match flow !! k with
  | Some s => float_of_string s
  | None => float_of_int 0
  end.

(** Line 37: [int(flow.get('flowId'))], the key an element is stored
    under.  ([int(None)] raises [TypeError].) *)
Definition flow_id_of (flow : gmap string string) : result Z :=
  match flow !! "flowId" with
  | Some s => int_of_string s
  | None => Raise TypeError
  end.

(** The body of the loop of [parse_flowmon_results]: the key and the value
    it stores for one [<Flow>] element. *)
Definition parse_flow (flow : gmap string string) : result (Z * flow_data) :=
  flow_id ← match flow !! "flowId" with
            | Some s => int_of_string s
            | None => Raise TypeError
            end;
  tx ← attr_int flow "txPackets";
  rx ← attr_int flow "rxPackets";
  txb ← attr_int flow "txBytes";
  rxb ← attr_int flow "rxBytes";
  loss ← (if (tx >? 0)%Z then truediv (PInt (tx - rx)) (PInt tx) else Ok (PInt 0));
  ds ← attr_float flow "delaySum";
  delay_sum ← truediv (PFloat ds) (PFloat 1e9);
  delay ← (if (rx >? 0)%Z then truediv delay_sum (PInt rx) else Ok (PInt 0));
  js ← attr_float flow "jitterSum";
  jitter_sum ← truediv (PFloat js) (PFloat 1e9);
  jitter ← (if (rx >? 1)%Z then truediv jitter_sum (PInt (rx - 1)) else Ok (PInt 0));
  Ok (flow_id, mkFlow tx rx txb rxb loss delay jitter).

(** The loop: the first element that raises ends it, and the flows stored
    so far stay. *)
Fixpoint parse_flows (els : list (gmap string string)) (flows : flow_table)
  : result unit * flow_table :=
  match els with
  | [] => (Ok tt, flows)
  | flow :: rest =>
      match parse_flow flow with
      | Ok (flow_id, d) => parse_flows rest (dict_set flow_id d flows)
      | Raise e => (Raise e, flows)
      end
  end.

Definition parse_flowmon_results (flows : flow_table) (flowmon_file : pypath)
  : io (bool * flow_table) :=
  fun w =>
    match et_parse_flows flowmon_file w with
    | (Ok els, w1) =>
        match parse_flows els flows with
        | (Ok _, flows') =>
            (print ("Successfully parsed " +:+ pretty (length flows')
                    +:+ " flows from " +:+ path_str flowmon_file);;
             mret (true, flows')) w1
        | (Raise e, flows') =>
            (print ("Error parsing FlowMonitor results: " +:+ str_of_exn e);;
             mret (false, flows')) w1
        end
    | (Raise e, w1) =>
        (print ("Error parsing FlowMonitor results: " +:+ str_of_exn e);;
         mret (false, flows)) w1
    end.

Definition calculate_throughput (fd : flow_data) (simulation_time : float)
  : result num :=
  if float_le_zero simulation_time then Ok (PInt 0)
  else
    bits ← mul (PInt (rx_bytes fd)) (PInt 8);
    usec ← mul (PFloat simulation_time) (PFloat 1e6);
    truediv bits usec.

(** [sum(flow[k] for flow in self.flows.values())]. *)
Definition total (k : flow_data -> Z) (flows : flow_table) : Z :=
  foldl Z.add 0 (k <$> dict_values flows).

(** Lines 129-130: the delivery efficiency of one flow. *)
Definition delivery_efficiency (fd : flow_data) (image_size : Z) : result num :=
  let expected_packets := (image_size + 1023) `div` 1024 in
  if (expected_packets >? 0)%Z
  then truediv (PInt (rx_packets fd)) (PInt expected_packets)
  else Ok (PInt 0).

(** The lines one iteration of the per-flow loop appends. *)
Definition flow_section (simulation_time : float) (image_size : Z)
    (i : nat) (flow_id : Z) (fd : flow_data) : result (list string) :=
  throughput ← calculate_throughput fd simulation_time;
  efficiency ← delivery_efficiency fd image_size;
  Ok [ "Flow " +:+ str_of_int flow_id +:+ " - " +:+ footballer i +:+ ":";
       "  Packets: " +:+ str_of_int (tx_packets fd) +:+ " sent, "
         +:+ str_of_int (rx_packets fd) +:+ " received";
       "  Bytes: " +:+ str_of_int (tx_bytes fd) +:+ " sent, "
         +:+ str_of_int (rx_bytes fd) +:+ " received";
       "  Packet Loss Rate: " +:+ format (packet_loss_rate fd) ".2%";
       "  Average Delay: " +:+ format (avg_delay fd) ".4f" +:+ " seconds";
       "  Average Jitter: " +:+ format (avg_jitter fd) ".4f" +:+ " seconds";
       "  Throughput: " +:+ format throughput ".2f" +:+ " Mbps";
       "  Delivery Efficiency: " +:+ format efficiency ".2%";
       "" ].

(** [for i, (flow_id, flow_data) in enumerate(self.flows.items())],
    from index [i] on. *)
Fixpoint flow_sections (simulation_time : float) (image_size : Z)
    (i : nat) (flows : flow_table) : result (list string) :=
  match flows with
  | [] => Ok []
  | (flow_id, fd) :: rest =>
      s ← flow_section simulation_time image_size i flow_id fd;
      r ← flow_sections simulation_time image_size (S i) rest;
      Ok ((s ++ r)%list)
  end.

Definition generate_performance_report (flows : flow_table)
    (simulation_time : float) (image_size : Z) : result string :=
  let header :=
    [ str_repeat "=" 60;
      "FOOTBALL NETWORK SIMULATION - PERFORMANCE REPORT";
      str_repeat "=" 60;
      "";
      "SIMULATION PARAMETERS:";
      "  Simulation Time: " +:+ str_of_float simulation_time +:+ " seconds";
      "  Image Size: " +:+ str_of_int image_size +:+ " bytes";
      "  Number of Flows: " +:+ pretty (length flows);
      "" ] in
  let total_packets_sent := total tx_packets flows in
  let total_packets_received := total rx_packets flows in
  let total_bytes_sent := total tx_bytes flows in
  let total_bytes_received := total rx_bytes flows in
  overall_packet_loss ←
    (if (total_packets_sent >? 0)%Z
     then truediv (PInt (total_packets_sent - total_packets_received))
                  (PInt total_packets_sent)
     else Ok (PInt 0));
  bits ← mul (PInt total_bytes_received) (PInt 8);
  usec ← mul (PFloat simulation_time) (PFloat 1e6);
  overall_throughput ← truediv bits usec;
  let overall :=
    [ "OVERALL NETWORK PERFORMANCE:";
      "  Total Packets Sent: " +:+ str_of_int total_packets_sent;
      "  Total Packets Received: " +:+ str_of_int total_packets_received;
      "  Overall Packet Loss Rate: " +:+ format overall_packet_loss ".2%";
      "  Overall Throughput: " +:+ format overall_throughput ".2f" +:+ " Mbps";
      "";
      "PER-FOOTBALLER TRANSMISSION STATISTICS:";
      str_repeat "-" 60 ] in
  per_flow ← flow_sections simulation_time image_size 0 flows;
  Ok (join_lines ((header ++ overall ++ per_flow)%list)).

(** The dictionary one iteration of the loop of [export_csv_report]
    appends to [data]. *)
Definition csv_row_of (simulation_time : float) (i : nat) (flow_id : Z)
    (fd : flow_data) : result csv_row :=
  throughput ← calculate_throughput fd simulation_time;
  loss_pct ← mul (packet_loss_rate fd) (PInt 100);
  delay_ms ← mul (avg_delay fd) (PInt 1000);
  jitter_ms ← mul (avg_jitter fd) (PInt 1000);
  kept ← sub (PInt 1) (packet_loss_rate fd);
  success_pct ← mul kept (PInt 100);
  Ok (mkRow flow_id (footballer i) (tx_packets fd) (rx_packets fd)
            (tx_bytes fd) (rx_bytes fd) loss_pct delay_ms jitter_ms
            throughput success_pct).

Fixpoint csv_rows (simulation_time : float) (i : nat) (flows : flow_table)
  : result (list csv_row) :=
  match flows with
  | [] => Ok []
  | (flow_id, fd) :: rest =>
      r ← csv_row_of simulation_time i flow_id fd;
      rs ← csv_rows simulation_time (S i) rest;
      Ok (r :: rs)
  end.

Definition ensure_dir (output_dir : pypath) : io unit :=
  ex ← path_exists output_dir;
  if ex then mret tt else makedirs output_dir.

Definition export_csv_report (flows : flow_table) (output_dir : pypath)
    (simulation_time : float) : io (list csv_row) :=
  ensure_dir output_dir;;
  data ← lift (csv_rows simulation_time 0 flows);
  let csv_file := join output_dir [Name "simulation_results.csv"] in
  open_write csv_file (Text (to_csv data));;
  print ("Detailed results exported to " +:+ path_str csv_file);;
  mret data.

(** [plt.savefig] of the figure files, in the order the method saves
    them. *)
Fixpoint save_figures (output_dir : pypath) (names : list string) : io unit :=
  match names with
  | [] => mret tt
  | n :: rest =>
      open_write (join output_dir [Name n]) Blob;;
      save_figures output_dir rest
  end.

(** Lines 136-235.  The first two figure files are saved at lines 203-204
    and announced at line 205; the other two at lines 231-232. *)
Definition create_visualizations (flows : flow_table) (output_dir : pypath)
  : io unit :=
  ensure_dir output_dir;;
  let '(saved, outcome) := render flows in
  save_figures output_dir (take saved (take 2 plot_files));;
  (if (2 <=? saved)%nat then
     print ("Performance plots saved to " +:+ path_str output_dir +:+ "/");;
     save_figures output_dir (take (saved - 2) (drop 2 plot_files))
   else mret tt);;
  lift outcome.

(** Lines 313-319: the plots, unless [--no-plots] was given. *)
Definition plot_step (flows : flow_table) (a : args) : io unit :=
  if no_plots a then mret tt
  else
    try_except (create_visualizations flows (output a))
      (fun e =>
         if decide (e = ImportError) then
           print "Warning: matplotlib not available. Skipping plot generation.";;
           print "Install matplotlib with: pip install matplotlib"
         else lift (Raise e)).

Definition main (a : args) : io Z :=
  let flows := init_flows in
  ex ← path_exists (flowmon a);
  if negb ex then
    print ("Error: FlowMonitor file '" +:+ path_str (flowmon a) +:+ "' not found.");;
    print "Please run the NS-3 simulation first to generate results.";;
    mret 1
  else
    '(parsed, flows) ← parse_flowmon_results flows (flowmon a);
    if negb parsed then mret 1
    else
      report ← lift (generate_performance_report flows (simulation_time a)
                                                 (image_size a));
      print report;;
      ensure_dir (output a);;
      let report_file := join (output a) [Name "performance_report.txt"] in
      open_write report_file (Text report);;
      print (nl +:+ "Performance report saved to " +:+ path_str report_file);;
      export_csv_report flows (output a) (simulation_time a);;
      plot_step flows a;;
      mret 0.

(** Where [main] reads the artifact and writes the two reports. *)
Definition artifact_path (a : args) (w : World) : path :=
  resolve (cwd w) (flowmon a).

Definition report_path (a : args) (w : World) : path :=
  resolve (cwd w) (join (output a) [Name "performance_report.txt"]).

Definition csv_path (a : args) (w : World) : path :=
  resolve (cwd w) (join (output a) [Name "simulation_results.csv"]).

(** The artifact is there and decodes to [flows]. *)
Definition artifact_flows (a : args) (w : World) (flows : flow_table) : Prop :=
  exists els,
    files w !! artifact_path a w = Some (XmlDoc els) /\
    parse_flows els init_flows = (Ok tt, flows).

(** The figure files [main] may write. *)
Definition plot_paths (a : args) (cwd : path) : list path :=
  (fun n => (resolve cwd (output a) ++ [n])%list) <$> plot_files.

(** [type=float] and [type=int]: a [ValueError] or [TypeError] of the
    conversion is reported as a usage error, any other exception is not
    handled. *)
Definition converted {A : Type} (r : result A) (k : A -> command_line)
  : command_line :=
  match r with
  | Ok x => k x
  | Raise e =>
      if bool_decide (e = ValueError \/ e = TypeError) then Rejected else Crashed e
  end.

(** [parser.parse_args()] for the command line
    [--flowmon f --output o --simulation-time t --image-size n --no-plots],
    where [f] and [o] are read as values (they do not start with ["-"]).
    An option whose value is read as an option is left without its argument,
    a usage error. *)
Definition parse_args (flowmon output : pypath) (simulation_time image_size : string)
  : command_line :=
  if negb (read_as_value simulation_time) then Rejected
  else
    converted (float_of_string simulation_time) (fun t =>
      if negb (read_as_value image_size) then Rejected
      else
        converted (int_of_string image_size) (fun n =>
          Parsed (mkArgs flowmon output t n true))).

End analyzer.

(** ** The derived metrics as the specification words them *)

(** [(tx_packets - rx_packets) / tx_packets] if [tx_packets > 0], else [0]. *)
Definition spec_packet_loss_rate (tx_packets rx_packets : Z) : result num :=
  if (tx_packets >? 0)%Z
  then truediv (PInt (tx_packets - rx_packets)) (PInt tx_packets)
  else Ok (PInt 0).

(** [(delay_sum_ns / 1e9) / rx_packets] if [rx_packets > 0], else [0]. *)
Definition spec_avg_delay (delay_sum_ns : float) (rx_packets : Z) : result num :=
  if (rx_packets >? 0)%Z
  then seconds ← truediv (PFloat delay_sum_ns) (PFloat 1e9);
       truediv seconds (PInt rx_packets)
  else Ok (PInt 0).

(** [(jitter_sum_ns / 1e9) / (rx_packets - 1)] if [rx_packets > 1], else [0]. *)
Definition spec_avg_jitter (jitter_sum_ns : float) (rx_packets : Z) : result num :=
  if (rx_packets >? 1)%Z
  then seconds ← truediv (PFloat jitter_sum_ns) (PFloat 1e9);
       truediv seconds (PInt (rx_packets - 1))
  else Ok (PInt 0).

(** [rx_bytes * 8 / (duration_s * 1e6)] if [duration_s > 0], else [0]. *)
Definition spec_throughput_mbps (rx_bytes : Z) (duration_s : float) : result num :=
  if PrimFloat.ltb 0%float duration_s
  then bits ← mul (PInt rx_bytes) (PInt 8);
       usec ← mul (PFloat duration_s) (PFloat 1e6);
       truediv bits usec
  else Ok (PInt 0).

(** [ceil(image_size_bytes / packet_size_bytes)], over the rationals. *)
Definition spec_expected_packets (image_size_bytes packet_size_bytes : Z) : Z :=
  Qceiling (inject_Z image_size_bytes / inject_Z packet_size_bytes)%Q.

Definition default_packet_size_bytes : Z := 1024.

(** [rx_packets / expected_packets] if [expected_packets > 0], else [0]. *)
Definition spec_delivery_efficiency (rx_packets expected_packets : Z) : result num :=
  if (expected_packets >? 0)%Z
  then truediv (PInt rx_packets) (PInt expected_packets)
  else Ok (PInt 0).

(** The flow ids of an artifact in the order of their first occurrence. *)
Fixpoint first_occurrences (ids : list Z) : list Z :=
  match ids with
  | [] => []
  | x :: rest => x :: filter (fun y => y ≠ x) (first_occurrences rest)
  end.

(** The data of the last entry with a given flow id. *)
Definition last_entry (flow_id : Z) (recs : list (Z * flow_data)) : option flow_data :=
  snd <$> last (filter (fun r => r.1 = flow_id) recs).

(** The configured entity names, consulted by position. *)
Definition entity_names : list string :=
  ["Messi"; "Ronaldo"; "Neymar"; "Mbappe"; "Haaland"].

(** The label of the Kth flow as the specification words it: the Kth
    configured name, or the placeholder ["Entity_<index>"]. *)
Definition spec_entity_label (K : nat) : string :=
  default ("Entity_" +:+ pretty K) (entity_names !! K).

End AnalyzeResults.

(* ================================================================== *)
(** * run_scenarios.py *)
(* ================================================================== *)
Module RunScenarios.

(** [self.config] once loaded: the values of the [DEFAULT] section and the
    named sections in file order, each option already a string. *)
Record config : Type := mkConfig {
  defaults : gmap string string;
  sections : list (string * gmap string string);
}.

(** [self.config.sections()]. *)
Definition section_names (c : config) : list string := dict_keys (sections c).

(** [self.config[name]] for a name among the sections. *)
Definition section (c : config) (name : string) : option (gmap string string) :=
  dict_get name (sections c).

(** [proxy.get(key, fallback)]: the section, then [DEFAULT], then the
    fallback. *)
Definition option_get (c : config) (sec : gmap string string)
    (key fallback : string) : string :=
  match sec !! key with
  | Some v => v
  | None => default fallback (defaults c !! key)
  end.

(** [scenario_config.get(key, fallback)] where [scenario_config] is the
    section when there is one and [{}] otherwise. *)
Definition config_get (c : config) (name key fallback : string) : string :=
  match section c name with
  | Some sec => option_get c sec key fallback
  | None => fallback
  end.

(** [s.lower()], on ASCII letters. *)
Definition ascii_lower (a : Ascii.ascii) : Ascii.ascii :=
  let n := Ascii.nat_of_ascii a in
  if ((65 <=? n) && (n <=? 90))%nat then Ascii.ascii_of_nat (n + 32) else a.

Fixpoint str_lower (s : string) : string :=
  match s with
  | EmptyString => EmptyString
  | String a rest => String (ascii_lower a) (str_lower rest)
  end.

(** [str(b)]. *)
Definition str_of_bool (b : bool) : string := if b then "True" else "False".

(** What an external program does when started with a command line in a
    working directory, given the files there are: whether it can be started
    at all, how long it runs when left alone, how it exits, and the files it
    has written by the time it exits or is killed. *)
Record behaviour : Type := mkBehaviour {
  launch_error : option exn;
  runtime : float;
  exit_code : Z;
  out : string;
  err : string;
  writes : list (path * content);
}.

(** The programs outside this repository, and the texts a Python process
    leaves on its standard error: the traceback the interpreter prints for
    an exception nobody handled, and the usage message [argparse] prints
    for a command line it rejects. *)
Class Processes := {
  behaviour_of : list string -> path -> gmap path content -> behaviour;
  traceback : exn -> string;
  usage_error : list string -> string;
}.

(** [subprocess.CompletedProcess]. *)
Record completed : Type := mkCompleted {
  returncode : Z;
  stdout : string;
  stderr : string;
}.

Definition apply_writes (ws : list (path * content)) (fs : gmap path content)
  : gmap path content :=
  foldl (fun m pc => <[pc.1 := pc.2]> m) fs ws.

Definition log_event (e : proc_event) (w : World) : World :=
  set_children (children w ++ [e]) w.

(** Command-line arguments of [main], after [argparse]. *)
Record args : Set := mkArgs {
  list_scenarios : bool;
  analyze_only : option string;
  compare : bool;
  scenario : option string;
}.

(** Truth value of an optional string argument. *)
Definition given (o : option string) : option string :=
  match o with
  | Some s => if decide (s = "") then None else Some s
  | None => None
  end.

Definition results_dir : list comp := [Name "scenario_results"].

Definition files_to_move : list string :=
  ["footballer-network-anim.xml"; "flowmon-results.xml"].

Definition sys_executable : string := "python3".

Section runner.
Context `{Builtins} `{AnalyzeResults.Pandas} `{AnalyzeResults.Matplotlib} `{Processes}.
Variable cfg : config.

(** [subprocess.run(cmd, capture_output=True, text=True, timeout=t)] between
    two readings of the clock: the completed process and the seconds that
    passed.  A program that cannot be started raises; one still running when
    the timeout expires is killed and waited for, then [TimeoutExpired] is
    raised. *)
Definition subprocess_run (cmd : list string) (timeout : option float)
  : io (completed * float) :=
  fun w =>
    let b := behaviour_of cmd (cwd w) (files w) in
    match launch_error b with
    | Some e => (Raise e, w)
    | None =>
        let w1 := set_files (apply_writes (writes b) (files w))
                            (log_event (Spawned cmd) w) in
        let expired :=
          match timeout with
          | Some t => PrimFloat.ltb t (runtime b)
          | None => false
          end in
        if expired then (Raise TimeoutExpired, log_event (Killed cmd) w1)
        else (Ok (mkCompleted (exit_code b) (out b) (err b), runtime b),
              log_event (Exited cmd (exit_code b)) w1)
    end.

(** [subprocess.run([sys.executable, "analyze_results.py", "--flowmon", f,
    "--output", o, "--simulation-time", t, "--image-size", n, "--no-plots"],
    capture_output=True, text=True)]: the analysis script of this repository
    run as a child, its console captured.  The child reads its arguments
    from the strings of the command line; when it rejects them nothing but
    the usage message is produced.  (The interpreter and the script are
    taken to be where the command line names them.) *)
Definition run_analysis (cmd : list string) (flowmon output : pypath)
    (simulation_time image_size : string) : io completed :=
  fun w =>
    let started := log_event (Spawned cmd) w in
    match AnalyzeResults.parse_args flowmon output simulation_time image_size with
    | AnalyzeResults.Rejected =>
        (Ok (mkCompleted 2 "" (usage_error cmd)), log_event (Exited cmd 2) started)
    | AnalyzeResults.Crashed e =>
        (Ok (mkCompleted 1 "" (traceback e)), log_event (Exited cmd 1) started)
    | AnalyzeResults.Parsed a =>
        let '(r, w') := AnalyzeResults.main a started in
        let printed := drop (length (console w)) (console w') in
        let code := exit_status r in
        (Ok (mkCompleted code (join_lines printed)
               (match r with Raise e => traceback e | Ok _ => "" end)),
         log_event (Exited cmd code) (set_console (console w) w'))
    end.

(** [get_scenarios]. *)
Definition get_scenarios : list string :=
  filter (fun s => String.prefix "scenario_" s = true) (section_names cfg).

(** The loop over [files_to_move]. *)
Fixpoint move_files (scenario_dir : pypath) (names : list string) : io unit :=
  match names with
  | [] => mret tt
  | filename :: rest =>
      ex ← path_exists (Rel [Name filename]);
      (if ex then rename (Rel [Name filename]) (join scenario_dir [Name filename])
       else mret tt);;
      move_files scenario_dir rest
  end.

Definition simulator_cmd (simulation_time image_size packet_size data_rate
    delay : string) (enable_netanim : bool) : list string :=
  [ "../ns3"; "run";
    "CN-ns3-project/footballer-network-sim";
    "--";
    "--simulationTime=" +:+ simulation_time;
    "--imageSize=" +:+ image_size;
    "--packetSize=" +:+ packet_size;
    "--dataRate=" +:+ data_rate;
    "--delay=" +:+ delay;
    "--enableNetAnim=" +:+ str_of_bool_lower enable_netanim ].

(** The command line [run_scenario] builds for a section. *)
Definition scenario_cmd (scenario : gmap string string) : list string :=
  simulator_cmd (option_get cfg scenario "simulation_time" "10.0")
                (option_get cfg scenario "image_size" "50000")
                (option_get cfg scenario "packet_size" "1024")
                (option_get cfg scenario "data_rate" "1Mbps")
                (option_get cfg scenario "delay" "2ms")
                (bool_decide (str_lower (option_get cfg scenario "enable_netanim" "true")
                              = "true")).

Definition timed_out_message : string := "✗ Scenario timed out after 300 seconds".

(** Lines 53-64: the banner and the parameters. *)
Definition announce (scenario_name : string) (scenario : gmap string string)
  : io unit :=
  let simulation_time := option_get cfg scenario "simulation_time" "10.0" in
  let image_size := option_get cfg scenario "image_size" "50000" in
  let packet_size := option_get cfg scenario "packet_size" "1024" in
  let data_rate := option_get cfg scenario "data_rate" "1Mbps" in
  let delay := option_get cfg scenario "delay" "2ms" in
  let enable_netanim :=
    bool_decide (str_lower (option_get cfg scenario "enable_netanim" "true") = "true") in
  let description := option_get cfg scenario "description" "No description" in
  print (nl +:+ str_repeat "=" 60);;
  print ("Running Scenario: " +:+ scenario_name);;
  print ("Description: " +:+ description);;
  print (str_repeat "=" 60);;
  print "Parameters:";;
  print ("  Simulation Time: " +:+ simulation_time +:+ "s");;
  print ("  Image Size: " +:+ image_size +:+ " bytes");;
  print ("  Packet Size: " +:+ packet_size +:+ " bytes");;
  print ("  Data Rate: " +:+ data_rate);;
  print ("  Delay: " +:+ delay);;
  print ("  NetAnim: " +:+ str_of_bool enable_netanim);;
  print "".

(** Lines 100-124: the branch for a return code of zero. *)
Definition on_success (scenario_name description : string) (scenario_dir : pypath)
    (result : completed) (execution_time : float) : io bool :=
  print ("✓ Scenario completed successfully in "
         +:+ format (PFloat execution_time) ".2f" +:+ " seconds");;
  open_write (join scenario_dir [Name "simulation_output.txt"])
    (Text ("Scenario: " +:+ scenario_name +:+ nl
           +:+ "Description: " +:+ description +:+ nl
           +:+ "Execution Time: " +:+ format (PFloat execution_time) ".2f"
           +:+ " seconds" +:+ nl
           +:+ "Return Code: " +:+ str_of_int (returncode result)
           +:+ nl +:+ nl
           +:+ "STDOUT:" +:+ nl +:+ stdout result
           +:+ nl +:+ "STDERR:" +:+ nl +:+ stderr result));;
  move_files scenario_dir files_to_move;;
  mret true.

(** Lines 126-141: the branch for any other return code. *)
Definition on_failure (scenario_name : string) (scenario_dir : pypath)
    (result : completed) (execution_time : float) : io bool :=
  print ("✗ Scenario failed with return code "
         +:+ str_of_int (returncode result));;
  print "Error output:";;
  print (stderr result);;
  open_write (join scenario_dir [Name "error_output.txt"])
    (Text ("Scenario: " +:+ scenario_name +:+ nl
           +:+ "Return Code: " +:+ str_of_int (returncode result) +:+ nl
           +:+ "Execution Time: " +:+ format (PFloat execution_time) ".2f"
           +:+ " seconds" +:+ nl +:+ nl
           +:+ "STDOUT:" +:+ nl +:+ stdout result
           +:+ nl +:+ "STDERR:" +:+ nl +:+ stderr result));;
  mret false.

(** Lines 90-141: the body of the [try] block. *)
Definition attempt (scenario_name description : string) (scenario_dir : pypath)
    (cmd : list string) : io bool :=
  chdir (Rel [Up]);;
  '(result, execution_time) ← subprocess_run cmd (Some 300%float);
  if decide (returncode result = 0)
  then on_success scenario_name description scenario_dir result execution_time
  else on_failure scenario_name scenario_dir result execution_time.

(** Lines 143-148: the two [except] clauses. *)
Definition on_exception (e : exn) : io bool :=
  if decide (e = TimeoutExpired) then
    print timed_out_message;;
    mret false
  else
    print ("✗ Error running scenario: " +:+ str_of_exn e);;
    mret false.

Definition run_scenario (scenario_name : string) : io bool :=
  match section cfg scenario_name with
  | None =>
      print ("Error: Scenario '" +:+ scenario_name +:+ "' not found in configuration.");;
      mret false
  | Some scenario =>
      let description := option_get cfg scenario "description" "No description" in
      announce scenario_name scenario;;
      let scenario_dir := Rel (results_dir ++ [Name scenario_name]) in
      makedirs scenario_dir;;
      let cmd := scenario_cmd scenario in
      print "Executing command:";;
      print (String.concat " " cmd);;
      print "";;
      original_dir ← getcwd;
      try_finally
        (try_except (attempt scenario_name description scenario_dir cmd) on_exception)
        (chdir original_dir)
  end.

Definition analyze_scenario_results (scenario_name : string) : io bool :=
  let scenario_dir := Rel (results_dir ++ [Name scenario_name]) in
  let flowmon_file := join scenario_dir [Name "flowmon-results.xml"] in
  ex ← path_exists flowmon_file;
  if negb ex then
    print ("Warning: No FlowMonitor results found for " +:+ scenario_name);;
    mret false
  else
    print ("Analyzing results for " +:+ scenario_name +:+ "...");;
    simulation_time ← lift (float_of_string
                              (config_get cfg scenario_name "simulation_time" "10.0"));
    image_size ← lift (int_of_string
                         (config_get cfg scenario_name "image_size" "50000"));
    let analysis_cmd :=
      [ sys_executable; "analyze_results.py";
        "--flowmon"; path_str flowmon_file;
        "--output"; path_str scenario_dir;
        "--simulation-time"; str_of_float simulation_time;
        "--image-size"; str_of_int image_size;
        "--no-plots" ] in
    try_except
      (result ← run_analysis analysis_cmd flowmon_file scenario_dir
                  (str_of_float simulation_time) (str_of_int image_size);
       if decide (returncode result = 0) then
         print ("✓ Analysis completed for " +:+ scenario_name);;
         mret true
       else
         print ("✗ Analysis failed for " +:+ scenario_name);;
         print (stderr result);;
         mret false)
      (fun e =>
         print ("✗ Error analyzing " +:+ scenario_name +:+ ": " +:+ str_of_exn e);;
         mret false).

(** What the loop of [run_all_scenarios] has built so far. *)
Record ledger : Type := mkLedger {
  successful_scenarios : list string;
  failed_scenarios : list string;
  results : list (string * bool);
}.

(** [for i, scenario in enumerate(scenarios, 1)], from index [i] on. *)
Fixpoint scenario_loop (count : nat) (i : nat) (scenarios : list string)
    (l : ledger) : io ledger :=
  match scenarios with
  | [] => mret l
  | scenario :: rest =>
      print (nl +:+ "[" +:+ pretty i +:+ "/" +:+ pretty count +:+ "] Processing "
             +:+ scenario +:+ "...");;
      ok ← run_scenario scenario;
      l' ← (if ok then
              analyze_scenario_results scenario;;
              mret (mkLedger (successful_scenarios l ++ [scenario])
                             (failed_scenarios l)
                             (dict_set scenario true (results l)))
            else
              mret (mkLedger (successful_scenarios l)
                             (failed_scenarios l ++ [scenario])
                             (dict_set scenario false (results l))));
      scenario_loop count (S i) rest l'
  end.

Fixpoint print_each (lines : list string) : io unit :=
  match lines with
  | [] => mret tt
  | s :: rest => print s;; print_each rest
  end.

Definition run_all_scenarios : io (list (string * bool)) :=
  let scenarios := get_scenarios in
  if decide (scenarios = []) then
    print "No scenarios found in configuration file.";;
    mret []
  else
    print ("Found " +:+ pretty (length scenarios) +:+ " scenarios to run:");;
    print_each ((fun s => "  - " +:+ s +:+ ": "
                          +:+ config_get cfg s "description" "No description")
                <$> scenarios);;
    print (nl +:+ "Results will be saved to: " +:+ path_str (Rel results_dir));;
    makedirs (Rel results_dir);;
    l ← scenario_loop (length scenarios) 1 scenarios (mkLedger [] [] []);
    print (nl +:+ str_repeat "=" 60);;
    print "SIMULATION SUMMARY";;
    print (str_repeat "=" 60);;
    print ("Total Scenarios: " +:+ pretty (length scenarios));;
    print ("Successful: " +:+ pretty (length (successful_scenarios l)));;
    print ("Failed: " +:+ pretty (length (failed_scenarios l)));;
    (if decide (successful_scenarios l = []) then mret tt
     else
       print (nl +:+ "Successful scenarios:");;
       print_each ((fun s => "  ✓ " +:+ s) <$> successful_scenarios l));;
    (if decide (failed_scenarios l = []) then mret tt
     else
       print (nl +:+ "Failed scenarios:");;
       print_each ((fun s => "  ✗ " +:+ s) <$> failed_scenarios l));;
    mret (results l).

(** The scenarios that have a tabular report, for [compare_scenarios()]
    without an argument. *)
Fixpoint with_results (scenarios : list string) : io (list string) :=
  match scenarios with
  | [] => mret []
  | s :: rest =>
      ex ← path_exists (Rel (results_dir ++ [Name s; Name "simulation_results.csv"]));
      r ← with_results rest;
      mret (if ex then s :: r else r)
  end.

(** The text [compare_scenarios] writes for one scenario. *)
Definition comparison_entry (scenario : string) : string :=
  "Scenario: " +:+ scenario +:+ nl
  +:+ "Description: " +:+ config_get cfg scenario "description" "No description" +:+ nl
  +:+ "Data Rate: " +:+ config_get cfg scenario "data_rate" "N/A" +:+ nl
  +:+ "Delay: " +:+ config_get cfg scenario "delay" "N/A" +:+ nl
  +:+ "Image Size: " +:+ config_get cfg scenario "image_size" "N/A" +:+ " bytes" +:+ nl
  +:+ str_repeat "-" 40 +:+ nl.

Definition comparison_text (scenarios : list string) : string :=
  "FOOTBALL NETWORK SIMULATION - SCENARIO COMPARISON" +:+ nl
  +:+ str_repeat "=" 60 +:+ nl +:+ nl
  +:+ String.concat "" (comparison_entry <$> scenarios).

Definition comparison_file : pypath :=
  Rel (results_dir ++ [Name "scenario_comparison.txt"]).

Definition compare_scenarios (scenarios : option (list string)) : io unit :=
  scenarios ← match scenarios with
              | Some l => mret l
              | None => with_results get_scenarios
              end;
  if decide (scenarios = []) then
    print "No scenarios with results found for comparison."
  else
    print (nl +:+ "Generating comparison report for " +:+ pretty (length scenarios)
           +:+ " scenarios...");;
    open_write comparison_file (Text (comparison_text scenarios));;
    print ("Comparison report saved to " +:+ path_str comparison_file).

(** [any(results.values())]. *)
Definition any_success (results : list (string * bool)) : bool :=
  existsb id (dict_values results).

(** The parameters [analyze_scenario_results] converts for a scenario are
    numbers. *)
Definition analysable (name : string) : Prop :=
  is_ok (float_of_string (config_get cfg name "simulation_time" "10.0")) = true /\
  is_ok (int_of_string (config_get cfg name "image_size" "50000")) = true.

(** The line that announces the [i]th of [count] scenarios. *)
Definition progress_line (count i : nat) (scenario : string) : string :=
  nl +:+ "[" +:+ pretty i +:+ "/" +:+ pretty count +:+ "] Processing "
  +:+ scenario +:+ "...".

(** The world in which the loop of [run_all_scenarios] starts: the
    scenarios are listed and [scenario_results] is made below the working
    directory. *)
Definition batch_start (w : World) : World :=
  let scenarios := get_scenarios in
  mkWorld (cwd w)
    (list_to_set (ancestors (cwd w ++ ["scenario_results"])%list) ∪ dirs w)
    (files w)
    (console w
     ++ ["Found " +:+ pretty (length scenarios) +:+ " scenarios to run:"]
     ++ ((fun s => "  - " +:+ s +:+ ": "
                   +:+ config_get cfg s "description" "No description")
         <$> scenarios)
     ++ [nl +:+ "Results will be saved to: " +:+ path_str (Rel results_dir)])%list
    (children w).

(** The runs of a batch, one after the other.  [batch_runs count i scenarios
    w outcomes w']: from the world [w] on, with the next scenario numbered
    [i], each scenario of [scenarios] is announced and run by [run_scenario]
    in the world the one before it left, and is analysed when, and only
    when, its run returned [True]; [outcomes] holds the value each run
    returned, and [w'] is the world after the last of them. *)
Inductive batch_runs (count : nat)
  : nat -> list string -> World -> list (string * bool) -> World -> Prop :=
  | batch_done (i : nat) (w : World) : batch_runs count i [] w [] w
  | batch_failed (i : nat) (name : string) (rest : list string)
      (w w1 : World) (outcomes : list (string * bool)) (w' : World) :
      run_scenario name
        (set_console (console w ++ [progress_line count i name]) w)
      = (Ok false, w1) ->
      batch_runs count (S i) rest w1 outcomes w' ->
      batch_runs count i (name :: rest) w ((name, false) :: outcomes) w'
  | batch_succeeded (i : nat) (name : string) (rest : list string)
      (w w1 : World) (analysed : bool) (w2 : World)
      (outcomes : list (string * bool)) (w' : World) :
      run_scenario name
        (set_console (console w ++ [progress_line count i name]) w)
      = (Ok true, w1) ->
      analyze_scenario_results name w1 = (Ok analysed, w2) ->
      batch_runs count (S i) rest w2 outcomes w' ->
      batch_runs count i (name :: rest) w ((name, true) :: outcomes) w'.

(** [main], with the runner's configuration already loaded. *)
Definition main (a : args) : io Z :=
  if list_scenarios a then
    print "Available scenarios:";;
    print_each ((fun s => "  " +:+ s +:+ ": "
                          +:+ config_get cfg s "description" "No description")
                <$> get_scenarios);;
    mret 0
  else
    match given (analyze_only a) with
    | Some name =>
        ok ← analyze_scenario_results name;
        mret (if ok then 0 else 1)
    | None =>
        if compare a then
          compare_scenarios None;;
          mret 0
        else
          match given (scenario a) with
          | Some name =>
              ok ← run_scenario name;
              if ok then
                analyze_scenario_results name;;
                mret 0
              else mret 1
          | None =>
              results ← run_all_scenarios;
              let successful_scenarios := (filter (fun r => r.2 = true) results).*1 in
              (if decide (successful_scenarios = []) then mret tt
               else compare_scenarios (Some successful_scenarios));;
              mret (if any_success results then 0 else 1)
          end
    end.

End runner.
End RunScenarios.

(* ================================================================== *)
(** * Reference instances, for the examples *)
(* ================================================================== *)
Module Demo.

Import AnalyzeResults RunScenarios.

(** ** [int(s)], [float(s)], [str(x)] and [format(x, spec)]

    The texts are ASCII. *)

(** The blanks [str.strip()] removes. *)
Definition is_space (a : Ascii.ascii) : bool :=
  let n := Ascii.nat_of_ascii a in
  (((9 <=? n) && (n <=? 13)) || ((28 <=? n) && (n <=? 32)))%nat.

Definition strip (s : list Ascii.ascii) : list Ascii.ascii :=
  let from_left := fix go (l : list Ascii.ascii) : list Ascii.ascii :=
    match l with
    | a :: rest => if is_space a then go rest else l
    | [] => []
    end in
  reverse (from_left (reverse (from_left s))).

Definition digit_of (a : Ascii.ascii) : option Z :=
  let n := Ascii.nat_of_ascii a in
  if ((48 <=? n) && (n <=? 57))%nat then Some (Z.of_nat (n - 48)) else None.

(** Decimal digits, with single underscores between them: their value and
    their number. *)
Fixpoint digits_from (l : list Ascii.ascii) (acc : Z) (count : nat)
    (after_digit : bool) : option (Z * nat) :=
  match l with
  | [] => if after_digit then Some (acc, count) else None
  | a :: rest =>
      match digit_of a with
      | Some d => digits_from rest (10 * acc + d) (S count) true
      | None =>
          if Ascii.eqb a "_"%char && after_digit
          then digits_from rest acc count false
          else None
      end
  end.

Definition digits_value (l : list Ascii.ascii) : option (Z * nat) :=
  digits_from l 0 0%nat false.

(** An optional sign, and the rest. *)
Definition signed (l : list Ascii.ascii) : bool * list Ascii.ascii :=
  match l with
  | a :: rest =>
      if Ascii.eqb a "-"%char then (true, rest)
      else if Ascii.eqb a "+"%char then (false, rest)
      else (false, l)
  | [] => (false, l)
  end.

(** [int(s)]: blanks around, a sign, decimal digits. *)
Definition parse_int (s : string) : result Z :=
  let '(neg, body) := signed (strip (String.list_ascii_of_string s)) in
  match digits_value body with
  | Some (z, _) => Ok (if neg then - z else z)
  | None => Raise ValueError
  end.

(** The part before the first character [p] holds of, and the part after
    it when there is one. *)
Fixpoint split_where (p : Ascii.ascii -> bool) (l : list Ascii.ascii)
  : list Ascii.ascii * option (list Ascii.ascii) :=
  match l with
  | [] => ([], None)
  | a :: rest =>
      if p a then ([], Some rest)
      else let '(before, after) := split_where p rest in (a :: before, after)
  end.

(** [n * 10^e] for [0 <= n], rounded to the nearest binary64 value, ties to
    even; too large a value is [inf]. *)
Definition decimal_to_float (n e : Z) : float :=
  if (0 <=? e)%Z then SF2Prim (binary_normalize prec emax (n * 10 ^ e) 0 false)
  else SF2Prim (SFdiv prec emax (exact n) (exact (10 ^ (- e)))).

(** The digits of a decimal literal, [digits], [digits.], [.digits] or
    [digits.digits]: their value as an integer and the number of decimals. *)
Definition mantissa (l : list Ascii.ascii) : option (Z * Z) :=
  match split_where (fun a => Ascii.eqb a "."%char) l with
  | (whole, None) => (fun v => (v.1, 0)) <$> digits_value whole
  | (whole, Some decimals) =>
      match whole, decimals with
      | [], [] => None
      | _, [] => (fun v => (v.1, 0)) <$> digits_value whole
      | [], _ => (fun v => (v.1, Z.of_nat v.2)) <$> digits_value decimals
      | _, _ =>
          w ← digits_value whole;
          d ← digits_value decimals;
          Some (w.1 * 10 ^ Z.of_nat d.2 + d.1, Z.of_nat d.2)
      end
  end.

Definition exponent (l : option (list Ascii.ascii)) : option Z :=
  match l with
  | None => Some 0
  | Some l =>
      let '(neg, body) := signed l in
      (fun v => if (neg : bool) then - v.1 else v.1) <$> digits_value body
  end.

(** [float(s)]: blanks around, a sign, then [inf], [infinity] or [nan] in
    any case, or a decimal literal with an optional exponent. *)
Definition parse_float (s : string) : result float :=
  let '(neg, body) := signed (strip (String.list_ascii_of_string s)) in
  let sign (x : float) := if (neg : bool) then PrimFloat.opp x else x in
  let word := str_lower (String.string_of_list_ascii body) in
  if bool_decide (word = "inf" \/ word = "infinity") then Ok (sign infinity)
  else if bool_decide (word = "nan") then Ok nan
  else
    let '(digits, exp) :=
      split_where (fun a => Ascii.eqb a "e"%char || Ascii.eqb a "E"%char) body in
    match mantissa digits, exponent exp with
    | Some (n, decimals), Some e => Ok (sign (decimal_to_float n (e - decimals)))
    | _, _ => Raise ValueError
    end.

(** [n / d] rounded to the nearest integer, ties to even ([0 <= n], [0 < d]). *)
Definition round_half_even (n d : Z) : Z :=
  let q := n `div` d in
  let r := n `mod` d in
  if (2 * r <? d)%Z then q
  else if (d <? 2 * r)%Z then q + 1
  else if Z.even q then q else q + 1.

(** [m * 2^e * 10^k], rounded. *)
Definition scaled (m : positive) (e : Z) (k : nat) : Z :=
  if (0 <=? e)%Z then Z.pos m * 2 ^ e * 10 ^ Z.of_nat k
  else round_half_even (Z.pos m * 10 ^ Z.of_nat k) (2 ^ (- e)).

(** The digits of [n], with a point before the last [k]. *)
Definition place_point (n : Z) (k : nat) : string :=
  let s := pretty n in
  let s := str_repeat "0" (k + 1 - String.length s) +:+ s in
  let i := (String.length s - k)%nat in
  String.substring 0 i s
  +:+ (if decide (k = 0%nat) then "" else "." +:+ String.substring i k s).

(** [format(x, '.kf')]. *)
Definition format_fixed (x : float) (k : nat) : string :=
  match Prim2SF x with
  | S754_zero s => (if s then "-" else "") +:+ place_point 0 k
  | S754_finite s m e => (if s then "-" else "") +:+ place_point (scaled m e k) k
  | S754_infinity s => if s then "-inf" else "inf"
  | S754_nan => "nan"
  end.

Definition format_num (n : num) (spec : string) : string :=
  match to_float n with
  | Ok x =>
      if decide (spec = ".2f") then format_fixed x 2
      else if decide (spec = ".4f") then format_fixed x 4
      else if decide (spec = ".2%") then
        format_fixed (PrimFloat.mul x 100%float) 2 +:+ "%"
      else ""
  | Raise _ => ""
  end.

(** ** [str(x)] for a [float]: the shortest digits that read back as [x] *)

(** [num / den * 10^k], for any [k], rounded to the nearest integer, and
    the integers below and above it. *)
Definition shifted (num den k : Z) : Z * Z :=
  if (0 <=? k)%Z then (num * 10 ^ k, den) else (num, den * 10 ^ (- k)).

(** The least [p] with [num / den < 10^p], searched upwards from [p]. *)
Fixpoint decimal_point (num den p : Z) (fuel : nat) : Z :=
  match fuel with
  | O => p
  | S fuel' =>
      let '(n, d) := shifted num den (- p) in
      if (n <? d)%Z then p else decimal_point num den (p + 1) fuel'
  end.

(** The digits [c] of a candidate with [n] digits and its decimal point
    [p]: the value [0.c * 10^p]. *)
Definition candidate_value (c n p : Z) : float := decimal_to_float c (p - n).

(** The candidates with [n] digits for [num / den], whose decimal point is
    [p]: the nearest first, then its neighbour on the other side. *)
Definition candidates (num den p n : Z) : list Z :=
  let '(a, b) := shifted num den (n - p) in
  let low := a `div` b in
  let nearest := round_half_even a b in
  [nearest; if (nearest =? low)%Z then low + 1 else low].

(** The shortest digits, from [n] digits on. *)
Fixpoint shortest_digits (x : float) (num den p n : Z) (fuel : nat) : Z * Z * Z :=
  let reads_back (c : Z) := PrimFloat.eqb (candidate_value c n p) x in
  match filter (fun c => reads_back c = true) (candidates num den p n), fuel with
  | c :: _, _ =>
      if (c =? 10 ^ n)%Z then (10 ^ (n - 1), n, p + 1) else (c, n, p)
  | [], S fuel' => shortest_digits x num den p (n + 1) fuel'
  | [], O => (round_half_even (shifted num den (n - p)).1 (shifted num den (n - p)).2, n, p)
  end.

(** [repr] of the digits [c], [n] of them, with the decimal point at [p]:
    fixed notation for [-4 < p <= 16], an exponent otherwise. *)
Definition repr_digits (c n p : Z) : string :=
  let digits := pretty c in
  if ((-4 <? p) && (p <=? 16))%Z then
    if (p <=? 0)%Z then "0." +:+ str_repeat "0" (Z.to_nat (- p)) +:+ digits
    else if (n <=? p)%Z then digits +:+ str_repeat "0" (Z.to_nat (p - n)) +:+ ".0"
    else String.substring 0 (Z.to_nat p) digits +:+ "."
         +:+ String.substring (Z.to_nat p) (Z.to_nat (n - p)) digits
  else
    let e := p - 1 in
    String.substring 0 1 digits
    +:+ (if (n =? 1)%Z then "" else "." +:+ String.substring 1 (Z.to_nat (n - 1)) digits)
    +:+ "e" +:+ (if (e <? 0)%Z then "-" else "+")
    +:+ (if (Z.abs e <? 10)%Z then "0" else "") +:+ pretty (Z.abs e).

(** [str(x)], which is [repr(x)]. *)
Definition show_float (x : float) : string :=
  match Prim2SF x with
  | S754_zero s => if s then "-0.0" else "0.0"
  | S754_infinity s => if s then "-inf" else "inf"
  | S754_nan => "nan"
  | S754_finite s m e =>
      let '(num, den) := if (0 <=? e)%Z then (Z.pos m * 2 ^ e, 1)
                         else (Z.pos m, 2 ^ (- e)) in
      let guess := ((Z.log2 num - Z.log2 den) * 30103) `div` 100000 - 1 in
      let p := decimal_point num den guess 8 in
      let '(c, n, p') := shortest_digits (PrimFloat.abs x) num den p 1 17 in
      (if s then "-" else "") +:+ repr_digits c n p'
  end.

Definition show_exn (e : exn) : string :=
  match e with
  | ZeroDivisionError => "float division by zero"
  | OverflowError => "int too large to convert to float"
  | ValueError => "could not convert string"
  | TypeError => "argument must be a string or a number"
  | ParseError => "syntax error"
  | FileNotFoundError => "[Errno 2] No such file or directory"
  | TimeoutExpired => "timed out"
  | ImportError => "No module"
  | OSError => "[Errno 5] Input/output error"
  end.

#[export] Instance builtins : Builtins :=
  {| int_of_string := parse_int;
     float_of_string := parse_float;
     str_of_float := show_float;
     format := format_num;
     str_of_exn := show_exn |}.

(** A column of numbers is a column of floats as soon as one of its cells
    is a float; its integers are then written as floats. *)
Definition float_column (column : csv_row -> num) (rows : list csv_row) : bool :=
  existsb (fun r => match column r with PFloat _ => true | PInt _ => false end) rows.

(** One cell of a column of numbers; a [nan] is left empty. *)
Definition show_cell (as_float : bool) (n : num) : string :=
  let shown (x : float) :=
    if PrimFloat.eqb x x then show_float x else "" in
  match n with
  | PFloat x => shown x
  | PInt z =>
      if as_float then
        match float_of_int z with Ok x => shown x | Raise _ => pretty z end
      else pretty z
  end.

Definition csv_header : string :=
  "Flow_ID,Footballer,Packets_Sent,Packets_Received,Bytes_Sent,Bytes_Received,"
  +:+ "Packet_Loss_Rate_%,Avg_Delay_ms,Avg_Jitter_ms,Throughput_Mbps,Success_Rate_%".

Definition csv_line (rows : list csv_row) (r : csv_row) : string :=
  let cell (column : csv_row -> num) :=
    show_cell (float_column column rows) (column r) in
  String.concat ","
    [ pretty (Flow_ID r); Footballer r; pretty (Packets_Sent r);
      pretty (Packets_Received r); pretty (Bytes_Sent r); pretty (Bytes_Received r);
      cell Packet_Loss_Rate_pct; cell Avg_Delay_ms; cell Avg_Jitter_ms;
      cell Throughput_Mbps; cell Success_Rate_pct ].

(** The text of the table: a header and a line per row; a table without
    rows has no columns either and is written as an empty line. *)
#[export] Instance pandas : Pandas :=
  {| to_csv rows :=
       match rows with
       | [] => nl
       | _ => String.concat nl (csv_header :: (csv_line rows <$> rows)) +:+ nl
       end |}.

#[export] Instance matplotlib : Matplotlib :=
  {| render _ := (4%nat, Ok tt) |}.

(** A [<Flow>] element with the six counters. *)
Definition flow_element (flow_id tx rx txb rxb ds js : string) : gmap string string :=
  list_to_map
    [ ("flowId", flow_id); ("txPackets", tx); ("rxPackets", rx);
      ("txBytes", txb); ("rxBytes", rxb); ("delaySum", ds); ("jitterSum", js) ].

(** The flow of the specification's worked example. *)
Definition example_flow : gmap string string :=
  flow_element "1" "100" "95" "100000" "95000" "2000000000" "940000000".

(** The record the worked example expects: a loss rate of 0.05, an average
    delay of about 0.0210526 s and an average jitter of 0.01 s (the literals
    stand for the nearest binary64 values). *)
#[local] Set Warnings "-inexact-float".
Definition example_record : flow_data :=
  mkFlow 100 95 100000 95000
    (PFloat 0.05) (PFloat 0.021052631578947368) (PFloat 0.01).

(** The throughput the worked example expects for a duration of 10 s. *)
Definition example_throughput : num := PFloat 0.076.
#[local] Set Warnings "inexact-float".

(** The records the elements of an artifact decode to. *)
Definition records_of (els : list (gmap string string)) : list (Z * flow_data) :=
  omap (fun flow => match parse_flow flow with Ok r => Some r | Raise _ => None end) els.

(** Six flows, their ids in decreasing order. *)
Definition six_flows : list (gmap string string) :=
  (fun flow_id => flow_element flow_id "100" "95" "100000" "95000"
                    "2000000000" "940000000")
  <$> ["60"; "50"; "40"; "30"; "20"; "10"].

(** Three elements, the first and the last with the same flow id. *)
Definition dup_flows : list (gmap string string) :=
  [ flow_element "7" "100" "95" "100000" "95000" "2000000000" "940000000";
    flow_element "3" "10" "10" "10000" "10000" "0" "0";
    flow_element "7" "50" "1" "50000" "1000" "5000000" "0" ].

(** The rows and the report lines of the six flows, for a duration of 10 s
    and an image of 50000 bytes. *)
Definition six_rows : list csv_row :=
  match csv_rows 10%float 0 (parse_flows six_flows init_flows).2 with
  | Ok rows => rows
  | Raise _ => []
  end.

Definition six_lines : list string :=
  match flow_sections 10%float 50000 0 (parse_flows six_flows init_flows).2 with
  | Ok lines => lines
  | Raise _ => []
  end.

(** A scripted simulator, told what to do by the data rate it is given:
    ["fail"] exits with 1, ["hang"] runs for 1000 seconds, ["missing"] cannot
    be started, anything else exits with 0 after writing the flow statistics
    into its working directory. *)
#[export] Instance processes : Processes :=
  {| behaviour_of cmd cwd _ :=
       if bool_decide ("--dataRate=fail" ∈ cmd) then
         mkBehaviour None 1.5%float 1 "" "simulation aborted" []
       else if bool_decide ("--dataRate=hang" ∈ cmd) then
         mkBehaviour None 1000%float 0 "" "" []
       else if bool_decide ("--dataRate=missing" ∈ cmd) then
         mkBehaviour (Some FileNotFoundError) 0%float 0 "" "" []
       else
         mkBehaviour None 2.5%float 0 "done" ""
           [((cwd ++ ["flowmon-results.xml"])%list, XmlDoc [example_flow])];
     traceback e := "Traceback (most recent call last): " +:+ show_exn e;
     usage_error cmd :=
       "usage: analyze_results.py [-h] [--flowmon FLOWMON] [--output OUTPUT]" |}.

Definition scenario_section (data_rate : string) : gmap string string :=
  list_to_map [("data_rate", data_rate); ("description", "demo")].

(** Two scenarios: the first fails, the second succeeds. *)
Definition cfg_fail_then_ok : config :=
  mkConfig ∅ [ ("scenario_a", scenario_section "fail");
               ("scenario_b", scenario_section "5Mbps") ].

(** A project directory two levels below the simulator root. *)
Definition project_dir : path := ["ns-3"; "scratch"; "CN-ns3-project"].

Definition world_at (cwd : path) : World :=
  mkWorld cwd (list_to_set (ancestors cwd)) ∅ [] [].

(** A directory holding the artifact of the worked example, and the
    arguments of an analysis of it without plots. *)
Definition analysis_world : World :=
  mkWorld ["work"] (list_to_set (ancestors ["work"]))
    {[ ["work"; "flowmon-results.xml"] := XmlDoc [example_flow] ]} [] [].

Definition analysis_args : AnalyzeResults.args :=
  AnalyzeResults.mkArgs (Rel [Name "flowmon-results.xml"]) (Rel [Name "results"])
    10%float 50000 true.

(** The arguments of a batch run: no option given. *)
Definition batch_args : RunScenarios.args :=
  RunScenarios.mkArgs false None false None.

(** Four scenarios, one for each way a run can end. *)
Definition cfg_outcomes : config :=
  mkConfig ∅ [ ("scenario_ok", scenario_section "5Mbps");
               ("scenario_fail", scenario_section "fail");
               ("scenario_slow", scenario_section "hang");
               ("scenario_nolaunch", scenario_section "missing") ].

(** The project directory, in a world where the directory above it happens
    to hold result directories of the same names. *)
Definition world_with_parent_results (names : list string) : World :=
  mkWorld project_dir
    (list_to_set (ancestors project_dir
                  ++ mjoin ((fun n => ancestors (parent project_dir
                                                 ++ ["scenario_results"; n]))
                            <$> names)))
    ∅ [] [].

End Demo.

(* ================================================================== *)
(** * Footprints: the files each script may touch *)
(* ================================================================== *)
Module Footprint.

Import AnalyzeResults RunScenarios.

(** The files [AnalyzeResults.main] may write, for a working directory:
    the two reports and the four figures, all below the output directory. *)
Definition analysis_targets (a : AnalyzeResults.args) (c0 : path) : list path :=
  (resolve c0 (join (output a) [Name "performance_report.txt"])
   :: resolve c0 (join (output a) [Name "simulation_results.csv"])
   :: plot_paths a c0)%list.

(** The files [run_scenario] may write or move itself, for the directory
    [root] the simulator is run in: the two logs and the two artifacts below
    [root/scenario_results/<name>], and the two artifacts in [root]. *)
Definition runner_targets (scenario_name : string) (root : path) : list path :=
  let scenario_dir := (root ++ ["scenario_results"; scenario_name])%list in
  ([ scenario_dir ++ ["simulation_output.txt"];
     scenario_dir ++ ["error_output.txt"] ]
   ++ ((fun f => root ++ [f]) <$> files_to_move)
   ++ ((fun f => scenario_dir ++ [f]) <$> files_to_move))%list.

(** The files as the simulator leaves them: untouched when it cannot be
    started, with what it wrote otherwise. *)
Definition files_after_simulator (b : behaviour) (fs : gmap path content)
  : gmap path content :=
  match launch_error b with
  | Some _ => fs
  | None => apply_writes (writes b) fs
  end.

(** What the log of child processes gains when [run_scenario] starts the
    simulator: nothing when it cannot be started; otherwise its start and
    its end, killed after 300 seconds or exited. *)
Definition simulator_events (cmd : list string) (b : behaviour) : list proc_event :=
  match launch_error b with
  | Some _ => []
  | None =>
      [ Spawned cmd;
        if PrimFloat.ltb 300 (runtime b) then Killed cmd
        else Exited cmd (exit_code b) ]
  end.

(** A directory, given the set of the directories below the root. *)
Definition is_dir (ds : gset path) (p : path) : Prop := p = [] \/ p ∈ ds.

(** The directories after [run_scenario] has made [scenario_results/<name>]
    below the working directory. *)
Definition dirs_with_results (scenario_name : string) (w : World) : gset path :=
  list_to_set (ancestors (cwd w ++ ["scenario_results"; scenario_name])%list) ∪ dirs w.

(** The results of a scenario can be stored: seen from the directory [root]
    the simulator ran in, [scenario_results/<name>] is a directory, so
    that the log can be opened, and neither artifact name is taken by a
    directory alone, which [os.rename] could not move as a file. *)
Definition can_store (scenario_name : string) (root : path) (ds : gset path)
    (fs : gmap path content) : Prop :=
  is_dir ds (root ++ ["scenario_results"; scenario_name])%list /\
  forall f, f ∈ files_to_move ->
            is_dir ds (root ++ [f])%list -> is_Some (fs !! (root ++ [f])%list).

(** A batch in which nothing happens but the simulators: the files they
    leave and the processes logged, scenario after scenario, each simulator
    started in [root] on the files the one before it left. *)
Fixpoint simulators_alone `{Processes} (cfg : config) (root : path)
    (names : list string) (fs : gmap path content)
  : gmap path content * list proc_event :=
  match names with
  | [] => (fs, [])
  | name :: rest =>
      match section cfg name with
      | None => simulators_alone cfg root rest fs
      | Some scenario =>
          let cmd := scenario_cmd cfg scenario in
          let b := behaviour_of cmd root fs in
          let '(fs', events) :=
            simulators_alone cfg root rest (files_after_simulator b fs) in
          (fs', (simulator_events cmd b ++ events)%list)
      end
  end.

(** No process was started or ended. *)
Definition same_children (w w' : World) : Prop := children w' = children w.

(** Only the files [targets] names may have changed, the working directory
    is the same, and no process was started. *)
Definition touches_only (targets : path -> list path) (w w' : World) : Prop :=
  writes_only targets w w' /\ children w' = children w.

(** Nothing but the console has changed. *)
Definition printed_only (w w' : World) : Prop :=
  cwd w' = cwd w /\ dirs w' = dirs w /\ files w' = files w /\
  children w' = children w.

(** [m] returns and does nothing but print. *)
Definition only_prints (m : io unit) : Prop :=
  forall w, exists w1, m w = (Ok tt, w1) /\ printed_only w w1.

(** The scenarios for which [compare_scenarios()] finds a table below the
    working directory. *)
Definition scenarios_with_results (cfg : config) (w : World) : list string :=
  filter
    (fun s =>
       let p := (cwd w ++ ["scenario_results"; s; "simulation_results.csv"])%list in
       dir_exists w p || file_exists w p = true)
    (get_scenarios cfg).

End Footprint.

(* ================================================================== *)
(** * More fixtures for the examples *)
(* ================================================================== *)
Module Fixtures.

Import AnalyzeResults RunScenarios Demo.

(** An element whose packet count is not a number. *)
Definition bad_flow : gmap string string :=
  flow_element "2" "many" "95" "100000" "95000" "2000000000" "940000000".

(** An artifact whose second element does not decode, and a directory
    holding it. *)
Definition broken_artifact : list (gmap string string) :=
  [example_flow; bad_flow; example_flow].

Definition broken_world : World :=
  mkWorld ["work"] (list_to_set (ancestors ["work"]))
    {[ ["work"; "flowmon-results.xml"] := XmlDoc broken_artifact ]} [] [].

(** An element that carries nothing but its id, and the record it decodes
    to. *)
Definition idle_flow : gmap string string := {[ "flowId" := "9" ]}.

Definition idle_record : flow_data := mkFlow 0 0 0 0 (PInt 0) (PInt 0) (PInt 0).

(** The table of the worked example. *)
Definition example_table : flow_table := [(1, example_record)].

(** The analysis of the worked example with a duration of zero, and with
    the plots asked for. *)
Definition zero_duration_args : AnalyzeResults.args :=
  AnalyzeResults.mkArgs (Rel [Name "flowmon-results.xml"]) (Rel [Name "results"])
    0%float 50000 true.

Definition plot_args : AnalyzeResults.args :=
  AnalyzeResults.mkArgs (Rel [Name "flowmon-results.xml"]) (Rel [Name "results"])
    10%float 50000 false.

(** A plotting layer that saves two figures and then raises. *)
Definition broken_plots : Matplotlib :=
  {| render _ := (2%nat, Raise ValueError) |}.

(** ** A plotting layer whose calls all return

    What is left of [create_visualizations] then is the arithmetic of the
    method itself: lines 143-145 and 187 build the lists that are plotted,
    and lines 214 and 216 divide each throughput and each delay by the
    largest of its list.  (The other expressions multiply or add floats, or
    format them, and cannot raise.) *)

(** An [int] against a [float], exactly. *)
Definition int_float_compare (z : Z) (x : float) : option comparison :=
  match Prim2SF x with
  | S754_zero _ => Some (Z.compare z 0)
  | S754_infinity false => Some Lt
  | S754_infinity true => Some Gt
  | S754_nan => None
  | S754_finite s m e =>
      let v := if s then Z.neg m else Z.pos m in
      if (0 <=? e)%Z then Some (Z.compare z (v * 2 ^ e))
      else Some (Z.compare (z * 2 ^ (- e)) v)
  end.

(** [a < b]. *)
Definition num_lt (a b : num) : bool :=
  match a, b with
  | PInt x, PInt y => (x <? y)%Z
  | PFloat x, PFloat y => PrimFloat.ltb x y
  | PInt x, PFloat y => bool_decide (int_float_compare x y = Some Lt)
  | PFloat x, PInt y => bool_decide (int_float_compare y x = Some Gt)
  end.

(** [max(l)] for a list that is not empty: the first of the largest. *)
Definition py_max (l : list num) : num :=
  match l with
  | [] => PInt 0
  | x :: rest => foldl (fun m y => if num_lt m y then y else m) x rest
  end.

(** Lines 214 and 216, for one element. *)
Definition norm_throughput (throughputs : list num) (t : num) : result num :=
  share ← truediv t (py_max throughputs);
  mul share (PInt 100).

Definition norm_delay (delays : list num) (d : num) : result num :=
  share ← truediv d (py_max delays);
  pct ← mul share (PInt 100);
  sub (PInt 100) pct.

(** The figures saved and the way the method ends: an exception of lines
    143-187 comes before any figure is saved, one of lines 214-216 after
    the first two. *)
Definition plot_arithmetic (flows : flow_table) : nat * result unit :=
  let records := dict_values flows in
  let lists :=
    mapM (fun fd => mul (packet_loss_rate fd) (PInt 100)) records;;
    delays ← mapM (fun fd => mul (avg_delay fd) (PInt 1000)) records;
    throughputs ← mapM (fun fd => calculate_throughput fd 10%float) records;
    mapM (fun fd => kept ← sub (PInt 1) (packet_loss_rate fd);
                    mul kept (PInt 100)) records;;
    Ok (delays, throughputs) in
  match lists with
  | Raise e => (0%nat, Raise e)
  | Ok (delays, throughputs) =>
      match mapM (norm_throughput throughputs) throughputs;;
            mapM (norm_delay delays) delays with
      | Raise e => (2%nat, Raise e)
      | Ok _ => (4%nat, Ok tt)
      end
  end.

Definition drawing : Matplotlib := {| render := plot_arithmetic |}.

(** A flow of which nothing arrived, and a directory holding an artifact
    with that flow alone. *)
Definition lost_flow : gmap string string :=
  flow_element "1" "100" "0" "100000" "0" "0" "0".

Definition lost_table : flow_table :=
  [(1, mkFlow 100 0 100000 0 (PFloat 1) (PInt 0) (PInt 0))].

Definition lost_world : World :=
  mkWorld ["work"] (list_to_set (ancestors ["work"]))
    {[ ["work"; "flowmon-results.xml"] := XmlDoc [lost_flow] ]} [] [].

(** Two runs of the analysis with the plots left on: the worked example
    with a plotting layer that raises, and the lost flow with one whose
    calls all return. *)
Definition run_with_broken_plots : result Z * World :=
  @AnalyzeResults.main builtins pandas broken_plots plot_args analysis_world.

Definition run_on_lost_flow : result Z * World :=
  @AnalyzeResults.main builtins pandas drawing plot_args lost_world.

(** A configuration without scenarios. *)
Definition cfg_no_scenarios : config :=
  mkConfig ∅ [ ("network", scenario_section "1Mbps") ].

(** A scenario whose duration is not a number, and its flow statistics in
    place below the project directory. *)
Definition cfg_bad_duration : config :=
  mkConfig ∅ [ ("scenario_x", {[ "simulation_time" := "fast" ]}) ].

Definition world_with_statistics (name : string) : World :=
  mkWorld project_dir
    (list_to_set (ancestors (project_dir ++ ["scenario_results"; name])%list))
    {[ (project_dir ++ ["scenario_results"; name; "flowmon-results.xml"])%list
       := XmlDoc [example_flow] ]} [] [].

(** The project directory with the table of one scenario in place. *)
Definition world_with_table (name : string) : World :=
  mkWorld project_dir
    (list_to_set (ancestors (project_dir ++ ["scenario_results"; name])%list))
    {[ (project_dir ++ ["scenario_results"; name; "simulation_results.csv"])%list
       := Text "Flow_ID" ]} [] [].

(** A scenario whose duration is zero. *)
Definition cfg_zero_duration : config :=
  mkConfig ∅ [ ("scenario_z", {[ "simulation_time" := "0" ]}) ].

(** A scenario whose duration is a small negative number. *)
Definition cfg_negative_duration : config :=
  mkConfig ∅ [ ("scenario_n", {[ "simulation_time" := "-0.00001" ]}) ].

Definition list_args : RunScenarios.args := RunScenarios.mkArgs true None false None.

Definition compare_args : RunScenarios.args := RunScenarios.mkArgs false None true None.

End Fixtures.

Local Open Scope list_scope.

(* ================================================================== *)
(** * Facts about the Python fragment *)
(* ================================================================== *)
Module PyFacts.

Lemma and_then_ok {A B} (m : result A) (k : A -> result B) (b : B) :
  and_then m k = Ok b -> exists a, m = Ok a /\ k a = Ok b.
Proof. destruct m as [a|e]; simpl; [eauto | discriminate]. Qed.

Lemma fmap_ok {A B} (f : A -> B) (m : result A) (b : B) :
  f <$> m = Ok b -> exists a, m = Ok a /\ b = f a.
Proof. destruct m as [a|e]; simpl; [|discriminate]. intros [= <-]. eauto. Qed.

(** Dividing a [float] by a non-zero constant never raises. *)
Lemma truediv_float_1e9 (x : float) :
  truediv (PFloat x) (PFloat 1e9) = Ok (PFloat (PrimFloat.div x 1e9)).
Proof. reflexivity. Qed.

Lemma filter_all {A} (P : A -> Prop) `{forall x, Decision (P x)} (l : list A) :
  (forall x, x ∈ l -> P x) -> filter P l = l.
Proof.
  induction l as [|x l IH]; intros Hall; [done|].
  rewrite filter_cons_True by (apply Hall, elem_of_cons; by left).
  f_equal. apply IH. intros y Hy. apply Hall, elem_of_cons. by right.
Qed.

Section dict_facts.
Context {K V : Type} `{EqDecision K}.
Implicit Types (d : list (K * V)) (k : K) (v : V).

Lemma dict_get_set_eq d k v : dict_get k (dict_set k v d) = Some v.
Proof.
  induction d as [|[k' v'] d IH]; simpl.
  - by rewrite decide_True.
  - destruct (decide (k' = k)) as [->|Hne]; simpl.
    + by rewrite decide_True.
    + by rewrite decide_False.
Qed.

Lemma dict_get_set_ne d k k' v :
  k ≠ k' -> dict_get k' (dict_set k v d) = dict_get k' d.
Proof.
  intros Hne. induction d as [|[k0 v0] d IH]; simpl.
  - by rewrite decide_False.
  - destruct (decide (k0 = k)) as [->|Hne0]; simpl.
    + by rewrite !decide_False.
    + destruct (decide (k0 = k')); done.
Qed.

Lemma elem_of_dict_set d k v k' v' :
  (k', v') ∈ dict_set k v d -> (k', v') = (k, v) \/ (k', v') ∈ d.
Proof.
  induction d as [|[k0 v0] d IH]; simpl.
  - intros ->%list_elem_of_singleton. by left.
  - destruct (decide (k0 = k)) as [->|Hne].
    + intros [->|?]%elem_of_cons; [by left | right; by apply elem_of_cons; right].
    + intros [->|Hin]%elem_of_cons; [right; apply elem_of_cons; by left|].
      destruct (IH Hin); [by left | right; apply elem_of_cons; by right].
Qed.

Lemma dict_keys_set d k v : dict_keys (dict_set k v d) = key_set k (dict_keys d).
Proof.
  unfold key_set, dict_keys. induction d as [|[k0 v0] d IH].
  - cbn [dict_set fmap list_fmap fst].
    destruct (decide (k ∈ [])) as [Hin|Hin]; [by apply elem_of_nil in Hin | done].
  - cbn [dict_set]. destruct (decide (k0 = k)) as [->|Hne].
    + rewrite !fmap_cons. cbn [fst].
      destruct (decide (k ∈ k :: d.*1)) as [Hin|Hin];
        [done | exfalso; apply Hin, elem_of_cons; by left].
    + rewrite !fmap_cons, IH. cbn [fst].
      destruct (decide (k ∈ d.*1)) as [Hin|Hin];
        destruct (decide (k ∈ k0 :: d.*1)) as [Hin'|Hin']; try done.
      * exfalso. apply Hin', elem_of_cons. by right.
      * apply elem_of_cons in Hin' as [->|?]; done.
Qed.

End dict_facts.
End PyFacts.

(* ================================================================== *)
(** * Facts about analyze_results.py *)
(* ================================================================== *)
Module AnalysisFacts.

Import AnalyzeResults PyFacts.

Section parsing.
Context `{Builtins}.

(** What one stored record says about the element it was read from. *)
Lemma parse_flow_metrics (flow : gmap string string) (flow_id : Z) (fd : flow_data) :
  parse_flow flow = Ok (flow_id, fd) ->
  exists delay_sum_ns jitter_sum_ns,
    attr_float flow "delaySum" = Ok delay_sum_ns /\
    attr_float flow "jitterSum" = Ok jitter_sum_ns /\
    attr_int flow "txPackets" = Ok (tx_packets fd) /\
    attr_int flow "rxPackets" = Ok (rx_packets fd) /\
    attr_int flow "txBytes" = Ok (tx_bytes fd) /\
    attr_int flow "rxBytes" = Ok (rx_bytes fd) /\
    spec_packet_loss_rate (tx_packets fd) (rx_packets fd) = Ok (packet_loss_rate fd) /\
    spec_avg_delay delay_sum_ns (rx_packets fd) = Ok (avg_delay fd) /\
    spec_avg_jitter jitter_sum_ns (rx_packets fd) = Ok (avg_jitter fd).
Proof.
  unfold parse_flow. intros Hp.
  apply and_then_ok in Hp as (fid & _ & Hp).
  apply and_then_ok in Hp as (tx & Htx & Hp).
  apply and_then_ok in Hp as (rx & Hrx & Hp).
  apply and_then_ok in Hp as (txb & Htxb & Hp).
  apply and_then_ok in Hp as (rxb & Hrxb & Hp).
  apply and_then_ok in Hp as (loss & Hloss & Hp).
  apply and_then_ok in Hp as (ds & Hds & Hp).
  apply and_then_ok in Hp as (delay_sum & Hdsum & Hp).
  apply and_then_ok in Hp as (delay & Hdelay & Hp).
  apply and_then_ok in Hp as (js & Hjs & Hp).
  apply and_then_ok in Hp as (jitter_sum & Hjsum & Hp).
  apply and_then_ok in Hp as (jitter & Hjitter & Hp).
  injection Hp as <- <-. cbn [tx_packets rx_packets tx_bytes rx_bytes
                              packet_loss_rate avg_delay avg_jitter].
  rewrite truediv_float_1e9 in Hdsum, Hjsum.
  injection Hdsum as <-. injection Hjsum as <-.
  exists ds, js. unfold spec_packet_loss_rate, spec_avg_delay, spec_avg_jitter.
  rewrite !truediv_float_1e9. by repeat split.
Qed.

(** Every record of the table was there before or comes from an element. *)
Lemma parse_flows_origin (els : list (gmap string string)) :
  forall (flows0 flows : flow_table) (r : result unit),
    parse_flows els flows0 = (r, flows) ->
    forall flow_id fd,
      (flow_id, fd) ∈ flows ->
      (flow_id, fd) ∈ flows0 \/
      exists flow, flow ∈ els /\ parse_flow flow = Ok (flow_id, fd).
Proof.
  induction els as [|flow els IH]; intros flows0 flows r; cbn [parse_flows].
  - intros [= <- <-] flow_id fd Hin. by left.
  - destruct (parse_flow flow) as [[fid d]|e] eqn:Hflow.
    + intros Hrest flow_id fd Hin.
      destruct (IH _ _ _ Hrest _ _ Hin) as [Hset|(flow' & Hel & Hok)].
      * apply elem_of_dict_set in Hset as [[= -> ->]|Hold]; [right|by left].
        exists flow. split; [apply elem_of_cons; by left | done].
      * right. exists flow'. split; [apply elem_of_cons; by right | done].
    + intros [= <- <-] flow_id fd Hin. by left.
Qed.

(** When every element decodes, the loop is a fold of [dict_set]. *)
Lemma parse_flows_all_ok (els : list (gmap string string)) (recs : list (Z * flow_data)) :
  Forall2 (fun flow r => parse_flow flow = Ok r) els recs ->
  forall flows0,
    parse_flows els flows0
    = (Ok tt, foldl (fun d r => dict_set r.1 r.2 d) flows0 recs).
Proof.
  induction 1 as [|flow [fid d] els recs Hflow _ IH]; intros flows0; cbn [parse_flows foldl].
  - done.
  - rewrite Hflow. apply IH.
Qed.

(** The key of a stored record is the element's [flowId] attribute. *)
Lemma parse_flow_id (flow : gmap string string) (flow_id : Z) (fd : flow_data) :
  parse_flow flow = Ok (flow_id, fd) -> flow_id_of flow = Ok flow_id.
Proof.
  unfold parse_flow. fold (flow_id_of flow). intros Hp.
  apply and_then_ok in Hp as (fid & Hid & Hp).
  repeat (apply and_then_ok in Hp as (? & _ & Hp)).
  injection Hp as <- _. exact Hid.
Qed.

(** Elements that all decode, with the records they decode to. *)
Lemma decoded_records (els : list (gmap string string)) (ids : list Z) :
  Forall2 (fun flow flow_id => flow_id_of flow = Ok flow_id) els ids ->
  Forall (fun flow => is_ok (parse_flow flow) = true) els ->
  exists recs : list (Z * flow_data),
    Forall2 (fun flow r => parse_flow flow = Ok r) els recs /\ recs.*1 = ids.
Proof.
  induction 1 as [|flow flow_id els ids Hid _ IH]; intros Hall.
  - exists []. by split.
  - apply Forall_cons in Hall as [Hflow Hall].
    destruct (IH Hall) as (recs & Hrecs & Hids).
    destruct (parse_flow flow) as [[fid fd]|e] eqn:Hp; [|done].
    exists ((fid, fd) :: recs). split; [by constructor|].
    rewrite fmap_cons. cbn [fst]. f_equal; [|done].
    apply parse_flow_id in Hp. congruence.
Qed.

End parsing.

(** ** Keys and values of a table built by successive assignments *)

Lemma fold_keys (recs : list (Z * flow_data)) :
  forall flows0 : flow_table,
    dict_keys (foldl (fun d r => dict_set r.1 r.2 d) flows0 recs)
    = foldl (fun ks k => key_set k ks) (dict_keys flows0) (recs.*1).
Proof.
  induction recs as [|[k v] recs IH]; intros flows0; cbn [foldl fmap list_fmap]; [done|].
  rewrite IH, dict_keys_set. done.
Qed.

Lemma key_set_first_occurrences (ids : list Z) :
  forall ks : list Z,
    foldl (fun ks k => key_set k ks) ks ids
    = ks ++ filter (fun x => x ∉ ks) (first_occurrences ids).
Proof.
  induction ids as [|x ids IH]; intros ks; cbn [foldl first_occurrences].
  - by rewrite filter_nil, app_nil_r.
  - rewrite IH. unfold key_set. destruct (decide (x ∈ ks)) as [Hin|Hnin].
    + rewrite filter_cons_False by (intros ?; done).
      rewrite list_filter_filter. f_equal. apply list_filter_iff.
      intros y. split; [|tauto]. intros Hy. split; [done|]. by intros ->.
    + rewrite filter_cons_True by done.
      rewrite <- app_assoc. cbn [app]. do 2 f_equal.
      rewrite list_filter_filter. apply list_filter_iff.
      intros y. rewrite elem_of_app, list_elem_of_singleton. tauto.
Qed.

Lemma first_occurrences_elem (ids : list Z) (x : Z) :
  x ∈ first_occurrences ids <-> x ∈ ids.
Proof.
  induction ids as [|y ids IH]; cbn [first_occurrences]; [done|].
  rewrite !elem_of_cons, list_elem_of_filter, IH.
  destruct (decide (x = y)); tauto.
Qed.

Lemma first_occurrences_NoDup (ids : list Z) : NoDup (first_occurrences ids).
Proof.
  induction ids as [|y ids IH]; cbn [first_occurrences]; constructor.
  - rewrite list_elem_of_filter. tauto.
  - by apply NoDup_filter.
Qed.

Lemma first_occurrences_length (ids : list Z) :
  length (first_occurrences ids) = size (list_to_set ids : gset Z).
Proof.
  rewrite <- (size_list_to_set (C := gset Z)) by apply first_occurrences_NoDup.
  f_equal. apply set_eq. intros x.
  by rewrite !elem_of_list_to_set, first_occurrences_elem.
Qed.

Lemma filter_other_id (x : Z) (ids : list Z) :
  x ∉ ids -> filter (fun y => y ≠ x) ids = ids.
Proof.
  induction ids as [|y ids IH]; [done|].
  intros [Hne Hnin]%not_elem_of_cons.
  rewrite filter_cons_True by done. f_equal. by apply IH.
Qed.

Lemma first_occurrences_distinct (ids : list Z) :
  NoDup ids -> first_occurrences ids = ids.
Proof.
  induction 1 as [|x ids Hnin _ IH]; cbn [first_occurrences]; [done|].
  rewrite IH. f_equal. by apply filter_other_id.
Qed.

Lemma fold_get (recs : list (Z * flow_data)) (flow_id : Z) :
  forall flows0 : flow_table,
    dict_get flow_id (foldl (fun d r => dict_set r.1 r.2 d) flows0 recs)
    = match last_entry flow_id recs with
      | Some fd => Some fd
      | None => dict_get flow_id flows0
      end.
Proof.
  unfold last_entry.
  induction recs as [|[k v] recs IH] using rev_ind; intros flows0.
  - done.
  - rewrite foldl_app, filter_app. cbn [foldl fst snd].
    destruct (decide (k = flow_id)) as [->|Hne].
    + rewrite dict_get_set_eq, filter_cons_True by done.
      by rewrite filter_nil, last_snoc.
    + rewrite dict_get_set_ne by done.
      rewrite filter_cons_False by done.
      rewrite filter_nil, app_nil_r. apply IH.
Qed.

(** An id that occurs has a last occurrence. *)
Lemma last_occurrence (ids : list Z) (x : Z) :
  x ∈ ids ->
  exists i : nat, ids !! i = Some x /\ forall j : nat, (i < j)%nat -> ids !! j <> Some x.
Proof.
  induction ids as [|y ids IH] using rev_ind; [by intros ?%elem_of_nil|].
  intros Hin. destruct (decide (y = x)) as [->|Hne].
  - exists (length ids). split.
    + by rewrite lookup_app_r, Nat.sub_diag by lia.
    + intros j Hj Hlook. apply lookup_lt_Some in Hlook.
      rewrite length_app in Hlook. cbn [length] in Hlook. lia.
  - apply elem_of_app in Hin as [Hin|Hin%list_elem_of_singleton]; [|congruence].
    destruct (IH Hin) as (i & Hi & Hlast). exists i. split.
    + by apply lookup_app_l_Some.
    + intros j Hj Hlook. destruct (decide (j < length ids)%nat) as [Hlt|Hge].
      * rewrite lookup_app_l in Hlook by done. by apply (Hlast j).
      * rewrite lookup_app_r in Hlook by lia.
        destruct (j - length ids)%nat as [|n]; simpl in Hlook; [congruence|].
        by rewrite lookup_nil in Hlook.
Qed.

(** After successive assignments a key holds the value assigned to it
    last. *)
Lemma fold_get_last (recs : list (Z * flow_data)) (i : nat) (flow_id : Z)
    (fd : flow_data) :
  forall flows0 : flow_table,
    recs !! i = Some (flow_id, fd) ->
    (forall j : nat, (i < j)%nat -> recs.*1 !! j <> Some flow_id) ->
    dict_get flow_id (foldl (fun d r => dict_set r.1 r.2 d) flows0 recs) = Some fd.
Proof.
  induction recs as [|[k v] recs IH] using rev_ind; intros flows0 Hi Hlast; [done|].
  rewrite foldl_app. cbn [foldl fst snd].
  destruct (decide (i < length recs)%nat) as [Hlt|Hge].
  - rewrite lookup_app_l in Hi by done.
    assert (Hne : k <> flow_id).
    { intros ->. apply (Hlast (length recs) Hlt).
      rewrite fmap_app, lookup_app_r by (rewrite length_fmap; lia).
      by rewrite length_fmap, Nat.sub_diag. }
    rewrite dict_get_set_ne by done. apply IH; [done|].
    intros j Hj Hlook. apply (Hlast j Hj).
    rewrite fmap_app. by apply lookup_app_l_Some.
  - pose proof (lookup_lt_Some _ _ _ Hi) as Hlen.
    rewrite length_app in Hlen. cbn [length] in Hlen.
    rewrite lookup_app_r in Hi by lia.
    replace (i - length recs)%nat with 0%nat in Hi by lia.
    injection Hi as -> ->. apply dict_get_set_eq.
Qed.

(** Under pairwise distinct keys, a pair of the table is what its key
    holds. *)
Lemma dict_get_lookup (flows : flow_table) (K : nat) (flow_id : Z) (fd : flow_data) :
  NoDup (dict_keys flows) ->
  flows !! K = Some (flow_id, fd) -> dict_get flow_id flows = Some fd.
Proof.
  unfold dict_keys. revert K.
  induction flows as [|[k v] flows IH]; intros K Hnd Hk; [done|].
  rewrite fmap_cons in Hnd. cbn [fst] in Hnd. apply NoDup_cons in Hnd as [Hnin Hnd].
  cbn [dict_get]. destruct K as [|K]; cbn in Hk.
  - injection Hk as -> ->. by rewrite decide_True.
  - rewrite decide_False; [by apply (IH K)|].
    intros ->. apply Hnin. apply list_elem_of_fmap. exists (flow_id, fd).
    split; [done|]. by eapply list_elem_of_lookup_2.
Qed.

Section claims.
Context `{Builtins}.

(** C1: every flow record that parsing stores carries the counters of an
    element of the artifact, and its derived metrics are the specification's
    guarded formulas on those counters: the loss rate is
    [(tx - rx) / tx] for [tx > 0] and [0] otherwise, the average delay is
    [(delaySum / 1e9) / rx] for [rx > 0] and [0] otherwise, the average
    jitter is [(jitterSum / 1e9) / (rx - 1)] for [rx > 1] and [0]
    otherwise; in particular the jitter is [0] whenever [rx <= 1]. *)
Theorem derived_metrics_match_spec
    (els : list (gmap string string)) (flows : flow_table) (r : result unit)
    (flow_id : Z) (fd : flow_data) :
  parse_flows els init_flows = (r, flows) ->
  (flow_id, fd) ∈ flows ->
  exists (flow : gmap string string) (delay_sum_ns jitter_sum_ns : float),
    flow ∈ els /\
    attr_int flow "txPackets" = Ok (tx_packets fd) /\
    attr_int flow "rxPackets" = Ok (rx_packets fd) /\
    attr_float flow "delaySum" = Ok delay_sum_ns /\
    attr_float flow "jitterSum" = Ok jitter_sum_ns /\
    spec_packet_loss_rate (tx_packets fd) (rx_packets fd) = Ok (packet_loss_rate fd) /\
    spec_avg_delay delay_sum_ns (rx_packets fd) = Ok (avg_delay fd) /\
    spec_avg_jitter jitter_sum_ns (rx_packets fd) = Ok (avg_jitter fd) /\
    (rx_packets fd <= 1 -> avg_jitter fd = PInt 0) /\
    (tx_packets fd <= 0 -> packet_loss_rate fd = PInt 0).
Proof.
  intros Hparse Hin.
  destruct (parse_flows_origin _ _ _ _ Hparse _ _ Hin) as [Hnil|(flow & Hel & Hok)].
  { by apply elem_of_nil in Hnil. }
  destruct (parse_flow_metrics _ _ _ Hok)
    as (ds & js & Hds & Hjs & Htx & Hrx & _ & _ & Hloss & Hdelay & Hjitter).
  exists flow, ds, js. repeat split; try done.
  - intros Hle. unfold spec_avg_jitter in Hjitter.
    destruct (Z.gtb_spec (rx_packets fd) 1); [lia | congruence].
  - intros Hle. unfold spec_packet_loss_rate in Hloss.
    destruct (Z.gtb_spec (tx_packets fd) 0); [lia | congruence].
Qed.

End claims.
End AnalysisFacts.

Module ReportFacts.

Import AnalyzeResults PyFacts AnalysisFacts.

(** The integer expression of line 129 is the ceiling of the quotient. *)
Lemma expected_packets_is_ceiling (image_size : Z) :
  (image_size + 1023) `div` 1024
  = spec_expected_packets image_size default_packet_size_bytes.
Proof.
  unfold spec_expected_packets, default_packet_size_bytes, Qceiling, Qfloor.
  cbn. rewrite Z.mul_1_r. change (Z.pos (1 * 1024)) with 1024.
  pose proof (Z.div_mod (image_size + 1023) 1024 ltac:(lia)).
  pose proof (Z.mod_pos_bound (image_size + 1023) 1024 ltac:(lia)).
  pose proof (Z.div_mod (- image_size) 1024 ltac:(lia)).
  pose proof (Z.mod_pos_bound (- image_size) 1024 ltac:(lia)).
  lia.
Qed.

(** Assignments under pairwise distinct keys append. *)
Lemma dict_set_fresh (k : Z) (v : flow_data) (d : flow_table) :
  k ∉ dict_keys d -> dict_set k v d = d ++ [(k, v)].
Proof.
  unfold dict_keys. induction d as [|[k0 v0] d IH]; [done|].
  rewrite fmap_cons. cbn [fst dict_set app].
  intros [Hne Hnin]%not_elem_of_cons.
  rewrite decide_False by done. f_equal. by apply IH.
Qed.

Lemma fold_distinct (recs : list (Z * flow_data)) :
  forall flows0 : flow_table,
    NoDup (dict_keys flows0 ++ recs.*1) ->
    foldl (fun d r => dict_set r.1 r.2 d) flows0 recs = flows0 ++ recs.
Proof.
  unfold dict_keys. induction recs as [|[k v] recs IH]; intros flows0 Hnd.
  - by rewrite app_nil_r.
  - cbn [foldl fst snd]. rewrite fmap_cons in Hnd. cbn [fst] in Hnd.
    assert (Hfresh : k ∉ flows0.*1).
    { apply NoDup_app in Hnd as (_ & Hdisj & _). intros Hin.
      apply (Hdisj _ Hin), elem_of_cons. by left. }
    rewrite dict_set_fresh by done. rewrite IH.
    + by rewrite <- app_assoc.
    + rewrite fmap_app, <- app_assoc. done.
Qed.

(** The names of [self.footballer_names] are [entity_names] by position. *)
Lemma footballer_names_lookup (i : nat) : footballer_names !! i = entity_names !! i.
Proof.
  do 5 (destruct i as [|i]; [reflexivity|]).
  unfold footballer_names. cbn [list_to_map foldr uncurry fst snd].
  by rewrite !lookup_insert_ne, lookup_empty by lia.
Qed.

Lemma footballer_by_position (i : nat) :
  footballer i = default ("Player_" +:+ pretty i) (entity_names !! i).
Proof. unfold footballer. by rewrite footballer_names_lookup. Qed.

Section reports.
Context `{Builtins}.

Lemma csv_rows_lookup (simulation_time : float) (flows : flow_table) :
  forall (i K : nat) (rows : list csv_row) flow_id fd,
    csv_rows simulation_time i flows = Ok rows ->
    flows !! K = Some (flow_id, fd) ->
    exists row,
      rows !! K = Some row /\ Flow_ID row = flow_id /\
      Footballer row = footballer (i + K).
Proof.
  induction flows as [|[fid d] flows IH]; intros i K rows flow_id fd Hrows Hk.
  - done.
  - cbn [csv_rows] in Hrows.
    apply and_then_ok in Hrows as (r & Hr & Hrows).
    apply and_then_ok in Hrows as (rs & Hrs & Hrows).
    injection Hrows as <-.
    destruct K as [|K]; cbn in Hk.
    + injection Hk as -> ->. exists r. split; [done|].
      unfold csv_row_of in Hr.
      repeat (apply and_then_ok in Hr as (? & _ & Hr)).
      injection Hr as <-. cbn. by rewrite Nat.add_0_r.
    + destruct (IH _ _ _ _ _ Hrs Hk) as (row & Hrow & Hid & Hname).
      exists row. split; [done|]. split; [done|].
      rewrite Hname. by replace (S i + K)%nat with (i + S K)%nat by lia.
Qed.

Lemma flow_sections_lookup (simulation_time : float) (image_size : Z)
    (flows : flow_table) :
  forall (i K : nat) (lines : list string) flow_id fd,
    flow_sections simulation_time image_size i flows = Ok lines ->
    flows !! K = Some (flow_id, fd) ->
    lines !! (9 * K)%nat
    = Some ("Flow " +:+ str_of_int flow_id +:+ " - " +:+ footballer (i + K) +:+ ":").
Proof.
  induction flows as [|[fid d] flows IH]; intros i K lines flow_id fd Hlines Hk.
  - done.
  - cbn [flow_sections] in Hlines.
    apply and_then_ok in Hlines as (s & Hs & Hlines).
    apply and_then_ok in Hlines as (rest & Hrest & Hlines).
    injection Hlines as <-.
    unfold flow_section in Hs.
    apply and_then_ok in Hs as (t & _ & Hs).
    apply and_then_ok in Hs as (e & _ & Hs).
    injection Hs as <-.
    destruct K as [|K]; cbn in Hk.
    + injection Hk as -> ->. cbn. by rewrite Nat.add_0_r.
    + rewrite lookup_app_r by (cbn [length]; lia).
      replace (9 * S K - _)%nat with (9 * K)%nat by (cbn [length]; lia).
      rewrite (IH _ _ _ _ _ Hrest Hk).
      by replace (S i + K)%nat with (i + S K)%nat by lia.
Qed.

(** C8: the delivery efficiency the report prints for a flow is
    [rx_packets / expected_packets] when [expected_packets > 0] and [0]
    otherwise, with [expected_packets = ceil(image_size / 1024)], 1024 bytes
    being the packet size the analysis assumes. *)
Theorem delivery_efficiency_formula (fd : flow_data) (image_size : Z) :
  delivery_efficiency fd image_size
  = spec_delivery_efficiency (rx_packets fd)
      (spec_expected_packets image_size default_packet_size_bytes)
  /\ forall (simulation_time : float) (i : nat) (flow_id : Z) (lines : list string),
       flow_section simulation_time image_size i flow_id fd = Ok lines ->
       exists efficiency,
         spec_delivery_efficiency (rx_packets fd)
           (spec_expected_packets image_size default_packet_size_bytes)
         = Ok efficiency /\
         lines !! 7%nat = Some ("  Delivery Efficiency: " +:+ format efficiency ".2%").
Proof.
  assert (Heq : delivery_efficiency fd image_size
                = spec_delivery_efficiency (rx_packets fd)
                    (spec_expected_packets image_size default_packet_size_bytes)).
  { unfold delivery_efficiency, spec_delivery_efficiency.
    by rewrite expected_packets_is_ceiling. }
  split; [done|].
  intros simulation_time i flow_id lines Hs. unfold flow_section in Hs.
  apply and_then_ok in Hs as (t & _ & Hs).
  apply and_then_ok in Hs as (e & He & Hs).
  injection Hs as <-. exists e. by rewrite <- Heq.
Qed.

(** C2 (what the code does): the per-flow throughput is guarded and is [0]
    for a duration of [0], but the overall throughput of the report divides
    without a guard: for a duration of [0] generating the report raises,
    whatever the flows, and with no flows the exception is
    [ZeroDivisionError]. *)
Theorem overall_throughput_unguarded (flows : flow_table) (image_size : Z) :
  (forall fd, calculate_throughput fd 0%float = Ok (PInt 0)) /\
  (exists e, generate_performance_report flows 0%float image_size = Raise e) /\
  generate_performance_report init_flows 0%float image_size = Raise ZeroDivisionError.
Proof.
  split; [done|]. split; [|done].
  unfold generate_performance_report.
  destruct (if (total tx_packets flows >? 0)%Z then _ else _) as [loss|e]; [|by eexists].
  cbn [and_then mbind result_bind mul].
  change (to_float (PFloat 0)) with (Ok 0%float).
  change (to_float (PFloat 1e6)) with (Ok 1e6%float).
  cbn [and_then mbind result_bind].
  change (PrimFloat.mul 0 1e6) with 0%float.
  unfold truediv. cbn [to_float].
  destruct (float_of_int (total rx_bytes flows * 8)) as [x|e]; [|by eexists].
  cbn [and_then mbind result_bind]. unfold float_truediv.
  change (PrimFloat.eqb 0 0) with true. cbn. by eexists.
Qed.

End reports.
End ReportFacts.

Module LabelFacts.

Import AnalyzeResults PyFacts AnalysisFacts ReportFacts.

Section labels.
Context `{Builtins}.

(** C3 (amended): when the elements of an artifact decode and their flow
    ids are pairwise distinct, the Kth element (counting from 0) is the Kth
    row of the tabular export and the Kth section of the text report, and
    both carry the Kth configured name whatever the flow id is; past the end
    of the five names the label is ["Player_<K>"]. *)
Theorem labels_follow_position
    (els : list (gmap string string)) (recs : list (Z * flow_data))
    (simulation_time : float) (image_size : Z)
    (rows : list csv_row) (lines : list string)
    (K : nat) (flow_id : Z) (fd : flow_data) :
  Forall2 (fun flow r => parse_flow flow = Ok r) els recs ->
  NoDup (recs.*1) ->
  recs !! K = Some (flow_id, fd) ->
  csv_rows simulation_time 0 (parse_flows els init_flows).2 = Ok rows ->
  flow_sections simulation_time image_size 0 (parse_flows els init_flows).2 = Ok lines ->
  (exists row,
     rows !! K = Some row /\ Flow_ID row = flow_id /\
     Footballer row = default ("Player_" +:+ pretty K) (entity_names !! K)) /\
  lines !! (9 * K)%nat
  = Some ("Flow " +:+ str_of_int flow_id +:+ " - "
          +:+ default ("Player_" +:+ pretty K) (entity_names !! K) +:+ ":").
Proof.
  intros Hall Hnd Hk Hrows Hlines.
  rewrite (parse_flows_all_ok _ _ Hall) in Hrows, Hlines. cbn [snd] in Hrows, Hlines.
  rewrite fold_distinct in Hrows, Hlines by done.
  cbn [init_flows app] in Hrows, Hlines.
  rewrite <- footballer_by_position. split.
  - apply (csv_rows_lookup _ _ _ _ _ _ _ Hrows Hk).
  - apply (flow_sections_lookup _ _ _ _ _ _ _ _ Hlines Hk).
Qed.


End labels.
End LabelFacts.

(* ================================================================== *)
(** * Examples for the analysis *)
(* ================================================================== *)
Module AnalysisExamples.

Import AnalyzeResults PyFacts AnalysisFacts ReportFacts LabelFacts Demo.

(** The worked example of the specification: 100 packets sent, 95
    received, a delay sum of 2e9 ns and a jitter sum of 9.4e8 ns. *)
Example worked_example :
  parse_flow example_flow = Ok (1, example_record) /\
  calculate_throughput example_record 10%float = Ok example_throughput.
Proof. split; vm_compute; reflexivity. Qed.

Lemma derived_metrics_match_spec_witness :
  exists (flow : gmap string string) (delay_sum_ns jitter_sum_ns : float),
    flow ∈ [example_flow] /\
    attr_int flow "txPackets" = Ok (tx_packets example_record) /\
    attr_int flow "rxPackets" = Ok (rx_packets example_record) /\
    attr_float flow "delaySum" = Ok delay_sum_ns /\
    attr_float flow "jitterSum" = Ok jitter_sum_ns /\
    spec_packet_loss_rate (tx_packets example_record) (rx_packets example_record)
    = Ok (packet_loss_rate example_record) /\
    spec_avg_delay delay_sum_ns (rx_packets example_record)
    = Ok (avg_delay example_record) /\
    spec_avg_jitter jitter_sum_ns (rx_packets example_record)
    = Ok (avg_jitter example_record) /\
    (rx_packets example_record <= 1 -> avg_jitter example_record = PInt 0) /\
    (tx_packets example_record <= 0 -> packet_loss_rate example_record = PInt 0).
Proof.
  apply (derived_metrics_match_spec [example_flow] [(1, example_record)]
           (Ok tt) 1 example_record).
  - vm_compute. reflexivity.
  - apply list_elem_of_singleton. reflexivity.
Defined.


(** The same artifact, evaluated: two records for three elements, flow 7
    first with the counters of its second element. *)
Example duplicate_flow_ids_evaluated :
  dict_keys (parse_flows dup_flows init_flows).2 = [7; 3] /\
  tx_packets <$> dict_get 7 (parse_flows dup_flows init_flows).2 = Some 50.
Proof. split; vm_compute; reflexivity. Qed.

Lemma labels_follow_position_witness :
  (exists row,
     six_rows !! 5%nat = Some row /\ Flow_ID row = 10 /\
     Footballer row = "Player_5") /\
  six_lines !! 45%nat = Some "Flow 10 - Player_5:".
Proof.
  apply (labels_follow_position six_flows (records_of six_flows)
           10%float 50000 six_rows six_lines 5 10 example_record).
  - repeat (constructor; [vm_compute; reflexivity|]). constructor.
  - apply (bool_decide_unpack (NoDup _)). vm_compute. exact I.
  - vm_compute. reflexivity.
  - vm_compute. reflexivity.
  - vm_compute. reflexivity.
Defined.

Lemma delivery_efficiency_formula_witness :
  exists lines efficiency,
    flow_section 10%float 50000 0 1 example_record = Ok lines /\
    spec_delivery_efficiency 95
      (spec_expected_packets 50000 default_packet_size_bytes) = Ok efficiency /\
    lines !! 7%nat = Some ("  Delivery Efficiency: " +:+ format efficiency ".2%").
Proof.
  destruct (flow_section 10%float 50000 0 1 example_record) as [lines|e] eqn:Hs;
    [|vm_compute in Hs; discriminate].
  destruct (proj2 (delivery_efficiency_formula example_record 50000) _ _ _ _ Hs)
    as (efficiency & Heff & Hline).
  exists lines, efficiency. split; [reflexivity|]. split; [exact Heff | exact Hline].
Defined.

(** The line of the worked example: 95 packets of the 49 expected. *)
Example delivery_efficiency_of_worked_example :
  (flow_section 10%float 50000 0 1 example_record ≫= fun lines => Ok (lines !! 7%nat))
  = Ok (Some "  Delivery Efficiency: 193.88%").
Proof. vm_compute. reflexivity. Qed.

(** C3 (as stated, refuted): with six flows the sixth label is
    ["Player_5"], not the ["Entity_5"] of the specification. *)
Lemma sixth_label_is_Player_5 :
  exists rows,
    csv_rows 10%float 0 (parse_flows six_flows init_flows).2 = Ok rows /\
    Footballer <$> rows !! 5%nat = Some "Player_5" /\
    Footballer <$> rows !! 5%nat <> Some (spec_entity_label 5).
Proof.
  exists six_rows. split; [vm_compute; reflexivity|].
  split; [vm_compute; reflexivity | vm_compute; discriminate].
Qed.

End AnalysisExamples.

(* ================================================================== *)
(** * Facts about the process environment *)
(* ================================================================== *)
Module OSFacts.

Lemma resolve_names_from (c p : path) : fold_left step (Name <$> c) p = p ++ c.
Proof.
  revert p. induction c as [|x c IH]; intros p; cbn [fmap list_fmap fold_left step].
  - by rewrite app_nil_r.
  - rewrite IH, <- app_assoc. done.
Qed.

(** Going to the directory [os.getcwd()] returned leads back to it. *)
Lemma resolve_getcwd (c cwd' : path) : resolve cwd' (Abs (Name <$> c)) = c.
Proof. unfold resolve. by rewrite resolve_names_from. Qed.

Lemma resolve_join (c : path) (p : pypath) (x : string) :
  resolve c (join p [Name x]) = resolve c p ++ [x].
Proof. destruct p; cbn [join resolve]; by rewrite fold_left_app. Qed.

Lemma parent_snoc (p : path) (x : string) : parent (p ++ [x]) = p.
Proof. apply removelast_last. Qed.

Lemma and_then_io {A B} (m : io A) (k : A -> io B) (w : World) :
  and_then m k w
  = match m w with
    | (Ok a, w') => k a w'
    | (Raise e, w') => (Raise e, w')
    end.
Proof. reflexivity. Qed.

(** [finally: os.chdir(original_dir)] undoes any change of directory. *)
Lemma try_finally_chdir_back {A} (body : io A) (c : path) (w : World) :
  cwd (try_finally body (chdir (Abs (Name <$> c))) w).2 = c.
Proof.
  unfold try_finally. destruct (body w) as [r w']. cbn. apply resolve_names_from.
Qed.

Lemma try_finally_chdir_result {A} (body : io A) (c : path) (w : World) :
  (try_finally body (chdir (Abs (Name <$> c))) w)
  = ((body w).1, set_cwd c (body w).2).
Proof.
  unfold try_finally. destruct (body w) as [r w']. cbn.
  by rewrite resolve_names_from.
Qed.

Section respects.
Context (R : World -> World -> Prop).
Context (R_refl : forall w, R w w).
Context (R_trans : forall a b c, R a b -> R b c -> R a c).

Lemma respects_ret {A} (a : A) : respects R (mret a : io A).
Proof. intros w. apply R_refl. Qed.

Lemma respects_lift {A} (r : result A) : respects R (lift r).
Proof. intros w. apply R_refl. Qed.

Lemma respects_and_then {A B} (m : io A) (k : A -> io B) :
  respects R m -> (forall a, respects R (k a)) -> respects R (and_then m k).
Proof.
  intros Hm Hk w. rewrite and_then_io. specialize (Hm w).
  destruct (m w) as [[a|e] w']; cbn [snd] in *; [|done].
  eapply R_trans; [exact Hm | apply Hk].
Qed.

Lemma respects_try_except {A} (body : io A) (handler : exn -> io A) :
  respects R body -> (forall e, respects R (handler e)) ->
  respects R (try_except body handler).
Proof.
  intros Hm Hk w. unfold try_except. specialize (Hm w).
  destruct (body w) as [[a|e] w']; cbn [snd] in *; [done|].
  eapply R_trans; [exact Hm | apply Hk].
Qed.

Lemma respects_try_finally {A} (body : io A) (fin : io unit) :
  respects R body -> respects R fin -> respects R (try_finally body fin).
Proof.
  intros Hm Hf w. unfold try_finally. specialize (Hm w).
  destruct (body w) as [r w']. specialize (Hf w').
  destruct (fin w') as [[[]|e] w'']; cbn [snd] in *;
    (eapply R_trans; [exact Hm | exact Hf]).
Qed.

End respects.

Lemma stays_refl (w : World) : stays w w.
Proof. split; [reflexivity | unfold dirs_grow; set_solver]. Qed.

Lemma stays_trans (a b c : World) : stays a b -> stays b c -> stays a c.
Proof.
  unfold stays, same_cwd, dirs_grow. intros [-> ?] [-> ?]. split; [done | set_solver].
Qed.

Lemma dirs_grow_refl (w : World) : dirs_grow w w.
Proof. unfold dirs_grow. set_solver. Qed.

Lemma dirs_grow_trans (a b c : World) : dirs_grow a b -> dirs_grow b c -> dirs_grow a c.
Proof. unfold dirs_grow. set_solver. Qed.

Lemma same_cwd_refl (w : World) : same_cwd w w.
Proof. reflexivity. Qed.

Lemma same_cwd_trans (a b c : World) : same_cwd a b -> same_cwd b c -> same_cwd a c.
Proof. unfold same_cwd. congruence. Qed.

(** Closes [stays w w'] when [w'] is [w] with files or console changed. *)
Ltac stays_now := split; [reflexivity | unfold dirs_grow; cbn; set_solver].

(** The primitives, [os.chdir] apart, leave the working directory alone, and
    none of them removes a directory. *)
Lemma stays_print (s : string) : respects stays (print s).
Proof. intros w. stays_now. Qed.

Lemma stays_path_exists (p : pypath) : respects stays (path_exists p).
Proof. intros w. stays_now. Qed.

Lemma stays_makedirs (p : pypath) : respects stays (makedirs p).
Proof. intros w. stays_now. Qed.

Lemma stays_open_write (p : pypath) (c : content) : respects stays (open_write p c).
Proof. intros w. unfold open_write. destruct (dir_exists _ _); stays_now. Qed.

Lemma stays_rename (src dst : pypath) : respects stays (rename src dst).
Proof.
  intros w. unfold rename. destruct (files w !! _); [|stays_now].
  destruct (dir_exists _ _); stays_now.
Qed.

Lemma stays_et_parse_flows (p : pypath) : respects stays (et_parse_flows p).
Proof.
  intros w. unfold et_parse_flows.
  destruct (files w !! _) as [[]|]; stays_now.
Qed.

Lemma stays_getcwd : respects stays getcwd.
Proof. intros w. stays_now. Qed.

Lemma dirs_grow_chdir (p : pypath) : respects dirs_grow (chdir p).
Proof. intros w. unfold dirs_grow. cbn. set_solver. Qed.

Lemma stays_dirs_grow {A} (m : io A) : respects stays m -> respects dirs_grow m.
Proof. intros Hm w. apply Hm. Qed.

Lemma stays_same_cwd {A} (m : io A) : respects stays m -> respects same_cwd m.
Proof. intros Hm w. apply Hm. Qed.

End OSFacts.

(* ================================================================== *)
(** * Frames: what the two scripts leave alone *)
(* ================================================================== *)
Module FrameFacts.

Import AnalyzeResults RunScenarios PyFacts OSFacts.

(** Decomposes a goal [respects R m] along the structure of [m]; [refl] and
    [trans] are the proofs that [R] is reflexive and transitive, [prim]
    solves the primitives. *)
Ltac respects_with refl trans prim :=
  repeat match goal with
    | |- forall _, _ => intro
    | |- respects _ (mret _) => apply (respects_ret _ refl)
    | |- respects _ (lift _) => apply (respects_lift _ refl)
    | |- respects _ (and_then _ _) => apply (respects_and_then _ trans)
    | |- respects _ (try_except _ _) => apply (respects_try_except _ trans)
    | |- respects _ (try_finally _ _) => apply (respects_try_finally _ trans)
    | |- respects _ (if ?b then _ else _) => destruct b
    | |- respects _ (match ?x with _ => _ end) => destruct x
    | |- respects _ (let (_, _) := ?x in _) => destruct x
    | |- respects _ _ => first [ solve [auto 1] | prim ]
    end.

Ltac stays_prim :=
  idtac;
  match goal with
  | |- respects _ (print _) => apply stays_print
  | |- respects _ (path_exists _) => apply stays_path_exists
  | |- respects _ (makedirs _) => apply stays_makedirs
  | |- respects _ (open_write _ _) => apply stays_open_write
  | |- respects _ (rename _ _) => apply stays_rename
  | |- respects _ (et_parse_flows _) => apply stays_et_parse_flows
  | |- respects _ getcwd => apply stays_getcwd
  end.

Ltac stays_tac := respects_with stays_refl stays_trans stays_prim.

Ltac dirs_grow_prim :=
  idtac;
  match goal with
  | |- respects _ (chdir _) => apply dirs_grow_chdir
  | |- respects _ _ => apply stays_dirs_grow; stays_prim
  end.

Ltac dirs_grow_tac := respects_with dirs_grow_refl dirs_grow_trans dirs_grow_prim.

Section analysis.
Context `{Builtins} `{Pandas} `{Matplotlib}.

Lemma stays_parse_flowmon_results (flows : flow_table) (p : pypath) :
  respects stays (parse_flowmon_results flows p).
Proof.
  intros w. unfold parse_flowmon_results, et_parse_flows.
  destruct (files w !! _) as [[els| |]|]; try stays_now.
  destruct (parse_flows els flows) as [[[]|e] flows']; stays_now.
Qed.

Lemma stays_ensure_dir (p : pypath) : respects stays (ensure_dir p).
Proof. unfold ensure_dir. stays_tac. Qed.

Lemma stays_export_csv_report (flows : flow_table) (p : pypath) (t : float) :
  respects stays (export_csv_report flows p t).
Proof. unfold export_csv_report. pose proof stays_ensure_dir. stays_tac. Qed.

Lemma stays_save_figures (p : pypath) (names : list string) :
  respects stays (save_figures p names).
Proof. induction names; cbn [save_figures]; stays_tac. Qed.

Lemma stays_create_visualizations (flows : flow_table) (p : pypath) :
  respects stays (create_visualizations flows p).
Proof.
  unfold create_visualizations.
  pose proof stays_ensure_dir. pose proof stays_save_figures. stays_tac.
Qed.

Lemma stays_plot_step (flows : flow_table) (a : AnalyzeResults.args) :
  respects stays (plot_step flows a).
Proof.
  unfold plot_step. pose proof stays_create_visualizations.
  destruct (no_plots a); stays_tac.
Qed.

Lemma stays_analysis_main (a : AnalyzeResults.args) :
  respects stays (AnalyzeResults.main a).
Proof.
  unfold AnalyzeResults.main.
  pose proof stays_parse_flowmon_results. pose proof stays_ensure_dir.
  pose proof stays_export_csv_report. pose proof stays_plot_step.
  stays_tac.
Qed.

End analysis.

Section runner.
Context `{Builtins} `{Pandas} `{Matplotlib} `{Processes}.
Variable cfg : config.

Lemma stays_subprocess_run (cmd : list string) (timeout : option float) :
  respects stays (subprocess_run cmd timeout).
Proof.
  intros w. unfold subprocess_run. destruct (launch_error _); [stays_now|].
  destruct (match timeout with Some _ => _ | None => _ end); stays_now.
Qed.

Lemma stays_run_analysis (cmd : list string) (flowmon output : pypath)
    (simulation_time image_size : string) :
  respects stays (run_analysis cmd flowmon output simulation_time image_size).
Proof.
  intros w. unfold run_analysis. cbv zeta.
  destruct (parse_args _ _ _ _) as [a| |e]; [|stays_now..].
  pose proof (stays_analysis_main a (log_event (Spawned cmd) w)) as [Hc Hd].
  destruct (AnalyzeResults.main a _) as [r w']. cbn [snd] in *.
  split; [exact Hc | exact Hd].
Qed.

Lemma stays_move_files (d : pypath) (names : list string) :
  respects stays (move_files d names).
Proof. induction names; cbn [move_files]; stays_tac. Qed.

Lemma stays_announce (name : string) (scenario : gmap string string) :
  respects stays (announce cfg name scenario).
Proof. unfold announce. stays_tac. Qed.

Lemma dirs_grow_run_scenario (name : string) :
  respects dirs_grow (run_scenario cfg name).
Proof.
  unfold run_scenario, attempt, on_success, on_failure, on_exception.
  pose proof (fun n s => stays_dirs_grow _ (stays_announce n s)).
  pose proof (fun c t => stays_dirs_grow _ (stays_subprocess_run c t)).
  pose proof (fun d n => stays_dirs_grow _ (stays_move_files d n)).
  dirs_grow_tac.
Qed.

(** [original_dir = os.getcwd()] followed by a [try] block that ends in
    [finally: os.chdir(original_dir)]. *)
Lemma same_cwd_getcwd_finally {A} (body : io A) :
  respects same_cwd (original_dir ← getcwd; try_finally body (chdir original_dir)).
Proof.
  intros w. rewrite and_then_io. cbn [getcwd]. apply try_finally_chdir_back.
Qed.

(** The working directory after [run_scenario] is the one before. *)
Lemma same_cwd_run_scenario (name : string) :
  respects same_cwd (run_scenario cfg name).
Proof.
  unfold run_scenario.
  destruct (section cfg name) as [scenario|].
  - repeat lazymatch goal with
      | |- respects _ (and_then getcwd _) => fail
      | |- respects _ (and_then _ _) =>
          apply (respects_and_then _ same_cwd_trans);
          [apply stays_same_cwd; first [apply stays_announce | stays_prim]
          | intros _]
      end.
    apply same_cwd_getcwd_finally.
  - apply stays_same_cwd. stays_tac.
Qed.

Lemma stays_run_scenario (name : string) : respects stays (run_scenario cfg name).
Proof.
  intros w. split; [apply same_cwd_run_scenario | apply dirs_grow_run_scenario].
Qed.

Lemma stays_analyze_scenario_results (name : string) :
  respects stays (analyze_scenario_results cfg name).
Proof.
  unfold analyze_scenario_results. pose proof stays_run_analysis. stays_tac.
Qed.

End runner.
End FrameFacts.

(* ================================================================== *)
(** * Facts about run_scenarios.py *)
(* ================================================================== *)
Module RunnerFacts.

Import AnalyzeResults RunScenarios PyFacts OSFacts FrameFacts.

Lemma quiet_refl (w : World) : quiet w w.
Proof. repeat split; [done|]. exists []. by rewrite app_nil_r. Qed.

Lemma quiet_trans (a b c : World) : quiet a b -> quiet b c -> quiet a c.
Proof.
  intros (Hc & Hf & Hch & Hd & p & Hp) (Hc' & Hf' & Hch' & Hd' & p' & Hp').
  repeat split; try congruence; [set_solver|].
  exists (p ++ p'). by rewrite Hp', Hp, app_assoc.
Qed.

Lemma quiet_dir_exists (w w' : World) (p : path) :
  quiet w w' -> dir_exists w p = true -> dir_exists w' p = true.
Proof.
  intros (_ & _ & _ & Hd & _). unfold dir_exists.
  rewrite !bool_decide_eq_true. intros [->|Hin]; [by left | right; set_solver].
Qed.

Lemma quietly_print (s : string) : quietly (print s).
Proof.
  intros w. eexists. split; [reflexivity|]. repeat split; [done|]. by eexists.
Qed.

Lemma quietly_makedirs (p : pypath) : quietly (makedirs p).
Proof.
  intros w. eexists. split; [reflexivity|].
  repeat split; cbn; [set_solver|]. exists []. by rewrite app_nil_r.
Qed.

Lemma quietly_and_then (m k : io unit) :
  quietly m -> quietly k -> quietly (m;; k).
Proof.
  intros Hm Hk w. destruct (Hm w) as (w1 & Hm1 & Hq1).
  destruct (Hk w1) as (w2 & Hk2 & Hq2).
  exists w2. rewrite and_then_io, Hm1. split; [done|]. by eapply quiet_trans.
Qed.

(** A quiet step in front of a computation. *)
Lemma quietly_then {B} (m : io unit) (k : unit -> io B) (w : World) :
  quietly m -> exists w1, quiet w w1 /\ and_then m k w = k tt w1.
Proof.
  intros Hm. destruct (Hm w) as (w1 & Hm1 & Hq1).
  exists w1. split; [done|]. by rewrite and_then_io, Hm1.
Qed.

Lemma ancestors_self (p : path) : p <> [] -> p ∈ ancestors p.
Proof.
  intros Hne. unfold ancestors. apply list_elem_of_fmap.
  exists (length p). split; [by rewrite firstn_all|].
  apply elem_of_seq. destruct p; [done | cbn [length]; lia].
Qed.

(** After [os.makedirs(p)] the directory is there. *)
Lemma makedirs_then {B} (p : pypath) (k : unit -> io B) (w : World) :
  exists w1,
    quiet w w1 /\ dir_exists w1 (resolve (cwd w) p) = true /\
    and_then (makedirs p) k w = k tt w1.
Proof.
  eexists. split; [|split; [|reflexivity]].
  - repeat split; cbn; [set_solver|]. exists []. by rewrite app_nil_r.
  - unfold dir_exists. apply bool_decide_eq_true.
    destruct (decide (resolve (cwd w) p = [])) as [->|Hne]; [by left|right].
    cbn. apply elem_of_union_l, elem_of_list_to_set. by apply ancestors_self.
Qed.

Section runner.
Context `{Builtins} `{Pandas} `{Matplotlib} `{Processes}.
Variable cfg : config.

Lemma quietly_announce (name : string) (scenario : gmap string string) :
  quietly (announce cfg name scenario).
Proof.
  unfold announce. cbv zeta.
  repeat (apply quietly_and_then; [apply quietly_print|]). apply quietly_print.
Qed.

(** Up to the [try] statement, [run_scenario] for a section that exists
    only prints and makes the result directory. *)
Lemma run_scenario_known (name : string) (scenario : gmap string string) (w : World) :
  section cfg name = Some scenario ->
  exists w1,
    quiet w w1 /\
    dir_exists w1 (cwd w ++ ["scenario_results"; name]) = true /\
    run_scenario cfg name w
    = try_finally
        (try_except
           (attempt name (option_get cfg scenario "description" "No description")
                    (Rel (results_dir ++ [Name name])) (scenario_cmd cfg scenario))
           on_exception)
        (chdir (Abs (Name <$> cwd w))) w1.
Proof.
  intros Hsec. unfold run_scenario. rewrite Hsec. cbv zeta.
  lazymatch goal with
  | |- context [and_then ?m ?k w] =>
      destruct (quietly_then m k w (quietly_announce _ _)) as (w1 & Hq1 & ->)
  end.
  lazymatch goal with
  | |- context [and_then (makedirs ?p) ?k w1] =>
      destruct (makedirs_then p k w1) as (w2 & Hq2 & Hdir & ->)
  end.
  lazymatch goal with
  | |- context [and_then ?m ?k w2] =>
      destruct (quietly_then m k w2 (quietly_print _)) as (w3 & Hq3 & ->)
  end.
  lazymatch goal with
  | |- context [and_then ?m ?k w3] =>
      destruct (quietly_then m k w3 (quietly_print _)) as (w4 & Hq4 & ->)
  end.
  lazymatch goal with
  | |- context [and_then ?m ?k w4] =>
      destruct (quietly_then m k w4 (quietly_print _)) as (w5 & Hq5 & ->)
  end.
  assert (Hq : quiet w w5) by eauto using quiet_trans.
  exists w5. split; [done|]. split.
  - apply (quiet_dir_exists w2); [eauto using quiet_trans|].
    destruct Hq1 as (Hc1 & _). rewrite Hc1 in Hdir.
    cbn [resolve results_dir app fold_left step] in Hdir.
    by rewrite <- app_assoc in Hdir.
  - rewrite and_then_io. cbn [getcwd]. destruct Hq as (-> & _). done.
Qed.

(** C7: whichever way [run_scenario] ends -- the scenario is unknown, the
    simulator cannot be started, runs past the timeout, exits with zero or
    with another code, or writing the results raises -- the working
    directory afterwards is the one in effect when it was entered. *)
Theorem run_scenario_restores_cwd (scenario_name : string) (w : World) :
  cwd (run_scenario cfg scenario_name w).2 = cwd w.
Proof. apply same_cwd_run_scenario. Qed.

(** C4 (amended): when the simulator is started and is still running after
    300 seconds, [subprocess.run] kills it and [run_scenario] returns
    [False] -- the value it returns for every other failure -- after
    printing that the scenario timed out; the runner writes no file of its
    own, and the working directory is restored. *)
Theorem timeout_is_reported_as_failure
    (scenario_name : string) (scenario : gmap string string) (w : World) :
  section cfg scenario_name = Some scenario ->
  launch_error (behaviour_of (scenario_cmd cfg scenario) (parent (cwd w)) (files w)) = None ->
  PrimFloat.ltb 300%float
    (runtime (behaviour_of (scenario_cmd cfg scenario) (parent (cwd w)) (files w))) = true ->
  exists w',
    run_scenario cfg scenario_name w = (Ok false, w') /\
    last (console w') = Some timed_out_message /\
    last (children w') = Some (Killed (scenario_cmd cfg scenario)) /\
    files w'
    = apply_writes
        (writes (behaviour_of (scenario_cmd cfg scenario) (parent (cwd w)) (files w)))
        (files w) /\
    cwd w' = cwd w.
Proof.
  intros Hsec Hlaunch Hslow.
  destruct (run_scenario_known _ _ w Hsec) as (w1 & (Hcwd & Hfiles & Hch & _) & _ & ->).
  rewrite try_finally_chdir_result.
  unfold try_except, attempt. rewrite and_then_io. cbn [chdir].
  rewrite and_then_io. unfold subprocess_run.
  cbn [cwd files set_cwd resolve fold_left step]. rewrite Hcwd, Hfiles.
  fold (parent (cwd w)). rewrite Hlaunch, Hslow.
  unfold on_exception. rewrite decide_True by done.
  eexists. split; [reflexivity|].
  cbn [set_cwd console children files cwd log_event set_children set_console
       set_files print and_then mbind io_bind mret io_ret fst snd].
  repeat split.
  - apply last_snoc.
  - apply last_snoc.
Qed.

End runner.
End RunnerFacts.

(* ================================================================== *)
(** * Examples for the runner *)
(* ================================================================== *)
Module RunnerExamples.

Import AnalyzeResults RunScenarios PyFacts OSFacts FrameFacts RunnerFacts Demo.

(** The four ways a started run can end, in a world where the runner can
    write its files: success, a return code other than zero, the timeout,
    and a simulator that cannot be started.  Only the first is reported as
    [True]; the working directory is restored each time. *)
Example exit_paths :
  let w := world_with_parent_results
             ["scenario_ok"; "scenario_fail"; "scenario_slow"; "scenario_nolaunch"] in
  (fun name => (run_scenario cfg_outcomes name w).1)
    <$> ["scenario_ok"; "scenario_fail"; "scenario_slow"; "scenario_nolaunch"; "other"]
  = [Ok true; Ok false; Ok false; Ok false; Ok false]
  /\ (fun name => cwd (run_scenario cfg_outcomes name w).2)
       <$> ["scenario_ok"; "scenario_fail"; "scenario_slow"; "scenario_nolaunch"; "other"]
     = replicate 5 project_dir.
Proof. split; vm_compute; reflexivity. Qed.

Lemma timeout_is_reported_as_failure_witness :
  exists w',
    run_scenario cfg_outcomes "scenario_slow" (world_at project_dir) = (Ok false, w') /\
    last (console w') = Some timed_out_message /\
    last (children w')
    = Some (Killed (scenario_cmd cfg_outcomes (scenario_section "hang"))) /\
    files w'
    = apply_writes
        (writes (behaviour_of (scenario_cmd cfg_outcomes (scenario_section "hang"))
                   (parent (cwd (world_at project_dir)))
                   (files (world_at project_dir))))
        (files (world_at project_dir)) /\
    cwd w' = cwd (world_at project_dir).
Proof.
  apply (timeout_is_reported_as_failure cfg_outcomes "scenario_slow"
           (scenario_section "hang") (world_at project_dir)).
  - vm_compute. reflexivity.
  - vm_compute. reflexivity.
  - vm_compute. reflexivity.
Defined.

(** C4 (as stated, refuted): a run that times out and a run that exits
    with a code other than zero are recorded alike: [run_scenario] returns
    [False] for both, and the ledger of [run_all_scenarios] holds [False]
    for both; only the console tells them apart. *)
Lemma timeout_recorded_like_failure :
  let w := world_with_parent_results
             ["scenario_ok"; "scenario_fail"; "scenario_slow"; "scenario_nolaunch"] in
  (run_scenario cfg_outcomes "scenario_slow" w).1
  = (run_scenario cfg_outcomes "scenario_fail" w).1
  /\ (run_all_scenarios cfg_outcomes w).1
     = Ok [ ("scenario_ok", true); ("scenario_fail", false);
            ("scenario_slow", false); ("scenario_nolaunch", false) ]
  /\ last (console (run_scenario cfg_outcomes "scenario_slow" w).2)
     = Some timed_out_message
  /\ last (console (run_scenario cfg_outcomes "scenario_fail" w).2)
     = Some "simulation aborted".
Proof. repeat split; vm_compute; reflexivity. Qed.

End RunnerExamples.

(* ================================================================== *)
(** * The batch: every scenario is run, and the exit code follows the ledger *)
(* ================================================================== *)
Module BatchFacts.

Import AnalyzeResults RunScenarios PyFacts OSFacts FrameFacts RunnerFacts.

Lemma returns_ret {A} (a : A) : returns (mret a : io A).
Proof. intros w. by eexists. Qed.

Lemma returns_lift_ok {A} (a : A) : returns (lift (Ok a)).
Proof. intros w. by eexists. Qed.

Lemma returns_and_then {A B} (m : io A) (k : A -> io B) :
  returns m -> (forall a, returns (k a)) -> returns (and_then m k).
Proof.
  intros Hm Hk w. rewrite and_then_io. destruct (Hm w) as (a & Ha).
  destruct (m w) as [r w']. cbn [fst] in Ha. subst r. apply Hk.
Qed.

(** A handler that returns makes the whole [try] statement return. *)
Lemma returns_try_except {A} (body : io A) (handler : exn -> io A) :
  (forall e, returns (handler e)) -> returns (try_except body handler).
Proof.
  intros Hk w. unfold try_except.
  destruct (body w) as [[a|e] w']; [by eexists | apply Hk].
Qed.

Lemma returns_try_finally {A} (body : io A) (fin : io unit) :
  returns body -> returns fin -> returns (try_finally body fin).
Proof.
  intros Hm Hf w. unfold try_finally. destruct (Hm w) as (a & Ha).
  destruct (body w) as [r w']. cbn [fst] in Ha. subst r.
  destruct (Hf w') as ([] & Hu). destruct (fin w') as [r' w''].
  cbn [fst] in Hu. subst r'. by eexists.
Qed.

Lemma returns_print (s : string) : returns (print s).
Proof. intros w. by eexists. Qed.

Lemma returns_makedirs (p : pypath) : returns (makedirs p).
Proof. intros w. by eexists. Qed.

Lemma returns_path_exists (p : pypath) : returns (path_exists p).
Proof. intros w. by eexists. Qed.

Lemma returns_getcwd : returns getcwd.
Proof. intros w. by eexists. Qed.

Lemma returns_chdir (p : pypath) : returns (chdir p).
Proof. intros w. by eexists. Qed.

(** Decomposes a goal [returns m] along the structure of [m]. *)
Ltac returns_tac :=
  repeat match goal with
    | |- forall _, _ => intro
    | |- returns (mret _) => apply returns_ret
    | |- returns (lift (Ok _)) => apply returns_lift_ok
    | |- returns (and_then _ _) => apply returns_and_then
    | |- returns (try_except _ _) => apply returns_try_except
    | |- returns (try_finally _ _) => apply returns_try_finally
    | |- returns (print _) => apply returns_print
    | |- returns (makedirs _) => apply returns_makedirs
    | |- returns (path_exists _) => apply returns_path_exists
    | |- returns getcwd => apply returns_getcwd
    | |- returns (chdir _) => apply returns_chdir
    | |- returns (if ?b then _ else _) => destruct b
    | |- returns (match ?x with _ => _ end) => destruct x
    | |- returns _ => solve [auto 1]
    end.

(** What [returns] and [respects] say together about one run. *)
Lemma returns_respects {A} (R : World -> World -> Prop) (m : io A) (w : World) :
  returns m -> respects R m -> exists a w', m w = (Ok a, w') /\ R w w'.
Proof.
  intros Hr Hs. destruct (Hr w) as (a & Ha). specialize (Hs w).
  destruct (m w) as [r w']. cbn [fst snd] in *. subst r. by exists a, w'.
Qed.

Lemma stays_dir_exists (w w' : World) (p : list string) :
  stays w w' -> dir_exists w (cwd w ++ p) = true -> dir_exists w' (cwd w' ++ p) = true.
Proof.
  intros [Hc Hd]. unfold same_cwd in Hc. unfold dirs_grow in Hd. rewrite Hc.
  unfold dir_exists. rewrite !bool_decide_eq_true.
  intros [->|Hin]; [by left | right; set_solver].
Qed.

Section batch.
Context `{Builtins} `{Pandas} `{Matplotlib} `{Processes}.
Variable cfg : config.

(** [run_scenario] handles every exception itself. *)
Lemma returns_run_scenario (name : string) : returns (run_scenario cfg name).
Proof.
  unfold run_scenario, announce, on_exception. returns_tac.
Qed.

Lemma returns_analyze_scenario_results (name : string) :
  analysable cfg name -> returns (analyze_scenario_results cfg name).
Proof.
  intros [Ht Hs]. unfold analyze_scenario_results.
  destruct (float_of_string _) as [t|]; [|done].
  destruct (int_of_string _) as [n|]; [|done].
  returns_tac.
Qed.

Lemma stays_print_each (lines : list string) : respects stays (print_each lines).
Proof. induction lines; cbn [print_each]; stays_tac. Qed.

Lemma returns_print_each (lines : list string) : returns (print_each lines).
Proof. induction lines; cbn [print_each]; returns_tac. Qed.

Lemma quietly_print_each (lines : list string) : quietly (print_each lines).
Proof.
  induction lines as [|s lines IH]; cbn [print_each].
  - intros w. exists w. split; [done | apply quiet_refl].
  - apply quietly_and_then; [apply quietly_print | done].
Qed.

Lemma stays_scenario_loop (count : nat) (scenarios : list string) :
  forall (i : nat) (l : ledger), respects stays (scenario_loop cfg count i scenarios l).
Proof.
  induction scenarios as [|s rest IH]; intros i l; cbn [scenario_loop].
  - stays_tac.
  - pose proof (stays_run_scenario cfg). pose proof (stays_analyze_scenario_results cfg).
    stays_tac.
Qed.

Lemma returns_scenario_loop (count : nat) (scenarios : list string) :
  Forall (analysable cfg) scenarios ->
  forall (i : nat) (l : ledger), returns (scenario_loop cfg count i scenarios l).
Proof.
  induction 1 as [|s rest Hs _ IH]; intros i l; cbn [scenario_loop].
  - returns_tac.
  - pose proof returns_run_scenario.
    pose proof (returns_analyze_scenario_results s Hs).
    returns_tac.
Qed.

Lemma print_each_console (lines : list string) :
  forall w, print_each lines w = (Ok tt, set_console (console w ++ lines) w).
Proof.
  induction lines as [|s lines IH]; intros w; cbn [print_each].
  - rewrite app_nil_r. by destruct w.
  - rewrite and_then_io. cbn [print]. rewrite IH. cbn [console set_console].
    by rewrite <- app_assoc.
Qed.

(** The loop runs the scenarios one after the other, as [batch_runs] tells
    it, and its ledger holds what the runs returned. *)
Lemma scenario_loop_runs (count : nat) (scenarios : list string) :
  Forall (analysable cfg) scenarios ->
  forall (i : nat) (l : ledger) (w : World),
    exists (outcomes : list (string * bool)) (l' : ledger) (w' : World),
      batch_runs cfg count i scenarios w outcomes w' /\
      outcomes.*1 = scenarios /\
      scenario_loop cfg count i scenarios l w = (Ok l', w') /\
      results l' = foldl (fun d o => dict_set o.1 o.2 d) (results l) outcomes.
Proof.
  induction 1 as [|s rest Hs _ IH]; intros i l w; cbn [scenario_loop].
  { exists [], l, w. split; [constructor|]. by split. }
  rewrite and_then_io. cbn [print]. fold (progress_line count i s).
  rewrite and_then_io.
  destruct (returns_run_scenario s
              (set_console (console w ++ [progress_line count i s]) w)) as (ok & Hok).
  destruct (run_scenario cfg s _) as [r w1] eqn:Hrun. cbn [fst] in Hok. subst r.
  rewrite and_then_io. destruct ok.
  - rewrite and_then_io.
    destruct (returns_analyze_scenario_results s Hs w1) as (b & Hb).
    destruct (analyze_scenario_results cfg s w1) as [r w2] eqn:Han.
    cbn [fst] in Hb. subst r. cbn [mret io_ret].
    destruct (IH (S i)
                (mkLedger (successful_scenarios l ++ [s]) (failed_scenarios l)
                          (dict_set s true (results l))) w2)
      as (outcomes & l' & w' & Hruns & Hnames & Hloop & Hres).
    exists ((s, true) :: outcomes), l', w'.
    split; [by eapply batch_succeeded|].
    split; [by rewrite fmap_cons, Hnames|]. by split.
  - cbn [mret io_ret].
    destruct (IH (S i)
                (mkLedger (successful_scenarios l) (failed_scenarios l ++ [s])
                          (dict_set s false (results l))) w1)
      as (outcomes & l' & w' & Hruns & Hnames & Hloop & Hres).
    exists ((s, false) :: outcomes), l', w'.
    split; [by eapply batch_failed|].
    split; [by rewrite fmap_cons, Hnames|]. by split.
Qed.

(** The runs of a batch leave the working directory where it was. *)
Lemma batch_runs_same_cwd (count i : nat) (scenarios : list string) (w w' : World)
    (outcomes : list (string * bool)) :
  batch_runs cfg count i scenarios w outcomes w' -> cwd w' = cwd w.
Proof.
  induction 1 as [|i name rest w w1 outcomes w' Hrun _ IH
                  |i name rest w w1 analysed w2 outcomes w' Hrun Han _ IH].
  - done.
  - rewrite IH. pose proof (same_cwd_run_scenario cfg name
                              (set_console (console w ++ [progress_line count i name]) w))
      as Hs.
    rewrite Hrun in Hs. exact Hs.
  - rewrite IH.
    pose proof (stays_analyze_scenario_results cfg name w1) as [Hs2 _].
    rewrite Han in Hs2. unfold same_cwd in Hs2. cbn [snd] in Hs2. rewrite Hs2.
    pose proof (same_cwd_run_scenario cfg name
                  (set_console (console w ++ [progress_line count i name]) w)) as Hs.
    rewrite Hrun in Hs. exact Hs.
Qed.

(** Entries under pairwise distinct names are appended. *)
Lemma ledger_set_fresh (name : string) (ok : bool) (d : list (string * bool)) :
  name ∉ dict_keys d -> dict_set name ok d = d ++ [(name, ok)].
Proof.
  unfold dict_keys. induction d as [|[k0 v0] d IH]; [done|].
  rewrite fmap_cons. cbn [fst dict_set app].
  intros [Hne Hnin]%not_elem_of_cons.
  rewrite decide_False by done. f_equal. by apply IH.
Qed.

Lemma ledger_fold_distinct (outcomes : list (string * bool)) :
  forall d : list (string * bool),
    NoDup (dict_keys d ++ outcomes.*1) ->
    foldl (fun d o => dict_set o.1 o.2 d) d outcomes = d ++ outcomes.
Proof.
  unfold dict_keys. induction outcomes as [|[k v] outcomes IH]; intros d Hnd.
  - by rewrite app_nil_r.
  - cbn [foldl fst snd]. rewrite fmap_cons in Hnd. cbn [fst] in Hnd.
    assert (Hfresh : k ∉ d.*1).
    { apply NoDup_app in Hnd as (_ & Hdisj & _). intros Hin.
      apply (Hdisj _ Hin), elem_of_cons. by left. }
    rewrite ledger_set_fresh by done. rewrite IH.
    + by rewrite <- app_assoc.
    + rewrite fmap_app, <- app_assoc. done.
Qed.

Lemma quietly_ret : quietly (mret tt).
Proof. intros w. exists w. split; [done | apply quiet_refl]. Qed.

Lemma quiet_stays (w w' : World) : quiet w w' -> stays w w'.
Proof. intros (Hc & _ & _ & Hd & _). by split. Qed.

(** The summary [run_all_scenarios] prints after the loop. *)
Lemma summary_returns (scenarios : list string) (l : ledger) (w : World) :
  exists w1,
    quiet w w1 /\
    (print (nl +:+ str_repeat "=" 60);;
     print "SIMULATION SUMMARY";;
     print (str_repeat "=" 60);;
     print ("Total Scenarios: " +:+ pretty (length scenarios));;
     print ("Successful: " +:+ pretty (length (successful_scenarios l)));;
     print ("Failed: " +:+ pretty (length (failed_scenarios l)));;
     (if decide (successful_scenarios l = []) then mret tt
      else
        print (nl +:+ "Successful scenarios:");;
        print_each ((fun s => "  ✓ " +:+ s) <$> successful_scenarios l));;
     (if decide (failed_scenarios l = []) then mret tt
      else
        print (nl +:+ "Failed scenarios:");;
        print_each ((fun s => "  ✗ " +:+ s) <$> failed_scenarios l));;
     mret (results l)) w = (Ok (results l), w1).
Proof.
  do 6 lazymatch goal with
    | |- context [and_then ?m ?k ?w0] =>
        let w' := fresh "w" in let Hq := fresh "Hq" in
        destruct (quietly_then m k w0 (quietly_print _)) as (w' & Hq & ->)
    end.
  lazymatch goal with
  | |- context [and_then ?m ?k ?w0] =>
      destruct (quietly_then m k w0) as (w6 & Hq6 & ->)
  end.
  { destruct (decide _); [apply quietly_ret|].
    apply quietly_and_then; [apply quietly_print | apply quietly_print_each]. }
  lazymatch goal with
  | |- context [and_then ?m ?k ?w0] =>
      destruct (quietly_then m k w0) as (w7 & Hq7 & ->)
  end.
  { destruct (decide _); [apply quietly_ret|].
    apply quietly_and_then; [apply quietly_print | apply quietly_print_each]. }
  exists w7. split; [eauto 10 using quiet_trans | done].
Qed.

(** When the parameters of every scenario are numbers, [run_all_scenarios]
    returns the ledger of the runs [batch_runs] tells; after the last of
    them only the summary is printed. *)
Lemma run_all_scenarios_runs (w : World) :
  get_scenarios cfg <> [] ->
  Forall (analysable cfg) (get_scenarios cfg) ->
  exists (outcomes : list (string * bool)) (w1 w' : World),
    batch_runs cfg (length (get_scenarios cfg)) 1 (get_scenarios cfg)
      (batch_start cfg w) outcomes w1 /\
    outcomes.*1 = get_scenarios cfg /\
    run_all_scenarios cfg w
    = (Ok (foldl (fun d o => dict_set o.1 o.2 d) [] outcomes), w') /\
    quiet w1 w' /\
    dir_exists w' (cwd w' ++ ["scenario_results"]) = true.
Proof.
  intros Hne Hall. unfold run_all_scenarios. cbv zeta.
  rewrite decide_False by done.
  rewrite and_then_io. cbn [print].
  rewrite and_then_io, print_each_console.
  rewrite and_then_io. cbn [print].
  rewrite and_then_io. cbn [makedirs].
  cbn [cwd dirs files console children set_console set_dirs
       resolve results_dir fold_left step].
  lazymatch goal with
  | |- context [and_then (scenario_loop cfg ?c ?i ?sc ?l) ?k ?w0] =>
      assert (Hstart : w0 = batch_start cfg w)
  end.
  { unfold batch_start, set_dirs, set_console. cbn [cwd dirs files console children].
    f_equal. by rewrite <- !app_assoc. }
  rewrite Hstart. rewrite and_then_io.
  destruct (scenario_loop_runs (length (get_scenarios cfg)) (get_scenarios cfg) Hall
              1%nat (mkLedger [] [] []) (batch_start cfg w))
    as (outcomes & l & w1 & Hruns & Hnames & Hloop & Hres).
  rewrite Hloop.
  destruct (summary_returns (get_scenarios cfg) l w1) as (w' & Hq & ->).
  exists outcomes, w1, w'. split; [done|]. split; [done|].
  rewrite Hres. cbn [results]. split; [done|]. split; [done|].
  pose proof (stays_scenario_loop (length (get_scenarios cfg)) (get_scenarios cfg)
                1%nat (mkLedger [] [] []) (batch_start cfg w)) as Hs1.
  rewrite Hloop in Hs1. cbn [snd] in Hs1.
  assert (Hs : stays (batch_start cfg w) w').
  { eapply stays_trans; [exact Hs1 | by apply quiet_stays]. }
  apply (stays_dir_exists (batch_start cfg w) w' _ Hs).
  unfold dir_exists, batch_start. cbn [cwd dirs]. apply bool_decide_eq_true. right.
  apply elem_of_union_l, elem_of_list_to_set, ancestors_self.
  by destruct (cwd w).
Qed.

(** Writing the comparison once the results directory exists: one file
    is written, and nothing else but the console changes. *)
Lemma compare_scenarios_returns (scenarios : list string) (w : World) :
  scenarios <> [] ->
  dir_exists w (cwd w ++ ["scenario_results"]) = true ->
  exists w',
    compare_scenarios cfg (Some scenarios) w = (Ok tt, w') /\
    cwd w' = cwd w /\ dirs w' = dirs w /\ children w' = children w /\
    files w'
    = <[cwd w ++ ["scenario_results"; "scenario_comparison.txt"]
        := Text (comparison_text cfg scenarios)]> (files w).
Proof.
  intros Hne Hdir. unfold compare_scenarios.
  rewrite and_then_io. cbn [mret io_ret]. rewrite decide_False by done.
  rewrite and_then_io. cbn [print]. rewrite and_then_io.
  unfold open_write, comparison_file.
  cbn [cwd set_console resolve results_dir app fold_left step].
  rewrite parent_snoc.
  lazymatch goal with
  | |- context [dir_exists (set_console ?c w) ?p] =>
      change (dir_exists (set_console c w) p) with (dir_exists w p)
  end.
  rewrite Hdir. eexists. split; [reflexivity|].
  cbn [cwd dirs files children set_console set_files print fst snd].
  by rewrite <- app_assoc.
Qed.

End batch.
End BatchFacts.

(* ================================================================== *)
(** * The analysis entry point *)
(* ================================================================== *)
Module MainFacts.

Import AnalyzeResults PyFacts OSFacts FrameFacts RunnerFacts BatchFacts.

Lemma open_write_inv (p : pypath) (c : content) (w w' : World) (r : result unit) :
  open_write p c w = (r, w') ->
  (r = Ok tt /\ dir_exists w (parent (resolve (cwd w) p)) = true /\
   w' = set_files (<[resolve (cwd w) p := c]> (files w)) w)
  \/ (exists e, r = Raise e) /\ w' = w.
Proof.
  unfold open_write. destruct (dir_exists _ _); intros [= <- <-]; [by left | right].
  split; [by eexists | done].
Qed.

Lemma open_write_ok (p : pypath) (c : content) (w : World) :
  dir_exists w (parent (resolve (cwd w) p)) = true ->
  open_write p c w = (Ok tt, set_files (<[resolve (cwd w) p := c]> (files w)) w).
Proof. unfold open_write. by intros ->. Qed.

Lemma dir_exists_set_files (f : gmap path content) (w : World) (p : path) :
  dir_exists (set_files f w) p = dir_exists w p.
Proof. reflexivity. Qed.

Lemma quiet_file_lookup (w w' : World) (p : path) :
  quiet w w' -> files w' !! p = files w !! p.
Proof. intros (_ & -> & _). done. Qed.

Lemma stays_dir_exists_abs (w w' : World) (p : path) :
  stays w w' -> dir_exists w p = true -> dir_exists w' p = true.
Proof.
  intros [_ Hd]. unfold dirs_grow in Hd. unfold dir_exists.
  rewrite !bool_decide_eq_true. intros [->|Hin]; [by left | right; set_solver].
Qed.

Section main.
Context `{Builtins} `{Pandas} `{Matplotlib}.

(** [ensure_dir] never raises and is quiet; afterwards the path is a
    directory unless it was there before as something else. *)
Lemma ensure_dir_then {B} (p : pypath) (k : unit -> io B) (w : World) :
  exists w1,
    quiet w w1 /\
    and_then (ensure_dir p) k w = k tt w1 /\
    (file_exists w (resolve (cwd w) p) = false \/
     dir_exists w (resolve (cwd w) p) = true ->
     dir_exists w1 (resolve (cwd w) p) = true).
Proof.
  unfold ensure_dir. rewrite !and_then_io. cbn [path_exists].
  destruct (dir_exists w (resolve (cwd w) p)) eqn:Hd; cbn [orb].
  - exists w. split; [apply quiet_refl|]. split; [reflexivity | done].
  - destruct (file_exists w (resolve (cwd w) p)) eqn:Hf.
    + exists w. split; [apply quiet_refl|]. split; [reflexivity|]. intros [?|?]; done.
    + destruct (makedirs_then p k w) as (w1 & Hq & Hdir & Hm).
      rewrite and_then_io in Hm. exists w1. split; [done|]. split; [exact Hm | done].
Qed.

Lemma parse_flowmon_results_inv (flows : flow_table) (p : pypath) (w : World) :
  exists b flows' w1,
    parse_flowmon_results flows p w = (Ok (b, flows'), w1) /\
    quiet w w1 /\
    (b = true <->
     exists els, files w !! resolve (cwd w) p = Some (XmlDoc els) /\
                 parse_flows els flows = (Ok tt, flows')).
Proof.
  unfold parse_flowmon_results, et_parse_flows.
  destruct (files w !! resolve (cwd w) p) as [[els| |]|] eqn:Hf.
  - destruct (parse_flows els flows) as [[[]|e] flows'] eqn:Hp.
    + eexists true, flows', _. split; [reflexivity|].
      split; [|split; [by eexists|done]].
      repeat split; [done|]. by eexists.
    + eexists false, flows', _. split; [reflexivity|].
      split; [repeat split; [done|]; by eexists|].
      split; [done|]. intros (els' & [= <-] & Hp'). congruence.
  - eexists false, flows, _. split; [reflexivity|].
    split; [repeat split; [done|]; by eexists|].
    split; [done|]. by intros (els' & [=] & _).
  - eexists false, flows, _. split; [reflexivity|].
    split; [repeat split; [done|]; by eexists|].
    split; [done|]. by intros (els' & [=] & _).
  - eexists false, flows, _. split; [reflexivity|].
    split; [repeat split; [done|]; by eexists|].
    split; [done|]. by intros (els' & [=] & _).
Qed.

Lemma writes_only_refl (T : path -> list path) (w : World) : writes_only T w w.
Proof. by split. Qed.

Lemma writes_only_trans (T : path -> list path) (a b c : World) :
  writes_only T a b -> writes_only T b c -> writes_only T a c.
Proof.
  intros [Hc Hf] [Hc' Hf']. split; [congruence|].
  intros q Hq. rewrite Hf', Hf; [done.. |]. by rewrite Hc.
Qed.

Lemma quiet_writes_only (T : path -> list path) (w w' : World) :
  quiet w w' -> writes_only T w w'.
Proof. intros (Hc & Hf & _). split; [done|]. intros q _. by rewrite Hf. Qed.

Lemma writes_only_open_write (T : path -> list path) (p : pypath) (c : content) :
  (forall c0, resolve c0 p ∈ T c0) -> respects (writes_only T) (open_write p c).
Proof.
  intros Hp w. unfold open_write. destruct (dir_exists _ _); [|apply writes_only_refl].
  split; [done|]. intros q Hq. cbn. apply lookup_insert_ne. intros <-. apply Hq, Hp.
Qed.

Lemma writes_only_quietly (T : path -> list path) (m : io unit) :
  quietly m -> respects (writes_only T) m.
Proof.
  intros Hm w. destruct (Hm w) as (w1 & -> & Hq). by apply quiet_writes_only.
Qed.

Lemma quietly_ensure_dir (p : pypath) : quietly (ensure_dir p).
Proof.
  intros w. destruct (ensure_dir_then p (fun _ => mret tt) w) as (w1 & Hq & Heq & _).
  exists w1. split; [|done]. rewrite and_then_io in Heq.
  destruct (ensure_dir p w) as [[[]|e] w1']; [|done]. by injection Heq as ->.
Qed.

Lemma plot_file_paths (a : args) (n : string) (c0 : path) :
  n ∈ plot_files -> resolve c0 (join (output a) [Name n]) ∈ plot_paths a c0.
Proof.
  intros Hn. rewrite resolve_join. unfold plot_paths.
  apply list_elem_of_fmap. by exists n.
Qed.

Lemma writes_only_save_figures (a : args) (names : list string) :
  names ⊆ plot_files ->
  respects (writes_only (plot_paths a)) (save_figures (output a) names).
Proof.
  induction names as [|n names IH]; intros Hsub; cbn [save_figures].
  - apply (respects_ret _ (writes_only_refl _)).
  - apply (respects_and_then _ (writes_only_trans _)).
    + apply writes_only_open_write. intros c0. apply plot_file_paths.
      apply Hsub, elem_of_cons. by left.
    + intros _. apply IH. intros x Hx. apply Hsub, elem_of_cons. by right.
Qed.

(** The plotting step of [main] touches no file but the four figures. *)
Lemma writes_only_plots (a : args) (flows : flow_table) :
  respects (writes_only (plot_paths a)) (plot_step flows a).
Proof.
  unfold plot_step.
  destruct (no_plots a); [apply (respects_ret _ (writes_only_refl _))|].
  apply (respects_try_except _ (writes_only_trans _)).
  - unfold create_visualizations.
    apply (respects_and_then _ (writes_only_trans _)).
    + apply writes_only_quietly, quietly_ensure_dir.
    + intros _. destruct (render flows) as [saved outcome].
      apply (respects_and_then _ (writes_only_trans _)).
      * apply writes_only_save_figures. intros x Hx.
        by apply (subseteq_take 2 plot_files), (subseteq_take saved).
      * intros _. apply (respects_and_then _ (writes_only_trans _)).
        -- destruct (2 <=? saved)%nat; [|apply (respects_ret _ (writes_only_refl _))].
           apply (respects_and_then _ (writes_only_trans _)).
           ++ apply writes_only_quietly, quietly_print.
           ++ intros _. apply writes_only_save_figures. intros x Hx.
              by apply (subseteq_drop 2 plot_files), (subseteq_take (saved - 2)).
        -- intros _. apply (respects_lift _ (writes_only_refl _)).
  - intros e. destruct (decide _).
    + apply (respects_and_then _ (writes_only_trans _)).
      * apply writes_only_quietly, quietly_print.
      * intros _. apply writes_only_quietly, quietly_print.
    + apply (respects_lift _ (writes_only_refl _)).
Qed.

Lemma report_not_a_plot (a : args) (w : World) :
  report_path a w ∉ plot_paths a (cwd w).
Proof.
  unfold report_path, plot_paths. rewrite resolve_join.
  intros (n & Heq & Hn)%list_elem_of_fmap.
  apply app_inj_tail in Heq as [_ <-].
  repeat (apply elem_of_cons in Hn as [[=]|Hn]). by apply elem_of_nil in Hn.
Qed.

Lemma csv_not_a_plot (a : args) (w : World) :
  csv_path a w ∉ plot_paths a (cwd w).
Proof.
  unfold csv_path, plot_paths. rewrite resolve_join.
  intros (n & Heq & Hn)%list_elem_of_fmap.
  apply app_inj_tail in Heq as [_ <-].
  repeat (apply elem_of_cons in Hn as [[=]|Hn]). by apply elem_of_nil in Hn.
Qed.

Lemma report_not_csv (a : args) (w : World) : report_path a w <> csv_path a w.
Proof.
  unfold report_path, csv_path. rewrite !resolve_join.
  intros Heq. by apply app_inj_tail in Heq as [_ [=]].
Qed.

(** What [export_csv_report] has done when it returns. *)
Lemma export_csv_report_inv (flows : flow_table) (out : pypath) (t : float)
    (w w' : World) (data : list csv_row) :
  export_csv_report flows out t w = (Ok data, w') ->
  csv_rows t 0 flows = Ok data /\
  cwd w' = cwd w /\
  files w'
  = <[resolve (cwd w) (join out [Name "simulation_results.csv"]) := Text (to_csv data)]>
      (files w).
Proof.
  unfold export_csv_report.
  destruct (ensure_dir_then out
              (fun _ =>
                 data ← lift (csv_rows t 0 flows);
                 open_write (join out [Name "simulation_results.csv"]) (Text (to_csv data));;
                 print ("Detailed results exported to "
                        +:+ path_str (join out [Name "simulation_results.csv"]));;
                 mret data) w) as (w1 & (Hc & Hf & _) & -> & _).
  rewrite and_then_io. cbn [lift].
  destruct (csv_rows t 0 flows) as [rows|e]; [|done].
  rewrite and_then_io.
  destruct (open_write _ _ w1) as [r w2] eqn:Ho.
  apply open_write_inv in Ho as [(-> & _ & ->)|((e & ->) & ->)]; [|done].
  rewrite and_then_io. cbn [print mret io_ret].
  intros [= <- <-]. cbn [cwd files set_console set_files]. by rewrite Hc, Hf.
Qed.

Lemma save_figures_raises (out : pypath) (names : list string) (w w' : World) (e : exn) :
  save_figures out names w = (Raise e, w') -> e = FileNotFoundError.
Proof.
  revert w. induction names as [|n names IH]; intros w; cbn [save_figures]; [done|].
  rewrite and_then_io. unfold open_write at 1.
  destruct (dir_exists _ _); [apply IH | by intros [= <- _]].
Qed.

(** When the plotting step returns, plots were switched off, or the
    plotting layer worked, or it is not installed. *)
Lemma plot_step_inv (flows : flow_table) (a : args) (w w' : World) :
  plot_step flows a w = (Ok tt, w') ->
  no_plots a = true \/ (render flows).2 = Ok tt \/ (render flows).2 = Raise ImportError.
Proof.
  unfold plot_step. destruct (no_plots a); [by left|].
  unfold try_except, create_visualizations. cbv beta.
  lazymatch goal with
  | |- context [and_then (ensure_dir ?p) ?k w] =>
      destruct (ensure_dir_then p k w) as (w1 & Hq1 & -> & _)
  end.
  destruct (render flows) as [saved outcome]. cbn [snd].
  rewrite and_then_io.
  destruct (save_figures _ _ w1) as [[[]|e] w2] eqn:Hsave.
  2:{ apply save_figures_raises in Hsave as ->. rewrite decide_False by done. done. }
  rewrite and_then_io.
  assert (Hend : forall w0 : World,
             match outcome with
             | Ok a0 => (Ok a0, w0)
             | Raise e =>
                 (if decide (e = ImportError)
                  then
                    print "Warning: matplotlib not available. Skipping plot generation.";;
                    print "Install matplotlib with: pip install matplotlib"
                  else lift (Raise e)) w0
             end = (Ok tt, w') ->
             false = true \/ outcome = Ok tt \/ outcome = Raise ImportError).
  { intros w0. destruct outcome as [[]|e]; [by right; left|].
    destruct (decide (e = ImportError)) as [->|Hne]; [by right; right | done]. }
  destruct (2 <=? saved)%nat.
  - rewrite and_then_io. cbn [print].
    lazymatch goal with
    | |- context [save_figures ?o ?n ?w0] =>
        destruct (save_figures o n w0) as [[[]|e] w3] eqn:Hsave2
    end.
    + cbn [lift]. apply Hend.
    + apply save_figures_raises in Hsave2 as ->. rewrite decide_False by done. done.
  - cbn [mret io_ret lift]. apply Hend.
Qed.

(** What [main] has done when it returns 0. *)
Lemma main_success_inv (a : args) (w w' : World) :
  main a w = (Ok 0, w') ->
  exists flows report data,
    artifact_flows a w flows /\
    generate_performance_report flows (simulation_time a) (image_size a) = Ok report /\
    csv_rows (simulation_time a) 0 flows = Ok data /\
    files w' !! report_path a w = Some (Text report) /\
    files w' !! csv_path a w = Some (Text (to_csv data)) /\
    cwd w' = cwd w /\
    dir_exists w' (resolve (cwd w) (output a)) = true /\
    (no_plots a = true \/ (render flows).2 = Ok tt \/ (render flows).2 = Raise ImportError) /\
    (forall q, q <> report_path a w -> q <> csv_path a w -> q ∉ plot_paths a (cwd w) ->
               files w' !! q = files w !! q).
Proof.
  unfold main. rewrite and_then_io. cbn [path_exists].
  destruct (_ || _); cbn [negb].
  2:{ rewrite !and_then_io. cbn [print mret io_ret]. done. }
  rewrite and_then_io.
  destruct (parse_flowmon_results_inv init_flows (flowmon a) w)
    as (b & flows & w1 & -> & Hq1 & Hb).
  destruct b; cbn [negb]; [|done].
  destruct Hb as [Hb _]. specialize (Hb eq_refl).
  rewrite and_then_io. cbn [lift].
  destruct (generate_performance_report flows _ _) as [report|e] eqn:Hrep; [|done].
  lazymatch goal with
  | |- context [and_then ?m ?k w1] =>
      destruct (quietly_then m k w1 (quietly_print _)) as (w2 & Hq2 & ->)
  end.
  lazymatch goal with
  | |- context [and_then (ensure_dir ?p) ?k w2] =>
      destruct (ensure_dir_then p k w2) as (w3 & Hq3 & -> & _)
  end.
  assert (Hq : quiet w w3) by eauto using quiet_trans.
  assert (Hcw : cwd w3 = cwd w) by apply Hq.
  assert (Hfw : files w3 = files w) by apply Hq.
  rewrite and_then_io.
  destruct (open_write _ _ w3) as [r w4] eqn:Ho.
  apply open_write_inv in Ho as [(-> & Hdir & ->)|((e & ->) & ->)]; [|done].
  rewrite resolve_join, parent_snoc, Hcw in Hdir.
  rewrite and_then_io. cbn [print]. rewrite and_then_io.
  lazymatch goal with
  | |- context [export_csv_report flows (output a) (simulation_time a) ?w5] =>
      pose proof (stays_export_csv_report flows (output a) (simulation_time a) w5) as Hs6;
      destruct (export_csv_report flows (output a) (simulation_time a) w5)
        as [[data|e] w6] eqn:Hcsv; [|done]
  end.
  apply export_csv_report_inv in Hcsv as (Hrows & Hc6 & Hf6).
  cbn [cwd files set_console set_files snd] in Hc6, Hf6, Hs6.
  rewrite and_then_io.
  pose proof (writes_only_plots a flows w6) as Hw7.
  pose proof (stays_plot_step flows a w6) as Hs7.
  destruct (plot_step flows a w6) as [[[]|e] w7] eqn:Hplot; [|done].
  destruct Hw7 as [Hc7 Hf7]. cbn [snd mret io_ret] in *. intros [= <-].
  exists flows, report, data. repeat split; try done.
  - rewrite Hf7, Hf6 by (rewrite Hc6, Hcw; apply report_not_a_plot).
    rewrite Hcw. rewrite lookup_insert_ne by (symmetry; apply report_not_csv).
    unfold report_path. by rewrite lookup_insert_eq.
  - rewrite Hf7, Hf6 by (rewrite Hc6, Hcw; apply csv_not_a_plot).
    rewrite Hcw. unfold csv_path. by rewrite lookup_insert_eq.
  - congruence.
  - eapply stays_dir_exists_abs; [exact Hs7|].
    eapply stays_dir_exists_abs; [exact Hs6|]. exact Hdir.
  - by apply plot_step_inv in Hplot.
  - intros q Hne1 Hne2 Hnp. rewrite Hf7, Hf6 by (by rewrite Hc6, Hcw).
    rewrite Hcw. unfold report_path, csv_path in *.
    rewrite !lookup_insert_ne by done. by rewrite Hfw.
Qed.

(** [main] without a usable artifact. *)
Lemma main_without_artifact (a : args) (w : World) :
  ~ (exists flows, artifact_flows a w flows) ->
  exists w', main a w = (Ok 1, w').
Proof.
  intros Hno. unfold main. rewrite and_then_io. cbn [path_exists].
  destruct (_ || _); cbn [negb].
  2:{ rewrite !and_then_io. cbn [print mret io_ret]. by eexists. }
  rewrite and_then_io.
  destruct (parse_flowmon_results_inv init_flows (flowmon a) w)
    as (b & flows & w1 & -> & Hq1 & Hb).
  destruct b; cbn [negb]; [|by eexists].
  destruct Hb as [Hb _]. exfalso. apply Hno. exists flows. by apply Hb.
Qed.

Lemma parse_flowmon_results_ok (flows flows' : flow_table) (p : pypath)
    (els : list (gmap string string)) (w : World) :
  files w !! resolve (cwd w) p = Some (XmlDoc els) ->
  parse_flows els flows = (Ok tt, flows') ->
  exists w1, quiet w w1 /\ parse_flowmon_results flows p w = (Ok (true, flows'), w1).
Proof.
  intros Hf Hp. unfold parse_flowmon_results, et_parse_flows. rewrite Hf, Hp.
  eexists. split; [|reflexivity]. repeat split; [done|]. by eexists.
Qed.

Lemma quiet_file_exists (w w' : World) (p : path) :
  quiet w w' -> file_exists w' p = file_exists w p.
Proof. intros (_ & Hf & _). unfold file_exists. by rewrite Hf. Qed.

Lemma save_figures_ok (out : pypath) (names : list string) (w : World) :
  dir_exists w (resolve (cwd w) out) = true ->
  exists w', save_figures out names w = (Ok tt, w') /\
             cwd w' = cwd w /\ dirs w' = dirs w.
Proof.
  revert w. induction names as [|n names IH]; intros w Hdir; cbn [save_figures].
  - by exists w.
  - rewrite and_then_io, open_write_ok
      by (by rewrite resolve_join, parent_snoc).
    destruct (IH (set_files (<[resolve (cwd w) (join out [Name n]) := Blob]> (files w)) w))
      as (w' & -> & Hc & Hd); [done|].
    by exists w'.
Qed.

Lemma export_csv_report_ok (flows : flow_table) (out : pypath) (t : float)
    (data : list csv_row) (w : World) :
  dir_exists w (resolve (cwd w) out) = true ->
  csv_rows t 0 flows = Ok data ->
  exists w', export_csv_report flows out t w = (Ok data, w') /\ stays w w'.
Proof.
  intros Hdir Hrows. unfold export_csv_report.
  lazymatch goal with
  | |- context [and_then (ensure_dir ?p) ?k w] =>
      destruct (ensure_dir_then p k w) as (w1 & Hq1 & -> & Hdir1)
  end.
  specialize (Hdir1 (or_intror Hdir)).
  assert (Hc : cwd w1 = cwd w) by apply Hq1.
  rewrite and_then_io. cbn [lift]. rewrite Hrows.
  rewrite and_then_io, open_write_ok
    by (by rewrite resolve_join, parent_snoc, Hc).
  rewrite and_then_io. cbn [print mret io_ret].
  eexists. split; [reflexivity|].
  apply quiet_stays in Hq1 as [Hc1 Hd1]. split; [exact Hc1 | exact Hd1].
Qed.

Lemma plot_step_ok (flows : flow_table) (a : args) (w : World) :
  dir_exists w (resolve (cwd w) (output a)) = true ->
  no_plots a = true \/ (render flows).2 = Ok tt \/ (render flows).2 = Raise ImportError ->
  exists w', plot_step flows a w = (Ok tt, w').
Proof.
  intros Hdir Hplots. unfold plot_step.
  destruct (no_plots a); [by eexists|].
  destruct Hplots as [?|Hplots]; [done|].
  unfold try_except, create_visualizations.
  lazymatch goal with
  | |- context [and_then (ensure_dir ?p) ?k w] =>
      destruct (ensure_dir_then p k w) as (w1 & Hq1 & -> & Hdir1)
  end.
  specialize (Hdir1 (or_intror Hdir)).
  assert (Hc : cwd w1 = cwd w) by apply Hq1.
  destruct (render flows) as [saved outcome]. cbn [snd] in Hplots.
  assert (Hend : forall w0 : World,
             exists w',
               match outcome with
               | Ok a0 => (Ok a0, w0)
               | Raise e =>
                   (if decide (e = ImportError)
                    then
                      print "Warning: matplotlib not available. Skipping plot generation.";;
                      print "Install matplotlib with: pip install matplotlib"
                    else lift (Raise e)) w0
               end = (Ok tt, w')).
  { intros w0. destruct Hplots as [->| ->]; [by eexists|].
    rewrite decide_True by done. rewrite and_then_io. cbn [print]. by eexists. }
  rewrite and_then_io.
  destruct (save_figures_ok (output a) (take saved (take 2 plot_files)) w1)
    as (w2 & -> & Hc2 & Hd2); [by rewrite Hc|].
  rewrite and_then_io.
  destruct (2 <=? saved)%nat.
  - rewrite and_then_io. cbn [print].
    lazymatch goal with
    | |- context [save_figures ?o ?n ?w0] =>
        destruct (save_figures_ok o n w0) as (w3 & -> & _)
    end.
    { unfold dir_exists in *. cbn [cwd dirs set_console]. by rewrite Hc2, Hd2, Hc. }
    cbn [lift]. apply Hend.
  - cbn [mret io_ret lift]. apply Hend.
Qed.

(** [main] with a usable artifact, a report that can be generated and
    written, and a plotting layer that works or is not installed. *)
Lemma main_success (a : args) (w : World) (flows : flow_table)
    (report : string) (data : list csv_row) :
  artifact_flows a w flows ->
  generate_performance_report flows (simulation_time a) (image_size a) = Ok report ->
  csv_rows (simulation_time a) 0 flows = Ok data ->
  file_exists w (resolve (cwd w) (output a)) = false \/
  dir_exists w (resolve (cwd w) (output a)) = true ->
  no_plots a = true \/ (render flows).2 = Ok tt \/ (render flows).2 = Raise ImportError ->
  exists w', main a w = (Ok 0, w').
Proof.
  intros (els & Hart & Hparse) Hrep Hrows Hout Hplots.
  unfold main. rewrite and_then_io. cbn [path_exists].
  assert (Hfe : file_exists w (resolve (cwd w) (flowmon a)) = true).
  { unfold file_exists. apply bool_decide_eq_true. unfold artifact_path in Hart.
    by rewrite Hart. }
  rewrite Hfe, orb_true_r. cbn [negb].
  destruct (parse_flowmon_results_ok init_flows flows (flowmon a) els w Hart Hparse)
    as (w1 & Hq1 & Hp).
  rewrite and_then_io, Hp. cbn [negb].
  rewrite and_then_io. cbn [lift]. rewrite Hrep.
  lazymatch goal with
  | |- context [and_then ?m ?k w1] =>
      destruct (quietly_then m k w1 (quietly_print _)) as (w2 & Hq2 & ->)
  end.
  assert (Hq12 : quiet w w2) by eauto using quiet_trans.
  assert (Hc2 : cwd w2 = cwd w) by apply Hq12.
  lazymatch goal with
  | |- context [and_then (ensure_dir ?p) ?k w2] =>
      destruct (ensure_dir_then p k w2) as (w3 & Hq3 & -> & Hdir3)
  end.
  rewrite Hc2 in Hdir3.
  assert (Hdir : dir_exists w3 (resolve (cwd w) (output a)) = true).
  { apply Hdir3. destruct Hout as [Hf|Hd].
    - left. by rewrite (quiet_file_exists w w2).
    - right. by apply (quiet_dir_exists w w2). }
  assert (Hc3 : cwd w3 = cwd w).
  { transitivity (cwd w2); [apply Hq3 | done]. }
  rewrite and_then_io, open_write_ok
    by (by rewrite resolve_join, parent_snoc, Hc3).
  rewrite and_then_io. cbn [print]. rewrite and_then_io.
  lazymatch goal with
  | |- context [export_csv_report flows (output a) (simulation_time a) ?w4] =>
      destruct (export_csv_report_ok flows (output a) (simulation_time a) data w4)
        as (w5 & -> & Hs5); [by cbn [cwd set_console set_files]; rewrite Hc3 | done |];
      assert (Hdir5 : dir_exists w5 (resolve (cwd w5) (output a)) = true)
  end.
  { destruct Hs5 as [Hc5 Hd5]. unfold same_cwd in Hc5. cbn in Hc5. rewrite Hc5, Hc3.
    eapply stays_dir_exists_abs; [split; [exact Hc5 | exact Hd5]|]. exact Hdir. }
  rewrite and_then_io.
  destruct (plot_step_ok flows a w5 Hdir5 Hplots) as (w6 & ->).
  by eexists.
Qed.

End main.
End MainFacts.

(* ================================================================== *)
(** * Exit codes, reproducible reports, and the batch *)
(* ================================================================== *)
Module EntryPointFacts.

Import AnalyzeResults RunScenarios PyFacts OSFacts FrameFacts RunnerFacts BatchFacts MainFacts.

Section entry_points.
Context `{Builtins} `{Pandas} `{Matplotlib} `{Processes}.

Lemma artifact_flows_unique (a : AnalyzeResults.args) (w w' : World)
    (flows flows' : flow_table) :
  files w !! artifact_path a w = files w' !! artifact_path a w' ->
  artifact_flows a w flows -> artifact_flows a w' flows' -> flows = flows'.
Proof.
  intros Heq (els & Hf & Hp) (els' & Hf' & Hp').
  rewrite Heq, Hf' in Hf. injection Hf as <-. congruence.
Qed.

(** C9: the two reports are a function of the artifact and the
    parameters.  Two runs of the analysis that both succeed, in any two
    worlds that hold the same artifact, write the same text report and the
    same tabular report; and a successful run that left the artifact
    unchanged can be repeated: the second run succeeds and leaves both
    reports as the first wrote them. *)
Theorem reports_are_reproducible (a : AnalyzeResults.args) :
  (forall w1 w1' w2 w2' : World,
      AnalyzeResults.main a w1 = (Ok 0, w1') ->
      AnalyzeResults.main a w2 = (Ok 0, w2') ->
      files w1 !! artifact_path a w1 = files w2 !! artifact_path a w2 ->
      exists flows report data,
        artifact_flows a w1 flows /\
        generate_performance_report flows (simulation_time a) (image_size a) = Ok report /\
        csv_rows (simulation_time a) 0 flows = Ok data /\
        files w1' !! report_path a w1 = Some (Text report) /\
        files w2' !! report_path a w2 = Some (Text report) /\
        files w1' !! csv_path a w1 = Some (Text (to_csv data)) /\
        files w2' !! csv_path a w2 = Some (Text (to_csv data)))
  /\
  (forall w w1 : World,
      AnalyzeResults.main a w = (Ok 0, w1) ->
      files w1 !! artifact_path a w = files w !! artifact_path a w ->
      exists w2,
        AnalyzeResults.main a w1 = (Ok 0, w2) /\
        files w2 !! report_path a w = files w1 !! report_path a w /\
        files w2 !! csv_path a w = files w1 !! csv_path a w).
Proof.
  assert (Hdet : forall w1 w1' w2 w2' : World,
      AnalyzeResults.main a w1 = (Ok 0, w1') ->
      AnalyzeResults.main a w2 = (Ok 0, w2') ->
      files w1 !! artifact_path a w1 = files w2 !! artifact_path a w2 ->
      exists flows report data,
        artifact_flows a w1 flows /\
        generate_performance_report flows (simulation_time a) (image_size a) = Ok report /\
        csv_rows (simulation_time a) 0 flows = Ok data /\
        files w1' !! report_path a w1 = Some (Text report) /\
        files w2' !! report_path a w2 = Some (Text report) /\
        files w1' !! csv_path a w1 = Some (Text (to_csv data)) /\
        files w2' !! csv_path a w2 = Some (Text (to_csv data))).
  { intros w1 w1' w2 w2' Hm1 Hm2 Hart.
    apply main_success_inv in Hm1
      as (flows & report & data & Ha1 & Hrep & Hrows & Hr1 & Hc1 & _).
    apply main_success_inv in Hm2
      as (flows' & report' & data' & Ha2 & Hrep' & Hrows' & Hr2 & Hc2 & _).
    assert (flows = flows') as <- by eauto using artifact_flows_unique.
    rewrite Hrep in Hrep'. injection Hrep' as <-.
    rewrite Hrows in Hrows'. injection Hrows' as <-.
    by exists flows, report, data. }
  split; [exact Hdet|].
  intros w w1 Hm Hsame.
  pose proof Hm as Hinv.
  apply main_success_inv in Hinv
    as (flows & report & data & (els & Hart & Hparse) & Hrep & Hrows & Hr1 & Hc1 & Hcwd
        & Hdir & Hplots & _).
  assert (Hpaths : artifact_path a w1 = artifact_path a w
                   /\ report_path a w1 = report_path a w
                   /\ csv_path a w1 = csv_path a w).
  { unfold artifact_path, report_path, csv_path. by rewrite Hcwd. }
  destruct Hpaths as (Hap & Hrp & Hcp).
  destruct (main_success a w1 flows report data) as (w2 & Hm2); try done.
  - exists els. split; [|done]. by rewrite Hap, Hsame.
  - right. by rewrite Hcwd.
  - exists w2. split; [done|].
    destruct (Hdet w w1 w1 w2 Hm Hm2) as (f & r & d & _ & _ & _ & Ha & Hb & Hc & Hd).
    { by rewrite Hap. }
    rewrite Hrp in Hb. rewrite Hcp in Hd. by rewrite Ha, Hb, Hc, Hd.
Qed.


End entry_points.
End EntryPointFacts.

(* ================================================================== *)
(** * Examples for the entry points *)
(* ================================================================== *)
Module EntryPointExamples.

Import AnalyzeResults RunScenarios PyFacts OSFacts FrameFacts RunnerFacts
       BatchFacts MainFacts EntryPointFacts Demo.

Lemma reports_are_reproducible_witness :
  exists w2,
    AnalyzeResults.main analysis_args (AnalyzeResults.main analysis_args analysis_world).2
    = (Ok 0, w2) /\
    files w2 !! report_path analysis_args analysis_world
    = files (AnalyzeResults.main analysis_args analysis_world).2
        !! report_path analysis_args analysis_world /\
    files w2 !! csv_path analysis_args analysis_world
    = files (AnalyzeResults.main analysis_args analysis_world).2
        !! csv_path analysis_args analysis_world.
Proof.
  apply (proj2 (reports_are_reproducible analysis_args)).
  - vm_compute. reflexivity.
  - vm_compute. reflexivity.
Defined.

(** The tabular report of the worked example: one header line and one
    row, with the floats printed by [repr]. *)
Example csv_of_worked_example :
  files (AnalyzeResults.main analysis_args analysis_world).2
    !! ["work"; "results"; "simulation_results.csv"]
  = Some (Text (csv_header +:+ nl
                +:+ "1,Messi,100,95,100000,95000,5.0,21.052631578947366,10.0,0.076,95.0"
                +:+ nl)).
Proof. vm_compute. reflexivity. Qed.


(** The batch of the witness, evaluated: the first run returns [False], the
    second [True], and the exit code is 0. *)
Example exit_code_of_a_mixed_batch :
  (run_all_scenarios cfg_fail_then_ok (world_at [])).1
  = Ok [("scenario_a", false); ("scenario_b", true)] /\
  (RunScenarios.main cfg_fail_then_ok batch_args (world_at [])).1 = Ok 0.
Proof. split; vm_compute; reflexivity. Qed.


(** C5 (what the code does): [A] fails and [B]'s simulation exits with 0
    after writing its flow statistics.  From the project directory, [B] is
    nevertheless recorded as failed: its result directory was made before
    [os.chdir("..")], and the path is then read relative to the directory
    above, where it does not exist.  No analysis report and no comparison
    are written, and the exit code is 1.  Where the directory above does
    hold such a directory, [B] is recorded as succeeded and listed in the
    comparison, but its statistics were moved there and the analysis, which
    looks below the project directory, finds nothing to analyse. *)
Theorem second_scenario_after_failure :
  let w := RunScenarios.main cfg_fail_then_ok batch_args (world_at project_dir) in
  let w' := RunScenarios.main cfg_fail_then_ok batch_args
              (world_with_parent_results ["scenario_a"; "scenario_b"]) in
  let b_dir := project_dir ++ ["scenario_results"; "scenario_b"] in
  let comparison := project_dir ++ ["scenario_results"; "scenario_comparison.txt"] in
  (w.1 = Ok 1 /\
   (run_all_scenarios cfg_fail_then_ok (world_at project_dir)).1
   = Ok [("scenario_a", false); ("scenario_b", false)] /\
   last (children w.2)
   = Some (Exited (scenario_cmd cfg_fail_then_ok (scenario_section "5Mbps")) 0) /\
   files w.2 !! (b_dir ++ ["performance_report.txt"]) = None /\
   files w.2 !! comparison = None)
  /\
  (w'.1 = Ok 0 /\
   (run_all_scenarios cfg_fail_then_ok
      (world_with_parent_results ["scenario_a"; "scenario_b"])).1
   = Ok [("scenario_a", false); ("scenario_b", true)] /\
   files w'.2 !! (b_dir ++ ["performance_report.txt"]) = None /\
   files w'.2 !! (b_dir ++ ["flowmon-results.xml"]) = None /\
   files w'.2 !! (parent project_dir ++ ["scenario_results"; "scenario_b";
                                        "flowmon-results.xml"])
   = Some (XmlDoc [example_flow]) /\
   files w'.2 !! comparison = Some (Text (comparison_text cfg_fail_then_ok ["scenario_b"]))).
Proof. cbv zeta. repeat split; vm_compute; reflexivity. Qed.

(** Where the project directory is its own parent (the root), the paths
    agree and the batch does what the specification describes: [B] is
    analysed and the comparison lists [B] alone. *)
Example batch_at_the_root :
  let w := RunScenarios.main cfg_fail_then_ok batch_args (world_at []) in
  w.1 = Ok 0 /\
  is_Some (files w.2 !! ["scenario_results"; "scenario_b"; "performance_report.txt"]) /\
  files w.2 !! ["scenario_results"; "scenario_comparison.txt"]
  = Some (Text (comparison_text cfg_fail_then_ok ["scenario_b"])).
Proof.
  cbv zeta. split; [vm_compute; reflexivity|]. split; [|vm_compute; reflexivity].
  apply (bool_decide_unpack (is_Some _)). vm_compute. exact I.
Qed.

End EntryPointExamples.

(* ================================================================== *)
(** * Further properties of analyze_results.py *)
(* ================================================================== *)
Module ParsingProperties.

Import AnalyzeResults PyFacts AnalysisFacts ReportFacts OSFacts.

Section parsing.
Context `{Builtins}.

(** The loop stops at the first element that does not decode and keeps
    what the elements before it stored. *)
Lemma parse_flows_stops (good : list (gmap string string))
    (recs : list (Z * flow_data)) (bad : gmap string string)
    (rest : list (gmap string string)) (e : exn) :
  Forall2 (fun flow r => parse_flow flow = Ok r) good recs ->
  parse_flow bad = Raise e ->
  forall flows0,
    parse_flows (good ++ bad :: rest) flows0
    = (Raise e, foldl (fun d r => dict_set r.1 r.2 d) flows0 recs).
Proof.
  intros Hall Hbad. induction Hall as [|flow [flow_id fd] good recs Hflow _ IH];
    intros flows0; cbn [app parse_flows foldl].
  - by rewrite Hbad.
  - rewrite Hflow. apply IH.
Qed.

(** X1: [parse_flowmon_results] never raises and touches nothing but the
    console, to which it adds one line; it returns [True] exactly when the
    file is an XML document all of whose [<Flow>] elements decode, and a
    [False] comes with the error line of the exception it caught. *)
Theorem parse_flowmon_results_never_raises
    (flows : flow_table) (flowmon_file : pypath) (w : World) :
  exists (b : bool) (flows' : flow_table) (line : string),
    parse_flowmon_results flows flowmon_file w
    = (Ok (b, flows'), set_console (console w ++ [line]) w) /\
    (b = true <->
     exists els, files w !! resolve (cwd w) flowmon_file = Some (XmlDoc els) /\
                 parse_flows els flows = (Ok tt, flows')) /\
    (b = false ->
     exists e, line = "Error parsing FlowMonitor results: " +:+ str_of_exn e).
Proof.
  unfold parse_flowmon_results, et_parse_flows.
  destruct (files w !! resolve (cwd w) flowmon_file) as [[els| |]|] eqn:Hfile.
  - destruct (parse_flows els flows) as [[[]|e] flows'] eqn:Hparse.
    + exists true, flows'. eexists. split; [reflexivity|]. split; [|done].
      split; [|done]. intros _. by exists els.
    + exists false, flows'. eexists. split; [reflexivity|]. split; [|by eexists].
      split; [done|]. intros (els' & [= <-] & Hp). congruence.
  - exists false, flows. eexists. split; [reflexivity|]. split; [|by eexists].
    split; [done|]. by intros (els' & [=] & _).
  - exists false, flows. eexists. split; [reflexivity|]. split; [|by eexists].
    split; [done|]. by intros (els' & [=] & _).
  - exists false, flows. eexists. split; [reflexivity|]. split; [|by eexists].
    split; [done|]. by intros (els' & [=] & _).
Qed.

(** X2: when an element of the artifact does not decode, the parse returns
    [False] but the analyzer keeps the flows of the elements before it: the
    table is left half filled, and the elements after it are never read. *)
Theorem failed_parse_keeps_earlier_flows
    (good : list (gmap string string)) (recs : list (Z * flow_data))
    (bad : gmap string string) (rest : list (gmap string string)) (e : exn)
    (flowmon_file : pypath) (w : World) :
  files w !! resolve (cwd w) flowmon_file = Some (XmlDoc (good ++ bad :: rest)) ->
  Forall2 (fun flow r => parse_flow flow = Ok r) good recs ->
  parse_flow bad = Raise e ->
  parse_flowmon_results init_flows flowmon_file w
  = (Ok (false, foldl (fun d r => dict_set r.1 r.2 d) init_flows recs),
     set_console
       (console w ++ ["Error parsing FlowMonitor results: " +:+ str_of_exn e]) w).
Proof.
  intros Hfile Hgood Hbad. unfold parse_flowmon_results, et_parse_flows.
  rewrite Hfile, (parse_flows_stops _ _ _ _ _ Hgood Hbad). reflexivity.
Qed.

(** X3: the defaults of the attributes.  An element without [flowId] never
    decodes ([int(None)] is a [TypeError]), whatever else it carries; an
    element that carries nothing but a [flowId] decodes to a record of zero
    counters whose three metrics are the integer [0]. *)
Theorem attribute_defaults :
  (forall flow : gmap string string,
      flow !! "flowId" = None -> parse_flow flow = Raise TypeError) /\
  (forall (s : string) (flow_id : Z),
      int_of_string s = Ok flow_id ->
      parse_flow {[ "flowId" := s ]}
      = Ok (flow_id, mkFlow 0 0 0 0 (PInt 0) (PInt 0) (PInt 0))).
Proof.
  split.
  - intros flow Hnone. unfold parse_flow. by rewrite Hnone.
  - intros s flow_id Hs. unfold parse_flow, attr_int, attr_float.
    rewrite lookup_singleton_eq, Hs.
    rewrite !lookup_singleton_ne by done.
    vm_compute. reflexivity.
Qed.

End parsing.

Lemma footballer_inj (i j : nat) : footballer i = footballer j -> i = j.
Proof.
  rewrite !footballer_by_position.
  destruct i as [|[|[|[|[|i]]]]]; destruct j as [|[|[|[|[|j]]]]];
    cbn [entity_names lookup list_lookup default]; try discriminate; try reflexivity.
  intros Heq. apply (inj (String.app "Player_")) in Heq.
  by apply (inj pretty) in Heq.
Qed.

(** X4: the labels are pairwise distinct: two positions never get the same
    name, whether they are among the five configured names or past them. *)
Theorem footballer_labels_distinct (i j : nat) :
  i <> j -> footballer i <> footballer j.
Proof. intros Hne Heq. by apply Hne, footballer_inj. Qed.

End ParsingProperties.

Module ReportProperties.

Import AnalyzeResults PyFacts AnalysisFacts ReportFacts.

Section reports.
Context `{Builtins}.

Lemma flow_sections_length (simulation_time : float) (image_size : Z)
    (flows : flow_table) :
  forall (i : nat) (lines : list string),
    flow_sections simulation_time image_size i flows = Ok lines ->
    length lines = (9 * length flows)%nat.
Proof.
  induction flows as [|[fid d] flows IH]; intros i lines Hl; cbn [flow_sections] in Hl.
  - by injection Hl as <-.
  - apply and_then_ok in Hl as (s & Hs & Hl).
    apply and_then_ok in Hl as (r & Hr & Hl). injection Hl as <-.
    unfold flow_section in Hs.
    apply and_then_ok in Hs as (t & _ & Hs).
    apply and_then_ok in Hs as (e & _ & Hs). injection Hs as <-.
    rewrite length_app, (IH _ _ Hr). cbn [length]. lia.
Qed.

Lemma csv_rows_length (simulation_time : float) (flows : flow_table) :
  forall (i : nat) (rows : list csv_row),
    csv_rows simulation_time i flows = Ok rows -> length rows = length flows.
Proof.
  induction flows as [|[fid d] flows IH]; intros i rows Hr; cbn [csv_rows] in Hr.
  - by injection Hr as <-.
  - apply and_then_ok in Hr as (r & _ & Hr).
    apply and_then_ok in Hr as (rs & Hrs & Hr). injection Hr as <-.
    cbn [length]. by rewrite (IH _ _ Hrs).
Qed.

(** X5: the layout of the text report.  It has seventeen lines of header
    and summary followed by nine lines per flow, in the order of the table;
    the eighth line gives the number of flows, and the section of the Kth
    flow starts at line [17 + 9 K] with its flow id and its label. *)
Theorem report_layout (flows : flow_table) (simulation_time : float)
    (image_size : Z) (report : string) :
  generate_performance_report flows simulation_time image_size = Ok report ->
  exists lines : list string,
    report = join_lines lines /\
    length lines = (17 + 9 * length flows)%nat /\
    lines !! 7%nat = Some ("  Number of Flows: " +:+ pretty (length flows)) /\
    forall (K : nat) (flow_id : Z) (fd : flow_data),
      flows !! K = Some (flow_id, fd) ->
      lines !! (17 + 9 * K)%nat
      = Some ("Flow " +:+ str_of_int flow_id +:+ " - " +:+ footballer K +:+ ":").
Proof.
  intros Hrep. unfold generate_performance_report in Hrep. cbv zeta in Hrep.
  apply and_then_ok in Hrep as (loss & _ & Hrep).
  apply and_then_ok in Hrep as (bits & _ & Hrep).
  apply and_then_ok in Hrep as (usec & _ & Hrep).
  apply and_then_ok in Hrep as (thr & _ & Hrep).
  apply and_then_ok in Hrep as (per_flow & Hflows & Hrep).
  injection Hrep as <-. eexists. split; [reflexivity|].
  split; [|split].
  - cbn [length]. rewrite (flow_sections_length _ _ _ _ _ Hflows). lia.
  - reflexivity.
  - intros K flow_id fd Hk.
    change (17 + 9 * K)%nat with (S (S (S (S (S (S (S (S (S (S (S (S (S (S (S (S (S
                                   (9 * K))))))))))))))))))%nat.
    cbn [lookup list_lookup].
    apply (flow_sections_lookup _ _ _ 0%nat K _ _ _ Hflows Hk).
Qed.

(** X6: a flow that sent nothing is exported as fully delivered.  Its loss
    rate was stored as the integer [0], so its row of the table carries a
    loss of the integer [0] and a success rate of the integer [100]. *)
Theorem idle_flow_is_exported_as_delivered
    (flow : gmap string string) (flow_id : Z) (fd : flow_data)
    (simulation_time : float) (i : nat) (row : csv_row) :
  parse_flow flow = Ok (flow_id, fd) ->
  tx_packets fd <= 0 ->
  csv_row_of simulation_time i flow_id fd = Ok row ->
  Packets_Sent row = tx_packets fd /\
  Packet_Loss_Rate_pct row = PInt 0 /\
  Success_Rate_pct row = PInt 100.
Proof.
  intros Hflow Htx Hrow.
  destruct (parse_flow_metrics _ _ _ Hflow)
    as (ds & js & _ & _ & _ & _ & _ & _ & Hloss & _ & _).
  unfold spec_packet_loss_rate in Hloss.
  destruct (Z.gtb_spec (tx_packets fd) 0) as [?|_]; [lia|].
  injection Hloss as Hloss. unfold csv_row_of in Hrow. rewrite <- Hloss in Hrow.
  apply and_then_ok in Hrow as (t & _ & Hrow).
  cbn [mul sub and_then mbind result_bind] in Hrow.
  apply and_then_ok in Hrow as (d & _ & Hrow).
  apply and_then_ok in Hrow as (j & _ & Hrow).
  injection Hrow as <-. done.
Qed.

End reports.
End ReportProperties.

Module AnalysisProperties.

Import AnalyzeResults PyFacts AnalysisFacts ReportFacts OSFacts FrameFacts
       RunnerFacts MainFacts Footprint ReportProperties.

Lemma touches_only_refl (T : path -> list path) (w : World) : touches_only T w w.
Proof. split; [apply writes_only_refl | done]. Qed.

Lemma touches_only_trans (T : path -> list path) (a b c : World) :
  touches_only T a b -> touches_only T b c -> touches_only T a c.
Proof.
  intros [Hw Hc] [Hw' Hc']. split; [by eapply writes_only_trans | congruence].
Qed.

Lemma quiet_touches_only (T : path -> list path) (w w' : World) :
  quiet w w' -> touches_only T w w'.
Proof. intros Hq. split; [by apply quiet_writes_only | apply Hq]. Qed.

Lemma touches_only_quietly (T : path -> list path) (m : io unit) :
  quietly m -> respects (touches_only T) m.
Proof.
  intros Hm w. destruct (Hm w) as (w1 & -> & Hq). by apply quiet_touches_only.
Qed.

Lemma touches_only_open_write (T : path -> list path) (p : pypath) (c : content) :
  (forall c0, resolve c0 p ∈ T c0) -> respects (touches_only T) (open_write p c).
Proof.
  intros Hin w. split; [by apply writes_only_open_write|].
  unfold open_write. by destruct (dir_exists _ _).
Qed.

Lemma touches_only_path_exists (T : path -> list path) (p : pypath) :
  respects (touches_only T) (path_exists p).
Proof. intros w. apply touches_only_refl. Qed.

Lemma touches_only_weaken (T T' : path -> list path) (w w' : World) :
  (forall c0, T c0 ⊆ T' c0) -> touches_only T w w' -> touches_only T' w w'.
Proof.
  intros Hsub [[Hc Hf] Hch]. repeat split; [done | | done].
  intros q Hq. apply Hf. intros Hin. by apply Hq, Hsub.
Qed.

Lemma report_is_a_target (a : args) (c0 : path) :
  resolve c0 (join (output a) [Name "performance_report.txt"]) ∈ analysis_targets a c0.
Proof. apply list_elem_of_here. Qed.

Lemma csv_is_a_target (a : args) (c0 : path) :
  resolve c0 (join (output a) [Name "simulation_results.csv"]) ∈ analysis_targets a c0.
Proof. apply list_elem_of_further, list_elem_of_here. Qed.

Lemma plot_is_a_target (a : args) (n : string) (c0 : path) :
  n ∈ plot_files -> resolve c0 (join (output a) [Name n]) ∈ analysis_targets a c0.
Proof.
  intros Hn. do 2 apply list_elem_of_further. by apply plot_file_paths.
Qed.

Section analysis.
Context `{Builtins} `{Pandas} `{Matplotlib}.

Lemma parse_flowmon_results_prints (flows : flow_table) (p : pypath) (w : World) :
  exists b flows' line,
    parse_flowmon_results flows p w
    = (Ok (b, flows'), set_console (console w ++ [line]) w).
Proof.
  unfold parse_flowmon_results, et_parse_flows.
  destruct (files w !! resolve (cwd w) p) as [[els| |]|].
  - destruct (parse_flows els flows) as [[[]|e] flows']; by do 3 eexists.
  - by do 3 eexists.
  - by do 3 eexists.
  - by do 3 eexists.
Qed.

Lemma touches_only_parse (T : path -> list path) (flows : flow_table) (p : pypath) :
  respects (touches_only T) (parse_flowmon_results flows p).
Proof.
  intros w. destruct (parse_flowmon_results_prints flows p w) as (b & f & l & ->).
  repeat split.
Qed.

Lemma touches_only_save_figures (a : args) (names : list string) :
  names ⊆ plot_files ->
  respects (touches_only (analysis_targets a)) (save_figures (output a) names).
Proof.
  induction names as [|n names IH]; intros Hsub; cbn [save_figures].
  - apply (respects_ret _ (touches_only_refl _)).
  - apply (respects_and_then _ (touches_only_trans _)).
    + apply touches_only_open_write. intros c0. apply plot_is_a_target, Hsub.
      apply list_elem_of_here.
    + intros _. apply IH. intros x Hx. apply Hsub. by apply list_elem_of_further.
Qed.

Ltac footprint_prim a :=
  idtac;
  match goal with
  | |- respects _ (print _) => apply touches_only_quietly, quietly_print
  | |- respects _ (ensure_dir _) => apply touches_only_quietly, quietly_ensure_dir
  | |- respects _ (path_exists _) => apply touches_only_path_exists
  | |- respects _ (parse_flowmon_results _ _) => apply touches_only_parse
  | |- respects _ (open_write (join _ [Name "performance_report.txt"]) _) =>
      apply touches_only_open_write; intros ?; apply report_is_a_target
  | |- respects _ (open_write (join _ [Name "simulation_results.csv"]) _) =>
      apply touches_only_open_write; intros ?; apply csv_is_a_target
  | |- respects _ (save_figures _ (take _ (take 2 _))) =>
      apply touches_only_save_figures; intros ? ?;
      apply (subseteq_take 2 plot_files); eapply subseteq_take; eassumption
  | |- respects _ (save_figures _ (take _ (drop 2 _))) =>
      apply touches_only_save_figures; intros ? ?;
      apply (subseteq_drop 2 plot_files); eapply subseteq_take; eassumption
  end.

Ltac footprint_tac a :=
  respects_with (touches_only_refl (analysis_targets a))
                (touches_only_trans (analysis_targets a))
                ltac:(footprint_prim a).

Lemma touches_only_export (a : args) (flows : flow_table) (t : float) :
  respects (touches_only (analysis_targets a)) (export_csv_report flows (output a) t).
Proof. unfold export_csv_report. cbv zeta. footprint_tac a. Qed.

Lemma touches_only_plot_step (a : args) (flows : flow_table) :
  respects (touches_only (analysis_targets a)) (plot_step flows a).
Proof. unfold plot_step, create_visualizations. footprint_tac a. Qed.

Lemma touches_only_main (a : args) :
  respects (touches_only (analysis_targets a)) (main a).
Proof.
  pose proof (touches_only_export a) as Hexp.
  pose proof (touches_only_plot_step a) as Hplot.
  unfold main. cbv zeta. footprint_tac a.
Qed.

(** X7: the footprint of the analysis.  However [main] ends -- with 0, with
    1 or in an exception -- the working directory is the one it started in,
    no directory has gone, no process was started, and no file has changed
    but the two reports and the four figures below the output directory.  In
    particular the artifact is left as it was unless it is one of these. *)
Theorem analysis_footprint (a : args) (w : World) :
  cwd (main a w).2 = cwd w /\
  dirs w ⊆ dirs (main a w).2 /\
  children (main a w).2 = children w /\
  forall q : path,
    q ∉ analysis_targets a (cwd w) -> files (main a w).2 !! q = files w !! q.
Proof.
  destruct (touches_only_main a w) as [[Hc Hf] Hch].
  destruct (stays_analysis_main a w) as [_ Hd].
  repeat split; done.
Qed.

(** X8: without a usable artifact nothing is produced.  When the artifact
    is missing, is not XML or holds an element that does not decode, [main]
    returns 1 and has only printed: no output directory is made and no file
    is written. *)
Theorem no_artifact_no_output (a : args) (w : World) :
  ~ (exists flows, artifact_flows a w flows) ->
  exists w',
    main a w = (Ok 1, w') /\
    files w' = files w /\ dirs w' = dirs w /\ cwd w' = cwd w /\
    children w' = children w /\
    exists printed, printed <> [] /\ console w' = console w ++ printed.
Proof.
  intros Hno. unfold main. rewrite and_then_io. cbn [path_exists].
  destruct (_ || _); cbn [negb].
  2:{ rewrite !and_then_io. cbn [print mret io_ret]. eexists. split; [reflexivity|].
      cbn. repeat split. eexists [_; _]. split; [done|]. by rewrite <- app_assoc. }
  rewrite and_then_io.
  destruct (parse_flowmon_results_inv init_flows (flowmon a) w)
    as (b & flows & w1 & Hp & _ & Hb).
  destruct (parse_flowmon_results_prints init_flows (flowmon a) w)
    as (b' & flows' & line & Hp').
  rewrite Hp in Hp'. injection Hp' as -> -> ->. rewrite Hp.
  destruct b'; cbn [negb].
  - destruct Hb as [Hb _]. exfalso. apply Hno. exists flows'. by apply Hb.
  - eexists. split; [reflexivity|]. cbn. repeat split. by eexists [_].
Qed.

(** What a call of [export_csv_report] that can compute its rows does. *)
Lemma export_csv_report_effect
    (flows : flow_table) (output_dir : pypath) (simulation_time : float)
    (data : list csv_row) (w : World) :
  file_exists w (resolve (cwd w) output_dir) = false \/
  dir_exists w (resolve (cwd w) output_dir) = true ->
  csv_rows simulation_time 0 flows = Ok data ->
  exists w',
    export_csv_report flows output_dir simulation_time w = (Ok data, w') /\
    dir_exists w' (resolve (cwd w) output_dir) = true /\
    files w'
    = <[resolve (cwd w) output_dir ++ ["simulation_results.csv"]
        := Text (to_csv data)]> (files w) /\
    cwd w' = cwd w /\ children w' = children w.
Proof.
  intros Hout Hrows. unfold export_csv_report.
  lazymatch goal with
  | |- context [and_then (ensure_dir ?p) ?k w] =>
      destruct (ensure_dir_then p k w) as (w1 & Hq1 & -> & Hdir1)
  end.
  specialize (Hdir1 Hout). destruct Hq1 as (Hc1 & Hf1 & Hch1 & _).
  rewrite and_then_io. cbn [lift]. rewrite Hrows. cbv zeta.
  rewrite and_then_io, open_write_ok
    by (by rewrite resolve_join, parent_snoc, Hc1).
  rewrite and_then_io. cbn [print]. cbn [mret io_ret].
  eexists. split; [reflexivity|].
  cbn [files cwd children set_console set_files].
  rewrite resolve_join, Hc1, Hf1, Hch1.
  split; [exact Hdir1 | done].
Qed.

(** X9: [export_csv_report] on its own.  When the output path is not an
    existing file and the rows can be computed, it makes the directory if
    need be, writes one file -- the table, one row per flow -- returns the
    rows, and changes nothing else. *)
Theorem export_csv_report_writes_the_table
    (flows : flow_table) (output_dir : pypath) (simulation_time : float)
    (data : list csv_row) (w : World) :
  file_exists w (resolve (cwd w) output_dir) = false \/
  dir_exists w (resolve (cwd w) output_dir) = true ->
  csv_rows simulation_time 0 flows = Ok data ->
  exists w',
    export_csv_report flows output_dir simulation_time w = (Ok data, w') /\
    length data = length flows /\
    dir_exists w' (resolve (cwd w) output_dir) = true /\
    files w'
    = <[resolve (cwd w) output_dir ++ ["simulation_results.csv"]
        := Text (to_csv data)]> (files w) /\
    cwd w' = cwd w /\ children w' = children w.
Proof.
  intros Hout Hrows.
  destruct (export_csv_report_effect flows output_dir simulation_time data w Hout Hrows)
    as (w' & Hexp & Hdir & Hfiles & Hcwd & Hch).
  exists w'. split; [done|]. split; [by eapply csv_rows_length | done].
Qed.

(** The overall throughput divides by [simulation_time * 1e6]: a duration
    of zero, of either sign, makes the report raise. *)
Lemma report_raises_at_zero (flows : flow_table) (t : float) (image_size : Z) :
  t = 0%float \/ t = (-0)%float ->
  exists e, generate_performance_report flows t image_size = Raise e.
Proof.
  intros Ht. unfold generate_performance_report.
  destruct (if (total tx_packets flows >? 0)%Z then _ else _) as [loss|e]; [|by eexists].
  cbn [and_then mbind result_bind mul].
  assert (Husec : (x ← to_float (PFloat t); y ← to_float (PFloat 1e6);
                   Ok (PFloat (PrimFloat.mul x y)))
                  = Ok (PFloat (PrimFloat.mul t 1e6))) by reflexivity.
  rewrite Husec. cbn [and_then mbind result_bind].
  unfold truediv. cbn [to_float].
  destruct (float_of_int (total rx_bytes flows * 8)) as [x|e]; [|by eexists].
  cbn [and_then mbind result_bind]. unfold float_truediv.
  assert (Hz : PrimFloat.eqb (PrimFloat.mul t 1e6) 0 = true)
    by (destruct Ht as [-> | ->]; reflexivity).
  rewrite Hz. cbn. by eexists.
Qed.

(** X10: a duration of zero stops the analysis before anything is written.
    With an artifact that decodes and [--simulation-time 0] (or [-0.0]),
    [main] ends in the exception of the report, which nothing handles, and
    has only printed: no directory is made and no file written. *)
Theorem zero_duration_aborts_before_writing (a : args) (w : World)
    (flows : flow_table) :
  artifact_flows a w flows ->
  simulation_time a = 0%float \/ simulation_time a = (-0)%float ->
  exists e w',
    main a w = (Raise e, w') /\
    generate_performance_report flows (simulation_time a) (image_size a) = Raise e /\
    files w' = files w /\ dirs w' = dirs w /\ cwd w' = cwd w.
Proof.
  intros (els & Hart & Hparse) Ht.
  destruct (report_raises_at_zero flows _ (image_size a) Ht) as (e & He).
  exists e. unfold main. rewrite and_then_io. cbn [path_exists].
  assert (Hfe : file_exists w (resolve (cwd w) (flowmon a)) = true).
  { unfold file_exists. apply bool_decide_eq_true. unfold artifact_path in Hart.
    by rewrite Hart. }
  rewrite Hfe, orb_true_r. cbn [negb].
  destruct (parse_flowmon_results_ok init_flows flows (flowmon a) els w Hart Hparse)
    as (w1 & Hq1 & Hp).
  destruct (parse_flowmon_results_prints init_flows (flowmon a) w)
    as (b' & flows' & line & Hp').
  rewrite Hp in Hp'. injection Hp' as <- <- ->.
  rewrite and_then_io, Hp. cbn [negb].
  rewrite and_then_io. cbn [lift]. rewrite He.
  eexists. split; [reflexivity|]. by cbn.
Qed.

(** X11: what was written before the plots stays written.  When the
    reports can be produced and the plotting layer then raises anything but
    [ImportError], [main] ends in that exception, which nothing handles, but
    the text report and the table are in place. *)
Theorem plot_failure_keeps_reports (a : args) (w : World) (flows : flow_table)
    (report : string) (data : list csv_row) (e : exn) :
  artifact_flows a w flows ->
  generate_performance_report flows (simulation_time a) (image_size a) = Ok report ->
  csv_rows (simulation_time a) 0 flows = Ok data ->
  file_exists w (resolve (cwd w) (output a)) = false \/
  dir_exists w (resolve (cwd w) (output a)) = true ->
  no_plots a = false ->
  (render flows).2 = Raise e ->
  e <> ImportError ->
  exists w',
    main a w = (Raise e, w') /\
    files w' !! report_path a w = Some (Text report) /\
    files w' !! csv_path a w = Some (Text (to_csv data)).
Proof.
  intros (els & Hart & Hparse) Hrep Hrows Hout Hnp Hrender Hne.
  unfold main. rewrite and_then_io. cbn [path_exists].
  assert (Hfe : file_exists w (resolve (cwd w) (flowmon a)) = true).
  { unfold file_exists. apply bool_decide_eq_true. unfold artifact_path in Hart.
    by rewrite Hart. }
  rewrite Hfe, orb_true_r. cbn [negb].
  destruct (parse_flowmon_results_ok init_flows flows (flowmon a) els w Hart Hparse)
    as (w1 & Hq1 & Hp).
  rewrite and_then_io, Hp. cbn [negb].
  rewrite and_then_io. cbn [lift]. rewrite Hrep.
  lazymatch goal with
  | |- context [and_then ?m ?k w1] =>
      destruct (quietly_then m k w1 (quietly_print _)) as (w2 & Hq2 & ->)
  end.
  assert (Hq12 : quiet w w2) by eauto using quiet_trans.
  assert (Hc2 : cwd w2 = cwd w) by apply Hq12.
  lazymatch goal with
  | |- context [and_then (ensure_dir ?p) ?k w2] =>
      destruct (ensure_dir_then p k w2) as (w3 & Hq3 & -> & Hdir3)
  end.
  rewrite Hc2 in Hdir3.
  assert (Hdir : dir_exists w3 (resolve (cwd w) (output a)) = true).
  { apply Hdir3. destruct Hout as [Hf|Hd].
    - left. by rewrite (quiet_file_exists w w2).
    - right. by apply (quiet_dir_exists w w2). }
  assert (Hc3 : cwd w3 = cwd w).
  { transitivity (cwd w2); [apply Hq3 | done]. }
  assert (Hf3 : files w3 = files w).
  { transitivity (files w2); [apply Hq3 | apply Hq12]. }
  rewrite and_then_io, open_write_ok
    by (by rewrite resolve_join, parent_snoc, Hc3).
  rewrite and_then_io. cbn [print]. rewrite and_then_io.
  lazymatch goal with
  | |- context [export_csv_report flows (output a) (simulation_time a) ?w4] =>
      destruct (export_csv_report_effect flows (output a)
                  (simulation_time a) data w4)
        as (w5 & -> & Hdir5 & Hf5 & Hc5 & _);
        [right; change (dir_exists w3 (resolve (cwd w3) (output a)) = true); by rewrite Hc3
        | done |]
  end.
  cbn [cwd files set_console set_files] in Hdir5, Hf5, Hc5.
  rewrite and_then_io.
  pose proof (writes_only_plots a flows w5) as [Hc6 Hf6].
  assert (Hplot : (plot_step flows a w5).1 = Raise e).
  { unfold plot_step. rewrite Hnp. unfold try_except, create_visualizations.
    lazymatch goal with
    | |- context [and_then (ensure_dir ?p) ?k w5] =>
        destruct (ensure_dir_then p k w5) as (w6 & Hq6 & -> & Hdir6)
    end.
    assert (Hc6' : cwd w6 = cwd w5) by apply Hq6.
    destruct (render flows) as [saved outcome]. cbn [snd] in Hrender. subst outcome.
    rewrite and_then_io.
    destruct (save_figures_ok (output a) (take saved (take 2 plot_files)) w6)
      as (w7 & -> & Hc7 & Hd7).
    { rewrite Hc6'. apply Hdir6. right. rewrite Hc5. exact Hdir5. }
    rewrite and_then_io.
    destruct (2 <=? saved)%nat.
    - rewrite and_then_io. cbn [print].
      lazymatch goal with
      | |- context [save_figures ?o ?n ?w0] =>
          destruct (save_figures_ok o n w0) as (w8 & -> & _)
      end.
      { unfold dir_exists. cbn [cwd dirs set_console]. rewrite Hc7, Hd7.
        change (dir_exists w6 (resolve (cwd w6) (output a)) = true).
        rewrite Hc6'. apply Hdir6. right. rewrite Hc5. exact Hdir5. }
      cbn [lift]. by rewrite decide_False by done.
    - cbn [mret io_ret lift]. by rewrite decide_False by done. }
  destruct (plot_step flows a w5) as [r w6]. cbn [fst snd] in *. subst r.
  eexists. split; [reflexivity|].
  rewrite Hc5, Hc3 in Hf6. split.
  - rewrite Hf6 by apply report_not_a_plot.
    rewrite Hf5, Hc3, resolve_join.
    rewrite lookup_insert_ne.
    + unfold report_path. rewrite resolve_join. by rewrite lookup_insert_eq.
    + intros Heq. unfold report_path in Heq. rewrite resolve_join in Heq.
      apply app_inj_tail in Heq as [_ Heq]. discriminate.
  - rewrite Hf6 by apply csv_not_a_plot.
    rewrite Hf5, Hc3. unfold csv_path. rewrite !resolve_join.
    by rewrite lookup_insert_eq.
Qed.

(** X12: what exit code 0 means.  When [main] returns 0 the artifact
    decoded, and the output directory exists and holds the text report and
    the table computed from the flows of the artifact with the given
    duration and image size. *)
Theorem exit_0_means_reports_written (a : args) (w w' : World) :
  main a w = (Ok 0, w') ->
  exists (flows : flow_table) (report : string) (data : list csv_row),
    artifact_flows a w flows /\
    generate_performance_report flows (simulation_time a) (image_size a) = Ok report /\
    csv_rows (simulation_time a) 0 flows = Ok data /\
    files w' !! report_path a w = Some (Text report) /\
    files w' !! csv_path a w = Some (Text (to_csv data)) /\
    dir_exists w' (resolve (cwd w) (output a)) = true.
Proof.
  intros Hm.
  apply main_success_inv in Hm
    as (flows & report & data & Hart & Hrep & Hrows & Hr & Hc & _ & Hdir & _).
  by exists flows, report, data.
Qed.

End analysis.
End AnalysisProperties.

(* ================================================================== *)
(** * Further properties of run_scenarios.py *)
(* ================================================================== *)
Module RunnerProperties.

Import AnalyzeResults RunScenarios PyFacts OSFacts FrameFacts RunnerFacts
       BatchFacts MainFacts Footprint.

Lemma printed_only_refl (w : World) : printed_only w w.
Proof. done. Qed.

Lemma printed_only_trans (a b c : World) :
  printed_only a b -> printed_only b c -> printed_only a c.
Proof.
  intros (? & ? & ? & ?) (? & ? & ? & ?). repeat split; congruence.
Qed.

Lemma only_prints_print (s : string) : only_prints (print s).
Proof. intros w. eexists. split; [reflexivity | done]. Qed.

Lemma only_prints_and_then (m k : io unit) :
  only_prints m -> only_prints k -> only_prints (m;; k).
Proof.
  intros Hm Hk w. destruct (Hm w) as (w1 & Hm1 & Hp1).
  destruct (Hk w1) as (w2 & Hk2 & Hp2).
  exists w2. rewrite and_then_io, Hm1. split; [done|]. by eapply printed_only_trans.
Qed.

Lemma only_prints_then {B} (m : io unit) (k : unit -> io B) (w : World) :
  only_prints m -> exists w1, printed_only w w1 /\ and_then m k w = k tt w1.
Proof.
  intros Hm. destruct (Hm w) as (w1 & Hm1 & Hp1).
  exists w1. split; [done|]. by rewrite and_then_io, Hm1.
Qed.

Lemma only_prints_print_each (lines : list string) : only_prints (print_each lines).
Proof.
  induction lines as [|s lines IH]; cbn [print_each].
  - intros w. by exists w.
  - apply only_prints_and_then; [apply only_prints_print | exact IH].
Qed.

Lemma printed_only_dir_exists (w w' : World) (p : path) :
  printed_only w w' -> dir_exists w' p = dir_exists w p.
Proof. intros (_ & Hd & _). unfold dir_exists. by rewrite Hd. Qed.

Lemma printed_only_file_exists (w w' : World) (p : path) :
  printed_only w w' -> file_exists w' p = file_exists w p.
Proof. intros (_ & _ & Hf & _). unfold file_exists. by rewrite Hf. Qed.

(** The result directory seen from the directory above is none of the
    directories [os.makedirs] makes below the working directory. *)
Lemma sibling_not_made (c : path) (x name : string) (rest : list string) :
  name <> "scenario_results" ->
  c ++ ["scenario_results"; name]
  ∉ ancestors ((c ++ [x]) ++ "scenario_results" :: rest).
Proof.
  intros Hne Hin. unfold ancestors in Hin.
  apply list_elem_of_fmap in Hin as (n & Heq & Hn).
  assert (Hlook : (c ++ ["scenario_results"; name]) !! (length c + 1)%nat = Some name).
  { rewrite lookup_app_r by lia. by replace (length c + 1 - length c)%nat with 1%nat by lia. }
  rewrite Heq in Hlook. apply lookup_take_Some in Hlook as [Hlook _].
  rewrite <- (app_assoc c [x]) in Hlook. cbn [app] in Hlook.
  rewrite lookup_app_r in Hlook by lia.
  replace (length c + 1 - length c)%nat with 1%nat in Hlook by lia.
  injection Hlook as Hlook. by apply Hne.
Qed.

Section runner.
Context `{Builtins} `{Pandas} `{Matplotlib} `{Processes}.
Variable cfg : config.

Lemma only_prints_announce (name : string) (scenario : gmap string string) :
  only_prints (announce cfg name scenario).
Proof.
  unfold announce. cbv zeta.
  repeat (apply only_prints_and_then; [apply only_prints_print|]).
  apply only_prints_print.
Qed.

(** [run_scenario] for a section that exists, up to the [try] statement and
    after it: the banner is printed, the result directory is made below the
    working directory, and the [finally] clause puts the working directory
    back. *)
Lemma run_scenario_frame (name : string) (scenario : gmap string string) (w : World) :
  section cfg name = Some scenario ->
  exists w1,
    cwd w1 = cwd w /\ files w1 = files w /\ children w1 = children w /\
    dirs w1 = list_to_set (ancestors (cwd w ++ ["scenario_results"; name])) ∪ dirs w /\
    run_scenario cfg name w
    = ((try_except
          (attempt name (option_get cfg scenario "description" "No description")
                   (Rel (results_dir ++ [Name name])) (scenario_cmd cfg scenario))
          on_exception w1).1,
       set_cwd (cwd w)
         (try_except
            (attempt name (option_get cfg scenario "description" "No description")
                     (Rel (results_dir ++ [Name name])) (scenario_cmd cfg scenario))
            on_exception w1).2).
Proof.
  intros Hsec. unfold run_scenario. rewrite Hsec. cbv zeta.
  lazymatch goal with
  | |- context [and_then ?m ?k w] =>
      destruct (only_prints_then m k w (only_prints_announce _ _))
        as (w1 & (Hc1 & Hd1 & Hf1 & Hch1) & ->)
  end.
  rewrite and_then_io. cbn [makedirs].
  set (w2 := set_dirs _ w1).
  lazymatch goal with
  | |- context [and_then ?m ?k w2] =>
      destruct (only_prints_then m k w2 (only_prints_print _))
        as (w3 & Hp3 & ->)
  end.
  lazymatch goal with
  | |- context [and_then ?m ?k w3] =>
      destruct (only_prints_then m k w3 (only_prints_print _))
        as (w4 & Hp4 & ->)
  end.
  lazymatch goal with
  | |- context [and_then ?m ?k w4] =>
      destruct (only_prints_then m k w4 (only_prints_print _))
        as (w5 & Hp5 & ->)
  end.
  assert (Hp : printed_only w2 w5) by eauto using printed_only_trans.
  destruct Hp as (Hc5 & Hd5 & Hf5 & Hch5). subst w2.
  cbn [cwd dirs files children set_dirs] in Hc5, Hd5, Hf5, Hch5.
  exists w5. rewrite and_then_io. cbn [getcwd].
  rewrite try_finally_chdir_result.
  assert (Hdirs : dirs w5
                  = list_to_set (ancestors (cwd w ++ ["scenario_results"; name]))
                    ∪ dirs w).
  { rewrite Hd5, Hd1, Hc1. cbn [resolve results_dir app fold_left step].
    by rewrite <- app_assoc. }
  assert (Hcwd : cwd w5 = cwd w) by congruence.
  rewrite Hcwd. repeat split; congruence.
Qed.

(** The body of the [try] block, case by case. *)
Lemma attempt_cases (name description : string) (cmd : list string) (w : World) :
  let b := behaviour_of cmd (parent (cwd w)) (files w) in
  let scenario_dir := Rel (results_dir ++ [Name name]) in
  let w2 := set_cwd (parent (cwd w)) w in
  let w3 := set_files (apply_writes (writes b) (files w)) (log_event (Spawned cmd) w2) in
  let result := mkCompleted (exit_code b) (out b) (err b) in
  attempt name description scenario_dir cmd w
  = match launch_error b with
    | Some e => (Raise e, w2)
    | None =>
        if PrimFloat.ltb 300 (runtime b)
        then (Raise TimeoutExpired, log_event (Killed cmd) w3)
        else if decide (exit_code b = 0)
             then on_success name description scenario_dir result (runtime b)
                    (log_event (Exited cmd (exit_code b)) w3)
             else on_failure name scenario_dir result (runtime b)
                    (log_event (Exited cmd (exit_code b)) w3)
    end.
Proof.
  cbv zeta. unfold attempt. rewrite and_then_io. cbn [chdir].
  rewrite and_then_io. unfold subprocess_run.
  cbn [cwd files set_cwd resolve fold_left step]. fold (parent (cwd w)).
  destruct (launch_error _); [done|].
  destruct (PrimFloat.ltb _ _); [done|]. cbn [returncode]. by destruct (decide _).
Qed.

Lemma on_exception_returns (e : exn) (w : World) :
  exists w', on_exception e w = (Ok false, w') /\ printed_only w w'.
Proof.
  unfold on_exception. destruct (decide _); eexists; (split; [reflexivity | done]).
Qed.

Lemma resolve_scenario_dir (c : path) (name : string) :
  resolve c (Rel (results_dir ++ [Name name])) = c ++ ["scenario_results"; name].
Proof. cbn [resolve results_dir app fold_left step]. by rewrite <- app_assoc. Qed.

(** Without the result directory the log cannot be opened: both branches
    end in [FileNotFoundError], having only printed. *)
Lemma on_success_without_dir (name description : string) (result : completed)
    (t : float) (w : World) :
  dir_exists w (cwd w ++ ["scenario_results"; name]) = false ->
  exists w',
    on_success name description (Rel (results_dir ++ [Name name])) result t w
    = (Raise FileNotFoundError, w') /\ printed_only w w'.
Proof.
  intros Hdir. unfold on_success.
  lazymatch goal with
  | |- context [and_then ?m ?k w] =>
      destruct (only_prints_then m k w (only_prints_print _)) as (w1 & Hp1 & ->)
  end.
  rewrite and_then_io. unfold open_write.
  rewrite resolve_join, parent_snoc, resolve_scenario_dir.
  rewrite (printed_only_dir_exists w w1) by done.
  pose proof Hp1 as (Hc & _). rewrite Hc, Hdir. by exists w1.
Qed.

Lemma on_failure_without_dir (name : string) (result : completed)
    (t : float) (w : World) :
  dir_exists w (cwd w ++ ["scenario_results"; name]) = false ->
  exists w',
    on_failure name (Rel (results_dir ++ [Name name])) result t w
    = (Raise FileNotFoundError, w') /\ printed_only w w'.
Proof.
  intros Hdir. unfold on_failure.
  lazymatch goal with
  | |- context [and_then ?m ?k w] =>
      destruct (only_prints_then m k w (only_prints_print _)) as (w1 & Hp1 & ->)
  end.
  lazymatch goal with
  | |- context [and_then ?m ?k w1] =>
      destruct (only_prints_then m k w1 (only_prints_print _)) as (w2 & Hp2 & ->)
  end.
  lazymatch goal with
  | |- context [and_then ?m ?k w2] =>
      destruct (only_prints_then m k w2 (only_prints_print _)) as (w3 & Hp3 & ->)
  end.
  assert (Hp : printed_only w w3) by eauto using printed_only_trans.
  rewrite and_then_io. unfold open_write.
  rewrite resolve_join, parent_snoc, resolve_scenario_dir.
  rewrite (printed_only_dir_exists w w3) by done.
  pose proof Hp as (Hc & _). rewrite Hc, Hdir. by exists w3.
Qed.

(** From a working directory whose parent holds no [scenario_results/<name>]
    the log cannot be opened, whichever branch is taken. *)
Lemma run_scenario_lost (scenario_name : string) (w : World) :
  cwd w <> [] ->
  scenario_name <> "scenario_results" ->
  dir_exists w (parent (cwd w) ++ ["scenario_results"; scenario_name]) = false ->
  exists w',
    run_scenario cfg scenario_name w = (Ok false, w') /\
    cwd w' = cwd w /\
    dirs w'
    ⊆ list_to_set (ancestors (cwd w ++ ["scenario_results"; scenario_name])) ∪ dirs w /\
    forall scenario,
      section cfg scenario_name = Some scenario ->
      files w'
      = files_after_simulator
          (behaviour_of (scenario_cmd cfg scenario) (parent (cwd w)) (files w))
          (files w).
Proof.
  intros Hcwd Hname Hdir.
  destruct (section cfg scenario_name) as [scenario|] eqn:Hsec.
  2:{ eexists. split; [unfold run_scenario; by rewrite Hsec|].
      cbn [cwd dirs set_console]. split; [done|]. split; [|done].
      apply union_subseteq_r. }
  destruct (run_scenario_frame _ _ w Hsec) as (w1 & Hc1 & Hf1 & Hch1 & Hd1 & ->).
  assert (Hdir1 : dir_exists w1 (parent (cwd w) ++ ["scenario_results"; scenario_name])
                  = false).
  { unfold dir_exists in *. apply bool_decide_eq_false. apply bool_decide_eq_false in Hdir.
    intros [Hnil|Hin]; [by destruct (parent (cwd w))|].
    rewrite Hd1 in Hin. apply elem_of_union in Hin as [Hin|Hin].
    - apply elem_of_list_to_set in Hin.
      destruct (cwd w) as [|x c _] using rev_ind; [done|].
      rewrite parent_snoc in Hin.
      by apply (sibling_not_made c x scenario_name [scenario_name]) in Hin.
    - apply Hdir. by right. }
  unfold try_except. rewrite attempt_cases. cbv zeta. rewrite Hc1, Hf1.
  unfold files_after_simulator.
  assert (Hend : forall (e : exn) (w0 : World),
             dirs w0 = dirs w1 ->
             exists w',
               ((on_exception e w0).1, set_cwd (cwd w) (on_exception e w0).2)
               = (Ok false, w') /\
               cwd w' = cwd w /\
               dirs w'
               ⊆ list_to_set (ancestors (cwd w ++ ["scenario_results"; scenario_name]))
                 ∪ dirs w /\
               files w' = files w0).
  { intros e w0 Hd0. destruct (on_exception_returns e w0) as (w' & -> & (_ & Hd & Hf & _)).
    eexists. split; [reflexivity|]. cbn [fst snd cwd dirs files set_cwd].
    split; [done|]. split; [|done]. by rewrite Hd, Hd0, Hd1. }
  destruct (launch_error _) as [e|] eqn:Hlaunch.
  { destruct (Hend e (set_cwd (parent (cwd w)) w1) eq_refl) as (w' & -> & Hc & Hd & Hf).
    exists w'. split; [done|]. split; [done|]. split; [done|].
    intros ? [= <-]. rewrite Hlaunch. by rewrite Hf. }
  destruct (PrimFloat.ltb _ _).
  { lazymatch goal with
    | |- context [on_exception ?e ?w0] =>
        destruct (Hend e w0 eq_refl) as (w' & -> & Hc & Hd & Hf)
    end.
    exists w'. split; [done|]. split; [done|]. split; [done|].
    intros ? [= <-]. rewrite Hlaunch. by rewrite Hf. }
  set (w4 := log_event _ _).
  assert (Hdir4 : dir_exists w4 (cwd w4 ++ ["scenario_results"; scenario_name]) = false).
  { subst w4. unfold dir_exists in *.
    cbn [cwd dirs set_console log_event set_children set_files set_cwd] in *.
    exact Hdir1. }
  assert (Hd4 : dirs w4 = dirs w1) by reflexivity.
  assert (Hf4 : files w4
                = apply_writes
                    (writes (behaviour_of (scenario_cmd cfg scenario)
                                          (parent (cwd w)) (files w)))
                    (files w)) by reflexivity.
  clearbody w4.
  destruct (decide _).
  - destruct (on_success_without_dir scenario_name
                (option_get cfg scenario "description" "No description")
                (mkCompleted
                   (exit_code (behaviour_of (scenario_cmd cfg scenario)
                                            (parent (cwd w)) (files w)))
                   (out (behaviour_of (scenario_cmd cfg scenario)
                                      (parent (cwd w)) (files w)))
                   (err (behaviour_of (scenario_cmd cfg scenario)
                                      (parent (cwd w)) (files w))))
                (runtime (behaviour_of (scenario_cmd cfg scenario)
                                       (parent (cwd w)) (files w)))
                w4 Hdir4) as (w5 & -> & (_ & Hd5 & Hf5 & _)).
    destruct (Hend FileNotFoundError w5) as (w' & -> & Hc & Hd & Hf); [congruence|].
    exists w'. split; [done|]. split; [done|]. split; [done|].
    intros ? [= <-]. rewrite Hlaunch. congruence.
  - destruct (on_failure_without_dir scenario_name
                (mkCompleted
                   (exit_code (behaviour_of (scenario_cmd cfg scenario)
                                            (parent (cwd w)) (files w)))
                   (out (behaviour_of (scenario_cmd cfg scenario)
                                      (parent (cwd w)) (files w)))
                   (err (behaviour_of (scenario_cmd cfg scenario)
                                      (parent (cwd w)) (files w))))
                (runtime (behaviour_of (scenario_cmd cfg scenario)
                                       (parent (cwd w)) (files w)))
                w4 Hdir4) as (w5 & -> & (_ & Hd5 & Hf5 & _)).
    destruct (Hend FileNotFoundError w5) as (w' & -> & Hc & Hd & Hf); [congruence|].
    exists w'. split; [done|]. split; [done|]. split; [done|].
    intros ? [= <-]. rewrite Hlaunch. congruence.
Qed.

(** X14: the result directory is lost after [os.chdir("..")].  The runner
    makes [scenario_results/<name>] below its working directory, moves to
    the directory above, and then opens its log by the same relative path.
    So when the directory above holds no [scenario_results/<name>] of its
    own, [run_scenario] returns [False] whatever the simulator does --
    exit code 0 included -- and writes no file itself. *)
Theorem results_directory_is_lost_after_chdir (scenario_name : string) (w : World) :
  cwd w <> [] ->
  scenario_name <> "scenario_results" ->
  dir_exists w (parent (cwd w) ++ ["scenario_results"; scenario_name]) = false ->
  exists w',
    run_scenario cfg scenario_name w = (Ok false, w') /\
    forall scenario,
      section cfg scenario_name = Some scenario ->
      files w'
      = files_after_simulator
          (behaviour_of (scenario_cmd cfg scenario) (parent (cwd w)) (files w))
          (files w).
Proof.
  intros Hcwd Hname Hdir.
  destruct (run_scenario_lost scenario_name w Hcwd Hname Hdir)
    as (w' & Hrun & _ & _ & Hfiles).
  by exists w'.
Qed.

End runner.
End RunnerProperties.

Module RunnerOutcomes.

Import AnalyzeResults RunScenarios PyFacts OSFacts FrameFacts RunnerFacts
       BatchFacts MainFacts Footprint RunnerProperties.

Lemma writes_only_rename (T : path -> list path) (src dst : pypath) :
  (forall c0, resolve c0 src ∈ T c0) -> (forall c0, resolve c0 dst ∈ T c0) ->
  respects (writes_only T) (rename src dst).
Proof.
  intros Hs Hd w. unfold rename.
  destruct (files w !! _); [|apply writes_only_refl].
  destruct (dir_exists _ _); [|apply writes_only_refl].
  split; [done|]. intros q Hq. cbn.
  rewrite lookup_insert_ne by (intros <-; apply Hq, Hd).
  apply lookup_delete_ne. intros <-. apply Hq, Hs.
Qed.

Lemma writes_only_only_prints (T : path -> list path) (m : io unit) :
  only_prints m -> respects (writes_only T) m.
Proof.
  intros Hm w. destruct (Hm w) as (w1 & -> & (Hc & _ & Hf & _)).
  split; [done|]. intros q _. cbn. by rewrite Hf.
Qed.

Lemma log_is_a_target (name f : string) (c0 : path) :
  f = "simulation_output.txt" \/ f = "error_output.txt" ->
  resolve c0 (join (Rel (results_dir ++ [Name name])) [Name f]) ∈ runner_targets name c0.
Proof.
  intros Hf. rewrite resolve_join, resolve_scenario_dir. unfold runner_targets.
  cbv zeta. apply elem_of_app. left.
  destruct Hf as [-> | ->];
    [apply list_elem_of_here | apply list_elem_of_further, list_elem_of_here].
Qed.

Lemma source_is_a_target (name f : string) (c0 : path) :
  f ∈ files_to_move -> resolve c0 (Rel [Name f]) ∈ runner_targets name c0.
Proof.
  intros Hf. unfold runner_targets. cbv zeta.
  apply elem_of_app. right. apply elem_of_app. left.
  apply list_elem_of_fmap. by exists f.
Qed.

Lemma destination_is_a_target (name f : string) (c0 : path) :
  f ∈ files_to_move ->
  resolve c0 (join (Rel (results_dir ++ [Name name])) [Name f]) ∈ runner_targets name c0.
Proof.
  intros Hf. rewrite resolve_join, resolve_scenario_dir. unfold runner_targets.
  cbv zeta. apply elem_of_app. right. apply elem_of_app. right.
  apply list_elem_of_fmap. by exists f.
Qed.

Lemma writes_only_move_files (name : string) (names : list string) :
  names ⊆ files_to_move ->
  respects (writes_only (runner_targets name))
           (move_files (Rel (results_dir ++ [Name name])) names).
Proof.
  induction names as [|f names IH]; intros Hsub; cbn [move_files].
  - apply (respects_ret _ (writes_only_refl _)).
  - assert (Hf : f ∈ files_to_move) by (apply Hsub, list_elem_of_here).
    apply (respects_and_then _ (writes_only_trans _)).
    { intros w. apply writes_only_refl. }
    intros ex. apply (respects_and_then _ (writes_only_trans _)).
    + destruct ex; [|apply (respects_ret _ (writes_only_refl _))].
      apply writes_only_rename; intros c0;
        [by apply source_is_a_target | by apply destination_is_a_target].
    + intros _. apply IH. intros x Hx. by apply Hsub, list_elem_of_further.
Qed.

Section runner.
Context `{Builtins} `{Pandas} `{Matplotlib} `{Processes}.
Variable cfg : config.

Lemma writes_only_on_success (name description : string) (result : completed)
    (t : float) :
  respects (writes_only (runner_targets name))
           (on_success name description (Rel (results_dir ++ [Name name])) result t).
Proof.
  unfold on_success.
  apply (respects_and_then _ (writes_only_trans _)).
  { apply writes_only_only_prints, only_prints_print. }
  intros _. apply (respects_and_then _ (writes_only_trans _)).
  { apply writes_only_open_write. intros c0. apply log_is_a_target. by left. }
  intros _. apply (respects_and_then _ (writes_only_trans _)).
  { by apply writes_only_move_files. }
  intros _. apply (respects_ret _ (writes_only_refl _)).
Qed.

Lemma writes_only_on_failure (name : string) (result : completed) (t : float) :
  respects (writes_only (runner_targets name))
           (on_failure name (Rel (results_dir ++ [Name name])) result t).
Proof.
  unfold on_failure.
  do 3 (apply (respects_and_then _ (writes_only_trans _));
        [apply writes_only_only_prints, only_prints_print | intros _]).
  apply (respects_and_then _ (writes_only_trans _)).
  { apply writes_only_open_write. intros c0. apply log_is_a_target. by right. }
  intros _. apply (respects_ret _ (writes_only_refl _)).
Qed.

Lemma writes_only_on_exception (T : path -> list path) (e : exn) :
  respects (writes_only T) (on_exception e).
Proof.
  intros w. destruct (on_exception_returns e w) as (w' & -> & (Hc & _ & Hf & _)).
  split; [done|]. intros q _. cbn. by rewrite Hf.
Qed.

(** X15: the footprint of [run_scenario].  Whatever the outcome, the files
    afterwards are those the simulator left, except for six paths, all in
    or below the directory above the working directory: the two logs and the
    two artifacts in its [scenario_results/<name>], and the two artifacts in
    that directory itself.  A name that is no section changes no file. *)
Theorem run_scenario_footprint (scenario_name : string) (w : World) :
  (section cfg scenario_name = None ->
   files (run_scenario cfg scenario_name w).2 = files w) /\
  (forall scenario : gmap string string,
      section cfg scenario_name = Some scenario ->
      forall q : path,
        q ∉ runner_targets scenario_name (parent (cwd w)) ->
        files (run_scenario cfg scenario_name w).2 !! q
        = files_after_simulator
            (behaviour_of (scenario_cmd cfg scenario) (parent (cwd w)) (files w))
            (files w) !! q).
Proof.
  split.
  { intros Hnone. unfold run_scenario. by rewrite Hnone. }
  intros scenario Hsec q Hq.
  destruct (run_scenario_frame cfg _ _ w Hsec) as (w1 & Hc1 & Hf1 & Hch1 & Hd1 & ->).
  cbn [snd files set_cwd].
  unfold try_except. rewrite attempt_cases. cbv zeta. rewrite Hc1, Hf1.
  unfold files_after_simulator.
  destruct (launch_error _) as [e|] eqn:Hlaunch.
  { destruct (on_exception_returns e (set_cwd (parent (cwd w)) w1))
      as (w' & -> & (_ & _ & Hf & _)).
    cbn [snd files set_cwd] in *. by rewrite Hf, Hf1. }
  destruct (PrimFloat.ltb _ _).
  { lazymatch goal with
    | |- context [on_exception ?e ?w0] =>
        destruct (on_exception_returns e w0) as (w' & -> & (_ & _ & Hf & _))
    end.
    cbn [snd files set_cwd set_files log_event set_children] in *. by rewrite Hf. }
  set (w4 := log_event _ _).
  assert (Hc4 : cwd w4 = parent (cwd w)) by reflexivity.
  assert (Hf4 : files w4
                = apply_writes
                    (writes (behaviour_of (scenario_cmd cfg scenario)
                                          (parent (cwd w)) (files w)))
                    (files w)) by reflexivity.
  clearbody w4. rewrite <- Hf4, <- Hc4 in *.
  destruct (decide _).
  - lazymatch goal with
    | |- context [on_success ?n ?d ?p ?r ?t w4] =>
        pose proof (respects_try_except _ (writes_only_trans _)
                      (on_success n d p r t) on_exception
                      (writes_only_on_success n d r t)
                      (writes_only_on_exception _) w4) as [_ Hframe]
    end.
    unfold try_except in Hframe. by apply Hframe.
  - lazymatch goal with
    | |- context [on_failure ?n ?p ?r ?t w4] =>
        pose proof (respects_try_except _ (writes_only_trans _)
                      (on_failure n p r t) on_exception
                      (writes_only_on_failure n r t)
                      (writes_only_on_exception _) w4) as [_ Hframe]
    end.
    unfold try_except in Hframe. by apply Hframe.
Qed.

Lemma on_failure_is_false (name : string) (result : completed) (t : float)
    (w w' : World) :
  try_except (on_failure name (Rel (results_dir ++ [Name name])) result t)
             on_exception w <> (Ok true, w').
Proof.
  unfold try_except, on_failure.
  lazymatch goal with
  | |- context [and_then ?m ?k w] =>
      destruct (only_prints_then m k w (only_prints_print _)) as (w1 & Hp1 & ->)
  end.
  lazymatch goal with
  | |- context [and_then ?m ?k w1] =>
      destruct (only_prints_then m k w1 (only_prints_print _)) as (w2 & Hp2 & ->)
  end.
  lazymatch goal with
  | |- context [and_then ?m ?k w2] =>
      destruct (only_prints_then m k w2 (only_prints_print _)) as (w3 & Hp3 & ->)
  end.
  rewrite and_then_io. unfold open_write. destruct (dir_exists _ _).
  - cbn [mret io_ret]. congruence.
  - destruct (on_exception_returns FileNotFoundError w3) as (w5 & -> & _). congruence.
Qed.

(** What a run of [move_files] that returns has done: each file named is
    gone from the working directory, and those that were there are now in
    the scenario's directory. *)
Lemma move_files_inv (name : string) (names : list string) :
  NoDup names ->
  forall w w' : World,
    move_files (Rel (results_dir ++ [Name name])) names w = (Ok tt, w') ->
    cwd w' = cwd w /\ dirs w' = dirs w /\ children w' = children w /\
    (forall f, f ∈ names ->
       files w' !! (cwd w ++ [f]) = None /\
       forall c, files w !! (cwd w ++ [f]) = Some c ->
                 files w' !! (cwd w ++ ["scenario_results"; name; f]) = Some c) /\
    (forall q, (forall f, f ∈ names ->
                  q <> cwd w ++ [f] /\ q <> cwd w ++ ["scenario_results"; name; f]) ->
               files w' !! q = files w !! q).
Proof.
  induction 1 as [|f rest Hnotin Hnd IH]; intros w w' Hmove; cbn [move_files] in Hmove.
  { injection Hmove as <-. do 3 (split; [done|]). split; [|done].
    intros f Hf. by apply elem_of_nil in Hf. }
  rewrite and_then_io in Hmove. cbn [path_exists] in Hmove.
  rewrite and_then_io in Hmove.
  assert (Hsrc : resolve (cwd w) (Rel [Name f]) = cwd w ++ [f]) by reflexivity.
  assert (Hdst : resolve (cwd w) (join (Rel (results_dir ++ [Name name])) [Name f])
                 = cwd w ++ ["scenario_results"; name; f]).
  { rewrite resolve_join, resolve_scenario_dir, <- app_assoc. done. }
  assert (Hstep : exists w1,
             move_files (Rel (results_dir ++ [Name name])) rest w1 = (Ok tt, w') /\
             cwd w1 = cwd w /\ dirs w1 = dirs w /\ children w1 = children w /\
             files w1 !! (cwd w ++ [f]) = None /\
             (forall c, files w !! (cwd w ++ [f]) = Some c ->
                        files w1 !! (cwd w ++ ["scenario_results"; name; f]) = Some c) /\
             (forall q, q <> cwd w ++ [f] ->
                        q <> cwd w ++ ["scenario_results"; name; f] ->
                        files w1 !! q = files w !! q)).
  { destruct (dir_exists w _ || file_exists w _) eqn:Hex.
    - unfold rename in Hmove. rewrite Hsrc, Hdst in Hmove.
      destruct (files w !! (cwd w ++ [f])) as [c|] eqn:Hfile;
        [|cbv beta iota in Hmove; discriminate].
      destruct (dir_exists w (parent _)); [|cbv beta iota in Hmove; discriminate].
      cbv beta iota in Hmove.
      eexists. split; [exact Hmove|]. cbn [cwd dirs children files set_files].
      do 3 (split; [done|]). split; [|split].
      + rewrite lookup_insert_ne, lookup_delete_eq; [done|].
        intros Heq. apply app_inv_head in Heq. discriminate.
      + intros c' [= <-]. by rewrite lookup_insert_eq.
      + intros q Hq1 Hq2. by rewrite lookup_insert_ne, lookup_delete_ne.
    - cbn [mret io_ret] in Hmove. exists w. split; [exact Hmove|].
      apply orb_false_elim in Hex as [_ Hfe]. rewrite Hsrc in Hfe.
      unfold file_exists in Hfe. apply bool_decide_eq_false in Hfe.
      assert (Hnone : files w !! (cwd w ++ [f]) = None).
      { destruct (files w !! (cwd w ++ [f])) eqn:E; [|done]. exfalso. apply Hfe. by eexists. }
      do 4 (split; [done|]). split; [|done]. intros c Hc. congruence. }
  destruct Hstep as (w1 & Hrest & Hc1 & Hd1 & Hch1 & Hgone & Hmoved & Hframe).
  destruct (IH _ _ Hrest) as (Hc & Hd & Hch & Hnames & Hother).
  rewrite Hc1 in Hc, Hnames, Hother.
  do 3 (split; [congruence|]). split.
  - intros g Hg. apply elem_of_cons in Hg as [->|Hin]; [split|].
    + rewrite Hother; [done|]. intros g Hg. split.
      * intros Heq. apply app_inv_head in Heq. injection Heq as ->. done.
      * intros Heq. apply app_inv_head in Heq. discriminate.
    + intros c Hfile. rewrite Hother; [by apply Hmoved|]. intros g Hg. split.
      * intros Heq. apply app_inv_head in Heq. discriminate.
      * intros Heq. apply app_inv_head in Heq. injection Heq as ->. done.
    + destruct (Hnames g Hin) as [Hgone' Hmoved']. split; [done|].
      intros c Hfile. apply Hmoved'. rewrite Hframe; [done| |].
      * intros Heq. apply app_inv_head in Heq. injection Heq as ->. done.
      * intros Heq. apply app_inv_head in Heq. discriminate.
  - intros q Hq. rewrite Hother, Hframe; [done| | |].
    + apply (Hq f), list_elem_of_here.
    + apply (Hq f), list_elem_of_here.
    + intros g Hg. by apply Hq, list_elem_of_further.
Qed.

Lemma on_success_inv (name description : string) (result : completed) (t : float)
    (w w' : World) :
  try_except (on_success name description (Rel (results_dir ++ [Name name])) result t)
             on_exception w = (Ok true, w') ->
  dir_exists w (cwd w ++ ["scenario_results"; name]) = true /\
  cwd w' = cwd w /\ dirs w' = dirs w /\ children w' = children w /\
  is_Some (files w' !! (cwd w ++ ["scenario_results"; name; "simulation_output.txt"])) /\
  forall f, f ∈ files_to_move ->
    files w' !! (cwd w ++ [f]) = None /\
    forall c, files w !! (cwd w ++ [f]) = Some c ->
              files w' !! (cwd w ++ ["scenario_results"; name; f]) = Some c.
Proof.
  unfold try_except, on_success.
  lazymatch goal with
  | |- context [and_then ?m ?k w] =>
      destruct (only_prints_then m k w (only_prints_print _))
        as (w1 & (Hc1 & Hd1 & Hf1 & Hch1) & ->)
  end.
  rewrite and_then_io. unfold open_write.
  rewrite resolve_join, parent_snoc, resolve_scenario_dir.
  destruct (dir_exists w1 _) eqn:Hdir.
  2:{ destruct (on_exception_returns FileNotFoundError w1) as (w5 & -> & _). done. }
  rewrite and_then_io.
  lazymatch goal with
  | |- context [move_files ?d ?names ?w0] =>
      destruct (move_files d names w0) as [[[]|e] w3] eqn:Hmove
  end.
  2:{ destruct (on_exception_returns e w3) as (w5 & -> & _). done. }
  cbn [mret io_ret]. intros [= <-].
  apply move_files_inv in Hmove as (Hc & Hd & Hch & Hnames & Hother).
  2:{ apply (bool_decide_unpack (NoDup _)). vm_compute. exact I. }
  cbn [cwd dirs children files set_files] in Hc, Hd, Hch, Hnames, Hother.
  rewrite Hc1 in *.
  split. { unfold dir_exists in *. by rewrite <- Hd1. }
  do 3 (split; [congruence|]). split.
  - rewrite Hother.
    + rewrite <- app_assoc. cbn [app]. by rewrite lookup_insert_eq.
    + intros f Hf. split.
      * intros Heq. apply app_inv_head in Heq. discriminate.
      * intros Heq. apply app_inv_head in Heq. injection Heq as <-.
        unfold files_to_move in Hf.
        apply elem_of_cons in Hf as [Hf|Hf]; [discriminate|].
        apply elem_of_cons in Hf as [Hf|Hf]; [discriminate|].
        by apply elem_of_nil in Hf.
  - intros f Hf. destruct (Hnames f Hf) as [Hgone Hmoved]. split; [done|].
    intros c Hfile. apply Hmoved.
    rewrite lookup_insert_ne; [by rewrite Hf1|].
    rewrite <- app_assoc. intros Heq. apply app_inv_head in Heq. discriminate.
Qed.

(** X16: what [True] means.  [run_scenario] returns [True] only when the
    simulator was started, ended within 300 seconds and exited with 0.  The
    log of the run is then in [scenario_results/<name>] below the directory
    above the working directory, the two artifacts are gone from that
    directory, and whichever of them the simulator left there is now beside
    the log: nothing is stored below the working directory itself. *)
Theorem success_means_exit_code_zero (scenario_name : string) (w w' : World) :
  run_scenario cfg scenario_name w = (Ok true, w') ->
  exists scenario : gmap string string,
    section cfg scenario_name = Some scenario /\
    launch_error (behaviour_of (scenario_cmd cfg scenario) (parent (cwd w)) (files w))
    = None /\
    PrimFloat.ltb 300
      (runtime (behaviour_of (scenario_cmd cfg scenario) (parent (cwd w)) (files w)))
    = false /\
    exit_code (behaviour_of (scenario_cmd cfg scenario) (parent (cwd w)) (files w)) = 0 /\
    last (children w') = Some (Exited (scenario_cmd cfg scenario) 0) /\
    dir_exists w' (parent (cwd w) ++ ["scenario_results"; scenario_name]) = true /\
    is_Some (files w' !! (parent (cwd w)
                          ++ ["scenario_results"; scenario_name;
                              "simulation_output.txt"])) /\
    forall f, f ∈ files_to_move ->
      files w' !! (parent (cwd w) ++ [f]) = None /\
      forall c,
        apply_writes
          (writes (behaviour_of (scenario_cmd cfg scenario) (parent (cwd w)) (files w)))
          (files w) !! (parent (cwd w) ++ [f]) = Some c ->
        files w' !! (parent (cwd w) ++ ["scenario_results"; scenario_name; f]) = Some c.
Proof.
  intros Hrun.
  destruct (section cfg scenario_name) as [scenario|] eqn:Hsec.
  2:{ unfold run_scenario in Hrun. rewrite Hsec in Hrun. done. }
  exists scenario. split; [done|].
  destruct (run_scenario_frame cfg _ _ w Hsec) as (w1 & Hc1 & Hf1 & Hch1 & Hd1 & Heq).
  rewrite Heq in Hrun. clear Heq.
  unfold try_except in Hrun. rewrite attempt_cases in Hrun. cbv zeta in Hrun.
  rewrite Hc1, Hf1 in Hrun.
  destruct (launch_error _) as [e|] eqn:Hlaunch.
  { destruct (on_exception_returns e (set_cwd (parent (cwd w)) w1)) as (w5 & Hex & _).
    rewrite Hex in Hrun. done. }
  destruct (PrimFloat.ltb _ _) eqn:Hslow.
  { lazymatch type of Hrun with
    | context [on_exception ?e ?w0] =>
        destruct (on_exception_returns e w0) as (w5 & Hex & _)
    end.
    rewrite Hex in Hrun. done. }
  set (w4 := log_event _ _) in Hrun.
  assert (Hc4 : cwd w4 = parent (cwd w)) by reflexivity.
  assert (Hf4 : files w4
                = apply_writes
                    (writes (behaviour_of (scenario_cmd cfg scenario)
                                          (parent (cwd w)) (files w)))
                    (files w)) by reflexivity.
  assert (Hch4 : last (children w4)
                 = Some (Exited (scenario_cmd cfg scenario)
                           (exit_code (behaviour_of (scenario_cmd cfg scenario)
                                                    (parent (cwd w)) (files w))))).
  { subst w4. cbn [children log_event set_children set_files]. apply last_snoc. }
  clearbody w4.
  destruct (decide _) as [Hzero|Hnz].
  2:{ exfalso.
      lazymatch type of Hrun with
      | context [on_failure ?n ?p ?r ?t w4] =>
          destruct (try_except (on_failure n p r t) on_exception w4) as [r' w5] eqn:Hfail
      end.
      unfold try_except in Hfail. rewrite Hfail in Hrun. cbn [fst snd] in Hrun.
      injection Hrun as -> _. by apply on_failure_is_false in Hfail. }
  lazymatch type of Hrun with
  | context [on_success ?n ?d ?p ?r ?t w4] =>
      destruct (try_except (on_success n d p r t) on_exception w4) as [r' w5] eqn:Hsucc
  end.
  unfold try_except in Hsucc. rewrite Hsucc in Hrun. cbn [fst snd] in Hrun.
  injection Hrun as -> <-.
  apply on_success_inv in Hsucc as (Hdir & Hc5 & Hd5 & Hch5 & Hlog & Hmoved).
  rewrite Hc4 in *. rewrite Hf4 in Hmoved.
  do 3 (split; [done|]). split.
  { cbn [children set_cwd]. by rewrite Hch5, Hch4, Hzero. }
  split.
  { unfold dir_exists in *. cbn [dirs set_cwd]. by rewrite Hd5. }
  split; [done|]. exact Hmoved.
Qed.

(** ** The outcome of a run, case by case *)

Lemma same_children_refl (w : World) : same_children w w.
Proof. done. Qed.

Lemma same_children_trans (a b c : World) :
  same_children a b -> same_children b c -> same_children a c.
Proof. unfold same_children. congruence. Qed.

Lemma same_children_only_prints (m : io unit) :
  only_prints m -> respects same_children m.
Proof. intros Hm w. destruct (Hm w) as (w1 & -> & (_ & _ & _ & Hch)). exact Hch. Qed.

Lemma same_children_open_write (p : pypath) (c : content) :
  respects same_children (open_write p c).
Proof. intros w. unfold open_write. by destruct (dir_exists _ _). Qed.

Lemma same_children_rename (src dst : pypath) : respects same_children (rename src dst).
Proof.
  intros w. unfold rename. destruct (files w !! _); [|done]. by destruct (dir_exists _ _).
Qed.

Lemma same_children_move_files (d : pypath) (names : list string) :
  respects same_children (move_files d names).
Proof.
  induction names as [|f names IH]; cbn [move_files].
  - apply (respects_ret _ same_children_refl).
  - apply (respects_and_then _ same_children_trans); [by intros w|].
    intros ex. apply (respects_and_then _ same_children_trans); [|by intros _].
    destruct ex; [apply same_children_rename | apply (respects_ret _ same_children_refl)].
Qed.

Lemma same_children_on_exception (e : exn) : respects same_children (on_exception e).
Proof.
  intros w. destruct (on_exception_returns e w) as (w' & -> & (_ & _ & _ & Hch)).
  exact Hch.
Qed.

Lemma same_children_on_success (name description : string) (d : pypath)
    (result : completed) (t : float) :
  respects same_children
    (try_except (on_success name description d result t) on_exception).
Proof.
  apply (respects_try_except _ same_children_trans); [|apply same_children_on_exception].
  unfold on_success.
  apply (respects_and_then _ same_children_trans).
  { apply same_children_only_prints, only_prints_print. }
  intros _. apply (respects_and_then _ same_children_trans).
  { apply same_children_open_write. }
  intros _. apply (respects_and_then _ same_children_trans).
  { apply same_children_move_files. }
  intros _. apply (respects_ret _ same_children_refl).
Qed.

Lemma same_children_on_failure (name : string) (d : pypath)
    (result : completed) (t : float) :
  respects same_children (try_except (on_failure name d result t) on_exception).
Proof.
  apply (respects_try_except _ same_children_trans); [|apply same_children_on_exception].
  unfold on_failure.
  do 3 (apply (respects_and_then _ same_children_trans);
        [apply same_children_only_prints, only_prints_print | intros _]).
  apply (respects_and_then _ same_children_trans).
  { apply same_children_open_write. }
  intros _. apply (respects_ret _ same_children_refl).
Qed.

(** The branch for any other return code ends in [False], whether the log
    could be written or not. *)
Lemma on_failure_returns_false (name : string) (d : pypath) (result : completed)
    (t : float) (w : World) :
  exists w', try_except (on_failure name d result t) on_exception w = (Ok false, w').
Proof.
  unfold try_except, on_failure.
  do 3 lazymatch goal with
    | |- context [and_then ?m ?k ?w0] =>
        let w' := fresh "w" in let Hp := fresh "Hp" in
        destruct (only_prints_then m k w0 (only_prints_print _)) as (w' & Hp & ->)
    end.
  rewrite and_then_io. unfold open_write. destruct (dir_exists _ _).
  - cbn [mret io_ret]. by eexists.
  - lazymatch goal with
    | |- context [on_exception ?e ?w0] =>
        destruct (on_exception_returns e w0) as (w5 & -> & _)
    end.
    by eexists.
Qed.

(** [move_files], once the scenario's directory exists: it returns exactly
    when none of the names is taken by a directory alone. *)
Lemma move_files_outcome (name : string) (names : list string) :
  NoDup names ->
  forall w : World,
    dir_exists w (cwd w ++ ["scenario_results"; name]) = true ->
    exists (r : result unit) (w' : World),
      move_files (Rel (results_dir ++ [Name name])) names w = (r, w') /\
      (r = Ok tt <->
       forall f, f ∈ names ->
                 is_dir (dirs w) (cwd w ++ [f]) -> is_Some (files w !! (cwd w ++ [f]))).
Proof.
  induction 1 as [|f rest Hnotin Hnd IH]; intros w Hdir; cbn [move_files].
  { exists (Ok tt), w. split; [done|]. split; [|done].
    intros _ f Hf. by apply elem_of_nil in Hf. }
  rewrite and_then_io. cbn [path_exists]. rewrite and_then_io.
  assert (Hsrc : resolve (cwd w) (Rel [Name f]) = cwd w ++ [f]) by reflexivity.
  assert (Hdst : resolve (cwd w) (join (Rel (results_dir ++ [Name name])) [Name f])
                 = cwd w ++ ["scenario_results"; name; f]).
  { rewrite resolve_join, resolve_scenario_dir, <- app_assoc. done. }
  rewrite Hsrc.
  destruct (files w !! (cwd w ++ [f])) as [c|] eqn:Hfile.
  - assert (Hfe : file_exists w (cwd w ++ [f]) = true).
    { unfold file_exists. apply bool_decide_eq_true. by rewrite Hfile. }
    rewrite Hfe, orb_true_r. unfold rename. rewrite Hsrc, Hdst, Hfile.
    replace (parent (cwd w ++ ["scenario_results"; name; f]))
      with (cwd w ++ ["scenario_results"; name])
      by (change ["scenario_results"; name; f] with (["scenario_results"; name] ++ [f]);
          by rewrite app_assoc, parent_snoc).
    rewrite Hdir.
    set (w1 := set_files _ w).
    destruct (IH w1 Hdir) as (r & w' & Hmove & Hiff).
    exists r, w'. split; [exact Hmove|]. rewrite Hiff.
    assert (Hsame : forall g, g ∈ rest -> files w1 !! (cwd w ++ [g]) = files w !! (cwd w ++ [g])).
    { intros g Hg. subst w1. cbn [files set_files].
      rewrite lookup_insert_ne, lookup_delete_ne; [done| |].
      - intros Heq. apply app_inv_head in Heq. injection Heq as ->. done.
      - intros Heq. apply app_inv_head in Heq. discriminate. }
    split.
    + intros Hall g Hg. apply elem_of_cons in Hg as [->|Hg]; [by rewrite Hfile|].
      intros Hd. rewrite <- (Hsame g Hg). by apply Hall.
    + intros Hall g Hg Hd. change (cwd w1) with (cwd w). rewrite (Hsame g Hg).
      apply Hall; [by apply list_elem_of_further | done].
  - assert (Hfe : file_exists w (cwd w ++ [f]) = false).
    { unfold file_exists. apply bool_decide_eq_false. rewrite Hfile. by intros [? ?]. }
    rewrite Hfe, orb_false_r.
    destruct (dir_exists w (cwd w ++ [f])) eqn:Hd.
    + unfold rename. rewrite Hsrc, Hfile. eexists _, _. split; [reflexivity|].
      split; [done|]. intros Hall. exfalso.
      unfold dir_exists in Hd. apply bool_decide_eq_true in Hd.
      destruct (Hall f (list_elem_of_here _ _) Hd) as [c Hc]. congruence.
    + cbn [mret io_ret].
      destruct (IH w Hdir) as (r & w' & Hmove & Hiff).
      exists r, w'. split; [exact Hmove|]. rewrite Hiff. split.
      * intros Hall g Hg. apply elem_of_cons in Hg as [->|Hg]; [|by apply Hall].
        intros Hisdir. unfold dir_exists in Hd. apply bool_decide_eq_false in Hd. done.
      * intros Hall g Hg. apply Hall. by apply list_elem_of_further.
Qed.

(** The branch for a return code of zero ends in [True] exactly when the
    results can be stored. *)
Lemma on_success_outcome (name description : string) (result : completed)
    (t : float) (w : World) :
  exists (ok : bool) (w' : World),
    try_except (on_success name description (Rel (results_dir ++ [Name name])) result t)
               on_exception w = (Ok ok, w') /\
    (ok = true <-> can_store name (cwd w) (dirs w) (files w)).
Proof.
  unfold try_except, on_success.
  lazymatch goal with
  | |- context [and_then ?m ?k w] =>
      destruct (only_prints_then m k w (only_prints_print _))
        as (w1 & (Hc1 & Hd1 & Hf1 & Hch1) & ->)
  end.
  rewrite and_then_io. unfold open_write.
  rewrite resolve_join, parent_snoc, resolve_scenario_dir, Hc1.
  destruct (dir_exists w1 _) eqn:Hdir.
  2:{ destruct (on_exception_returns FileNotFoundError w1) as (w5 & -> & _).
      exists false, w5. split; [done|]. split; [done|]. intros [Hd _]. exfalso.
      unfold dir_exists in Hdir. apply bool_decide_eq_false in Hdir. apply Hdir.
      by rewrite Hd1. }
  rewrite and_then_io.
  set (w2 := set_files _ w1).
  assert (Hdir2 : dir_exists w2 (cwd w2 ++ ["scenario_results"; name]) = true).
  { subst w2. unfold dir_exists in *. cbn [cwd dirs set_files]. by rewrite Hc1. }
  destruct (move_files_outcome name files_to_move
              ltac:(apply (bool_decide_unpack (NoDup _)); vm_compute; exact I) w2 Hdir2)
    as (r & w3 & -> & Hiff).
  assert (Hstore : r = Ok tt <-> can_store name (cwd w) (dirs w) (files w)).
  { rewrite Hiff. unfold can_store.
    assert (Hsame : forall f, files w2 !! (cwd w2 ++ [f]) = files w !! (cwd w ++ [f])).
    { intros f. subst w2. cbn [cwd files set_files]. rewrite Hc1, Hf1.
      apply lookup_insert_ne. rewrite <- app_assoc.
      intros Heq. apply app_inv_head in Heq. discriminate. }
    assert (Hisdir : is_dir (dirs w) (cwd w ++ ["scenario_results"; name])).
    { unfold dir_exists in Hdir. apply bool_decide_eq_true in Hdir. by rewrite Hd1 in Hdir. }
    split.
    - intros Hall. split; [done|]. intros f Hf Hd. rewrite <- Hsame.
      apply Hall; [done|]. subst w2. cbn [cwd dirs set_files]. by rewrite Hc1, Hd1.
    - intros [_ Hall] f Hf Hd. rewrite Hsame. apply Hall; [done|].
      subst w2. cbn [cwd dirs set_files] in Hd. by rewrite Hc1, Hd1 in Hd. }
  destruct r as [[]|e].
  - cbn [mret io_ret]. exists true, w3. split; [done|]. split; [intros _|done].
    by apply Hstore.
  - destruct (on_exception_returns e w3) as (w5 & -> & _).
    exists false, w5. split; [done|]. split; [done|].
    intros Hcan. by apply Hstore in Hcan.
Qed.

(** [run_scenario] for a section that exists: the value it returns and the
    processes it leaves in the log. *)
Lemma run_scenario_cases (name : string) (scenario : gmap string string) (w : World) :
  section cfg name = Some scenario ->
  exists (ok : bool) (w' : World),
    run_scenario cfg name w = (Ok ok, w') /\
    children w'
    = children w
      ++ simulator_events (scenario_cmd cfg scenario)
           (behaviour_of (scenario_cmd cfg scenario) (parent (cwd w)) (files w)) /\
    (ok = true <->
     launch_error (behaviour_of (scenario_cmd cfg scenario) (parent (cwd w)) (files w))
     = None /\
     PrimFloat.ltb 300
       (runtime (behaviour_of (scenario_cmd cfg scenario) (parent (cwd w)) (files w)))
     = false /\
     exit_code (behaviour_of (scenario_cmd cfg scenario) (parent (cwd w)) (files w)) = 0 /\
     can_store name (parent (cwd w)) (dirs_with_results name w)
       (apply_writes
          (writes (behaviour_of (scenario_cmd cfg scenario) (parent (cwd w)) (files w)))
          (files w))).
Proof.
  intros Hsec.
  destruct (run_scenario_frame cfg _ _ w Hsec) as (w1 & Hc1 & Hf1 & Hch1 & Hd1 & ->).
  unfold try_except. rewrite attempt_cases. cbv zeta. rewrite Hc1, Hf1.
  unfold simulator_events.
  set (b := behaviour_of (scenario_cmd cfg scenario) (parent (cwd w)) (files w)).
  destruct (launch_error b) as [e|] eqn:Hlaunch.
  { destruct (on_exception_returns e (set_cwd (parent (cwd w)) w1))
      as (w' & -> & (_ & _ & _ & Hch)).
    exists false, (set_cwd (cwd w) w'). split; [done|]. split.
    - cbn [children set_cwd] in *. by rewrite Hch, Hch1, app_nil_r.
    - split; [done|]. by intros [? _]. }
  destruct (PrimFloat.ltb 300 (runtime b)) eqn:Hslow.
  { lazymatch goal with
    | |- context [on_exception ?e ?w0] =>
        destruct (on_exception_returns e w0) as (w' & -> & (_ & _ & _ & Hch))
    end.
    exists false, (set_cwd (cwd w) w'). split; [done|]. split.
    - cbn [children set_cwd log_event set_children set_files] in *.
      by rewrite Hch, Hch1, <- app_assoc.
    - split; [done|]. by intros (_ & ? & _). }
  set (w4 := log_event _ _).
  assert (Hc4 : cwd w4 = parent (cwd w)) by reflexivity.
  assert (Hd4 : dirs w4 = dirs_with_results name w) by (subst w4; exact Hd1).
  assert (Hf4 : files w4 = apply_writes (writes b) (files w)) by reflexivity.
  assert (Hch4 : children w4
                 = children w ++ [Spawned (scenario_cmd cfg scenario);
                                  Exited (scenario_cmd cfg scenario) (exit_code b)]).
  { subst w4. cbn [children log_event set_children set_files set_cwd].
    by rewrite Hch1, <- app_assoc. }
  clearbody w4.
  destruct (decide (exit_code b = 0)) as [Hzero|Hnz].
  - lazymatch goal with
    | |- context [on_success ?n ?d ?p ?r ?t w4] =>
        destruct (on_success_outcome n d r t w4) as (ok & w5 & Hres & Hiff);
        pose proof (same_children_on_success n d p r t w4) as Hch5
    end.
    unfold try_except in Hres, Hch5. rewrite Hres in Hch5 |- *.
    cbn [fst snd] in *. unfold same_children in Hch5.
    exists ok, (set_cwd (cwd w) w5). split; [done|]. split.
    + cbn [children set_cwd]. by rewrite Hch5, Hch4.
    + rewrite Hiff, Hc4, Hd4, Hf4. tauto.
  - lazymatch goal with
    | |- context [on_failure ?n ?p ?r ?t w4] =>
        destruct (on_failure_returns_false n p r t w4) as (w5 & Hres);
        pose proof (same_children_on_failure n p r t w4) as Hch5
    end.
    unfold try_except in Hres, Hch5. rewrite Hres in Hch5 |- *.
    cbn [fst snd] in *. unfold same_children in Hch5.
    exists false, (set_cwd (cwd w) w5). split; [done|]. split.
    + cbn [children set_cwd]. by rewrite Hch5, Hch4.
    + split; [done|]. by intros (_ & _ & ? & _).
Qed.


End runner.
End RunnerOutcomes.

Module BatchProperties.

Import AnalyzeResults RunScenarios PyFacts OSFacts FrameFacts RunnerFacts
       BatchFacts MainFacts Footprint RunnerProperties RunnerOutcomes.

Lemma fold_key_set_distinct (l : list string) :
  forall ks : list string,
    NoDup (ks ++ l) -> foldl (fun ks k => key_set k ks) ks l = ks ++ l.
Proof.
  induction l as [|x l IH]; intros ks Hnd; cbn [foldl].
  - by rewrite app_nil_r.
  - unfold key_set at 2. apply NoDup_app in Hnd as (Hks & Hdisj & Hl).
    rewrite decide_False by (intros Hin; apply (Hdisj x Hin), list_elem_of_here).
    rewrite IH, <- app_assoc; [done|].
    rewrite <- app_assoc. cbn [app]. apply NoDup_app. split; [done|]. split; [|done].
    intros y Hy. by apply Hdisj.
Qed.

Lemma fold_false_values (l : list string) :
  forall (d : list (string * bool)) (name : string) (ok : bool),
    (name, ok) ∈ foldl (fun d s => dict_set s false d) d l ->
    ok = false \/ (name, ok) ∈ d.
Proof.
  induction l as [|x l IH]; intros d name ok Hin; cbn [foldl] in Hin; [by right|].
  apply IH in Hin as [?|Hin]; [by left|].
  apply elem_of_dict_set in Hin as [[= _ ->]|Hin]; [by left | by right].
Qed.

Lemma fold_false_keys (l : list string) :
  forall (d : list (string * bool)),
    dict_keys (foldl (fun d s => dict_set s false d) d l)
    = foldl (fun ks k => key_set k ks) (dict_keys d) l.
Proof.
  induction l as [|x l IH]; intros d; cbn [foldl]; [done|].
  by rewrite IH, dict_keys_set.
Qed.

Lemma key_set_elem (l : list string) :
  forall (ks : list string) (x : string),
    x ∈ foldl (fun ks k => key_set k ks) ks l <-> x ∈ ks \/ x ∈ l.
Proof.
  induction l as [|y l IH]; intros ks x; cbn [foldl].
  - split; [by left | intros [?|Hn]; [done | by apply elem_of_nil in Hn]].
  - rewrite IH. unfold key_set. rewrite elem_of_cons. destruct (decide (y ∈ ks)).
    + split; [intros [?|?]; auto | intros [?|[->|?]]; auto].
    + rewrite elem_of_app, list_elem_of_singleton. tauto.
Qed.

Section batch.
Context `{Builtins} `{Pandas} `{Matplotlib} `{Processes}.
Variable cfg : config.

(** The keys of the ledger after the loop: those before it, then the
    scenarios of the loop, each at its first occurrence. *)
Lemma scenario_loop_keys (count : nat) (scenarios : list string) :
  forall (i : nat) (l l' : ledger) (w w' : World),
    scenario_loop cfg count i scenarios l w = (Ok l', w') ->
    dict_keys (results l')
    = foldl (fun ks k => key_set k ks) (dict_keys (results l)) scenarios.
Proof.
  induction scenarios as [|s rest IH]; intros i l l' w w'; cbn [scenario_loop foldl].
  - by intros [= <- <-].
  - rewrite and_then_io. cbn [print]. rewrite and_then_io.
    destruct (run_scenario cfg s _) as [[ok|e] w1] eqn:Hrun; [|done].
    rewrite and_then_io. destruct ok.
    + rewrite and_then_io.
      destruct (analyze_scenario_results cfg s w1) as [[b|e] w2]; [|done].
      cbn [mret io_ret]. intros Hloop. rewrite (IH _ _ _ _ _ Hloop).
      cbn [results]. by rewrite dict_keys_set.
    + cbn [mret io_ret]. intros Hloop. rewrite (IH _ _ _ _ _ Hloop).
      cbn [results]. by rewrite dict_keys_set.
Qed.

(** X17: no scenario is skipped, and the ledger is what the runs
    returned.  In a batch over a configuration whose analysis parameters are
    numbers, the scenarios are run one after the other in the order of the
    configuration, each by [run_scenario] in the world the one before it
    left, whatever happened to those before it; the ledger returned lists
    every scenario, in that order, with the value its run returned; and
    after the last run nothing happens but the printing of the summary. *)
Theorem every_scenario_is_recorded (w : World) :
  Forall (analysable cfg) (get_scenarios cfg) ->
  NoDup (get_scenarios cfg) ->
  exists (outcomes : list (string * bool)) (w1 w' : World),
    batch_runs cfg (length (get_scenarios cfg)) 1 (get_scenarios cfg)
      (batch_start cfg w) outcomes w1 /\
    run_all_scenarios cfg w = (Ok outcomes, w') /\
    dict_keys outcomes = get_scenarios cfg /\
    (get_scenarios cfg <> [] -> quiet w1 w').
Proof.
  intros Hall Hnd.
  destruct (decide (get_scenarios cfg = [])) as [Hnil|Hne].
  { exists [], (batch_start cfg w). rewrite Hnil.
    unfold run_all_scenarios. cbv zeta. rewrite Hnil, decide_True by done.
    eexists. split; [constructor|]. split; [reflexivity|]. by split. }
  destruct (run_all_scenarios_runs cfg w Hne Hall)
    as (outcomes & w1 & w' & Hruns & Hnames & Hrun & Hq & _).
  exists outcomes, w1, w'. split; [done|].
  rewrite ledger_fold_distinct in Hrun
    by (cbn [dict_keys fmap list_fmap app]; by rewrite Hnames).
  by cbn [app] in Hrun.
Qed.

(** X18: an empty batch.  With no section whose name starts with
    [scenario_], a batch run prints one line, makes no directory, starts no
    process, writes no comparison and returns 1. *)
Theorem empty_batch_returns_1 (a : RunScenarios.args) (w : World) :
  list_scenarios a = false -> given (analyze_only a) = None ->
  compare a = false -> given (scenario a) = None ->
  get_scenarios cfg = [] ->
  RunScenarios.main cfg a w
  = (Ok 1, set_console (console w ++ ["No scenarios found in configuration file."]) w).
Proof.
  intros Hl Ha Hc Hs Hnil. unfold RunScenarios.main, run_all_scenarios.
  rewrite Hl, Ha, Hc, Hs, Hnil. reflexivity.
Qed.

(** Listing.  With [--list], [main] prints a heading and one line per
    scenario, returns 0 and does nothing else, whatever other options were
    given. *)
Lemma list_mode_only_prints (a : RunScenarios.args) (w : World) :
  list_scenarios a = true ->
  RunScenarios.main cfg a w
  = (Ok 0,
     set_console
       (console w
        ++ "Available scenarios:"
           :: ((fun s => "  " +:+ s +:+ ": "
                         +:+ config_get cfg s "description" "No description")
               <$> get_scenarios cfg)) w).
Proof.
  intros Hl. unfold RunScenarios.main. rewrite Hl.
  rewrite and_then_io. cbn [print]. rewrite and_then_io, print_each_console.
  cbn [mret io_ret console set_console]. by rewrite <- app_assoc.
Qed.

(** The loop, started where the directory above holds none of the result
    directories: every scenario is recorded as failed, none is analysed,
    and nothing happens to the files and the processes but what the
    simulators do. *)
Lemma scenario_loop_lost (count : nat) (scenarios : list string) :
  forall (i : nat) (l : ledger) (w : World),
    cwd w <> [] ->
    (forall name, name ∈ scenarios -> name <> "scenario_results") ->
    (forall name, name ∈ scenarios ->
       dir_exists w (parent (cwd w) ++ ["scenario_results"; name]) = false) ->
    exists (l' : ledger) (w' : World),
      scenario_loop cfg count i scenarios l w = (Ok l', w') /\
      successful_scenarios l' = successful_scenarios l /\
      results l' = foldl (fun d s => dict_set s false d) (results l) scenarios /\
      cwd w' = cwd w /\
      files w' = (simulators_alone cfg (parent (cwd w)) scenarios (files w)).1 /\
      children w'
      = children w ++ (simulators_alone cfg (parent (cwd w)) scenarios (files w)).2.
Proof.
  induction scenarios as [|s rest IH]; intros i l w Hcwd Hnames Hdirs;
    cbn [scenario_loop foldl simulators_alone].
  { exists l, w. cbn [fst snd]. by rewrite app_nil_r. }
  lazymatch goal with
  | |- context [and_then ?m ?k w] =>
      destruct (only_prints_then m k w (only_prints_print _))
        as (w0 & (Hc0 & Hd0 & Hf0 & Hch0) & ->)
  end.
  destruct (run_scenario_lost cfg s w0) as (w1 & Hrun & Hc1 & Hd1 & Hfiles).
  { by rewrite Hc0. }
  { apply Hnames, list_elem_of_here. }
  { unfold dir_exists. rewrite Hc0, Hd0. apply Hdirs, list_elem_of_here. }
  rewrite and_then_io, Hrun. rewrite and_then_io. cbn [mret io_ret].
  destruct (IH (S i)
              (mkLedger (successful_scenarios l) (failed_scenarios l ++ [s])
                        (dict_set s false (results l))) w1)
    as (l' & w' & Hloop & Hsucc & Hres & Hcw & Hfw & Hchw).
  { by rewrite Hc1, Hc0. }
  { intros name Hin. by apply Hnames, list_elem_of_further. }
  { intros name Hin. rewrite Hc1, Hc0.
    assert (Hname : name <> "scenario_results") by (by apply Hnames, list_elem_of_further).
    specialize (Hdirs name (list_elem_of_further _ _ _ Hin)).
    unfold dir_exists in *. apply bool_decide_eq_false.
    apply bool_decide_eq_false in Hdirs.
    intros [Hnil|Hin1]; [by destruct (parent (cwd w))|].
    apply Hd1 in Hin1. rewrite Hc0, Hd0 in Hin1.
    apply elem_of_union in Hin1 as [Hin1|Hin1]; [|apply Hdirs; by right].
    apply elem_of_list_to_set in Hin1.
    destruct (cwd w) as [|x c _] using rev_ind; [done|].
    rewrite parent_snoc in Hin1.
    by apply (sibling_not_made c x name [s]) in Hin1. }
  exists l', w'. rewrite Hloop. split; [done|]. split; [done|]. split; [done|].
  rewrite Hc1, Hc0 in Hcw, Hfw, Hchw. split; [done|].
  destruct (section cfg s) as [scenario|] eqn:Hsec.
  - destruct (run_scenario_cases cfg s scenario w0 Hsec)
      as (ok & w1' & Hrun' & Hch1 & _).
    rewrite Hrun in Hrun'. injection Hrun' as _ <-.
    specialize (Hfiles scenario eq_refl).
    rewrite Hc0, Hf0 in Hfiles, Hch1. rewrite Hch0 in Hch1.
    rewrite Hfiles in Hfw, Hchw. rewrite Hch1 in Hchw.
    destruct (simulators_alone cfg (parent (cwd w)) rest _) as [fs' events].
    cbn [fst snd] in *. split; [done|]. by rewrite Hchw, <- app_assoc.
  - unfold run_scenario in Hrun. rewrite Hsec in Hrun.
    rewrite and_then_io in Hrun. cbn [print mret io_ret] in Hrun.
    injection Hrun as <-. cbn [files children set_console] in Hfw, Hchw.
    rewrite Hf0 in Hfw, Hchw. rewrite Hch0 in Hchw. by split.
Qed.

(** X19: a batch started in the project directory records every scenario
    as failed.  When the working directory has a parent that holds none of
    the directories [scenario_results/<name>], the batch runs every
    scenario, records [False] for each whatever its simulator did, and
    returns 1.  All that happens to the files and to the processes is what
    the simulators do, started one after the other in the directory above:
    the runner writes no log, starts no analysis and writes no
    comparison. *)
Theorem batch_in_project_layout_returns_1 (a : RunScenarios.args) (w : World) :
  list_scenarios a = false -> given (analyze_only a) = None ->
  compare a = false -> given (scenario a) = None ->
  cwd w <> [] ->
  (forall name, name ∈ get_scenarios cfg ->
     name <> "scenario_results" /\
     dir_exists w (parent (cwd w) ++ ["scenario_results"; name]) = false) ->
  exists (results : list (string * bool)) (w' : World),
    (run_all_scenarios cfg w).1 = Ok results /\
    (forall name, name ∈ get_scenarios cfg <-> name ∈ dict_keys results) /\
    (forall name ok, (name, ok) ∈ results -> ok = false) /\
    RunScenarios.main cfg a w = (Ok 1, w') /\
    cwd w' = cwd w /\
    files w'
    = (simulators_alone cfg (parent (cwd w)) (get_scenarios cfg) (files w)).1 /\
    children w'
    = children w
      ++ (simulators_alone cfg (parent (cwd w)) (get_scenarios cfg) (files w)).2.
Proof.
  intros Hl Ha Hc Hs Hcwd Hlayout.
  assert (Hrun : exists results w1,
             run_all_scenarios cfg w = (Ok results, w1) /\
             (forall name, name ∈ get_scenarios cfg <-> name ∈ dict_keys results) /\
             (forall name ok, (name, ok) ∈ results -> ok = false) /\
             cwd w1 = cwd w /\
             files w1
             = (simulators_alone cfg (parent (cwd w)) (get_scenarios cfg) (files w)).1 /\
             children w1
             = children w
               ++ (simulators_alone cfg (parent (cwd w)) (get_scenarios cfg)
                     (files w)).2).
  { unfold run_all_scenarios. cbv zeta.
    destruct (decide (get_scenarios cfg = [])) as [Hnil|Hne].
    { eexists [], _. split; [reflexivity|]. rewrite Hnil. split; [done|].
      split; [intros name ok Hin; by apply elem_of_nil in Hin|].
      cbn [simulators_alone fst snd cwd files children set_console].
      by rewrite app_nil_r. }
    lazymatch goal with
    | |- context [and_then ?m ?k w] =>
        destruct (only_prints_then m k w (only_prints_print _)) as (w1 & Hp1 & ->)
    end.
    lazymatch goal with
    | |- context [and_then ?m ?k w1] =>
        destruct (only_prints_then m k w1 (only_prints_print_each _)) as (w2 & Hp2 & ->)
    end.
    lazymatch goal with
    | |- context [and_then ?m ?k w2] =>
        destruct (only_prints_then m k w2 (only_prints_print _)) as (w3 & Hp3 & ->)
    end.
    assert (Hp : printed_only w w3) by eauto using printed_only_trans.
    destruct Hp as (Hc3 & Hd3 & Hf3 & Hch3).
    rewrite and_then_io. cbn [makedirs]. set (w4 := set_dirs _ w3).
    rewrite and_then_io.
    destruct (scenario_loop_lost (length (get_scenarios cfg)) (get_scenarios cfg)
                1%nat (mkLedger [] [] []) w4)
      as (l' & w5 & -> & Hsucc & Hres & Hc5 & Hf5 & Hch5).
    { subst w4. cbn [cwd set_dirs]. by rewrite Hc3. }
    { intros name Hin. by apply Hlayout. }
    { intros name Hin. destruct (Hlayout name Hin) as [Hname Hdir].
      subst w4. unfold dir_exists in *. cbn [cwd dirs set_dirs]. rewrite Hc3, Hd3.
      apply bool_decide_eq_false. apply bool_decide_eq_false in Hdir.
      intros [Hnil|Hin1]; [by destruct (parent (cwd w))|].
      apply elem_of_union in Hin1 as [Hin1|Hin1]; [|apply Hdir; by right].
      apply elem_of_list_to_set in Hin1.
      cbn [resolve results_dir fold_left step] in Hin1.
      destruct (cwd w) as [|x c _] using rev_ind; [done|].
      rewrite parent_snoc in Hin1.
      by apply (sibling_not_made c x name []) in Hin1. }
    subst w4. cbn [cwd files children set_dirs] in Hc5, Hf5, Hch5.
    rewrite Hc3, Hf3 in Hf5, Hch5. rewrite Hc3 in Hc5. rewrite Hch3 in Hch5.
    destruct (summary_returns (get_scenarios cfg) l' w5)
      as (w6 & (Hc6 & Hf6 & Hch6 & _) & ->).
    exists (results l'), w6. split; [done|]. rewrite Hres. cbn [results]. split.
    { intros name. rewrite fold_false_keys, key_set_elem. cbn [dict_keys fmap list_fmap].
      split; [by right | intros [Hn|?]; [by apply elem_of_nil in Hn | done]]. }
    split.
    { intros name ok Hin. apply fold_false_values in Hin as [?|Hin]; [done|].
      by apply elem_of_nil in Hin. }
    split; [congruence|]. split; congruence. }
  destruct Hrun as (results & w1 & Hrun & Hkeys & Hfalse & Hc1 & Hf1 & Hch1).
  exists results, w1. rewrite Hrun. split; [done|]. split; [done|]. split; [done|].
  unfold RunScenarios.main. rewrite Hl, Ha, Hc, Hs, and_then_io, Hrun. cbv zeta.
  assert (Hnone : (filter (fun r : string * bool => r.2 = true) results).*1 = []).
  { destruct (filter _ results) as [|[name ok] rest] eqn:Hfilter; [done|].
    assert (Hin : (name, ok) ∈ filter (fun r : string * bool => r.2 = true) results)
      by (rewrite Hfilter; apply list_elem_of_here).
    apply list_elem_of_filter in Hin as [Htrue Hin]. cbn in Htrue. subst ok.
    by specialize (Hfalse _ _ Hin). }
  rewrite Hnone. rewrite decide_True by done. rewrite and_then_io. cbn [mret io_ret].
  assert (Hany : any_success results = false).
  { unfold any_success, dict_values. apply not_true_is_false. intros Hex.
    apply existsb_exists in Hex as (b & Hin & Hb). unfold id in Hb. subst b.
    apply list_elem_of_In, list_elem_of_fmap in Hin as ([name ok] & Hok & Hin).
    cbn in Hok. subst ok. by specialize (Hfalse _ _ Hin). }
  by rewrite Hany.
Qed.

End batch.
End BatchProperties.

Module ModeProperties.

Import AnalyzeResults RunScenarios PyFacts OSFacts FrameFacts RunnerFacts
       BatchFacts MainFacts Footprint AnalysisProperties RunnerProperties.

Section modes.
Context `{Builtins} `{Pandas} `{Matplotlib} `{Processes}.
Variable cfg : config.

Lemma resolve_comparison_file (c : path) :
  resolve c comparison_file = c ++ ["scenario_results"; "scenario_comparison.txt"].
Proof.
  unfold comparison_file. cbn [resolve results_dir app fold_left step].
  by rewrite <- app_assoc.
Qed.

(** [compare_scenarios] with a list that is not empty, where the result
    directory exists. *)
Lemma compare_scenarios_effect (scenarios : list string) (w : World) :
  scenarios <> [] ->
  dir_exists w (cwd w ++ ["scenario_results"]) = true ->
  exists w',
    compare_scenarios cfg (Some scenarios) w = (Ok tt, w') /\
    files w'
    = <[cwd w ++ ["scenario_results"; "scenario_comparison.txt"]
        := Text (comparison_text cfg scenarios)]> (files w) /\
    dirs w' = dirs w /\ cwd w' = cwd w /\ children w' = children w.
Proof.
  intros Hne Hdir. unfold compare_scenarios. rewrite and_then_io. cbn [mret io_ret].
  rewrite decide_False by done.
  lazymatch goal with
  | |- context [and_then ?m ?k w] =>
      destruct (only_prints_then m k w (only_prints_print _))
        as (w1 & (Hc1 & Hd1 & Hf1 & Hch1) & ->)
  end.
  rewrite and_then_io, open_write_ok.
  2:{ rewrite resolve_comparison_file, Hc1.
      replace (cwd w ++ ["scenario_results"; "scenario_comparison.txt"])
        with ((cwd w ++ ["scenario_results"]) ++ ["scenario_comparison.txt"])
        by (by rewrite <- app_assoc).
      rewrite parent_snoc. unfold dir_exists in *. by rewrite Hd1. }
  cbn [print]. eexists. split; [reflexivity|].
  cbn [files dirs cwd children set_console set_files].
  rewrite resolve_comparison_file, Hc1, Hf1. done.
Qed.

(** X20: [compare_scenarios] with a list.  An empty list prints one line
    and writes nothing.  A list that is not empty writes one file, the
    comparison, with one entry per scenario in the order given -- provided
    the result directory exists: the method does not make it, and without it
    it ends in [FileNotFoundError] having written nothing. *)
Theorem compare_scenarios_writes_one_file (scenarios : list string) (w : World) :
  (scenarios = [] ->
   compare_scenarios cfg (Some scenarios) w
   = (Ok tt,
      set_console
        (console w ++ ["No scenarios with results found for comparison."]) w)) /\
  (scenarios <> [] ->
   dir_exists w (cwd w ++ ["scenario_results"]) = true ->
   exists w',
     compare_scenarios cfg (Some scenarios) w = (Ok tt, w') /\
     files w'
     = <[cwd w ++ ["scenario_results"; "scenario_comparison.txt"]
         := Text (comparison_text cfg scenarios)]> (files w) /\
     dirs w' = dirs w /\ cwd w' = cwd w /\ children w' = children w) /\
  (scenarios <> [] ->
   dir_exists w (cwd w ++ ["scenario_results"]) = false ->
   exists w',
     compare_scenarios cfg (Some scenarios) w = (Raise FileNotFoundError, w') /\
     files w' = files w /\ dirs w' = dirs w).
Proof.
  split; [|split].
  - intros ->. reflexivity.
  - apply compare_scenarios_effect.
  - intros Hne Hdir. unfold compare_scenarios. rewrite and_then_io. cbn [mret io_ret].
    rewrite decide_False by done.
    lazymatch goal with
    | |- context [and_then ?m ?k w] =>
        destruct (only_prints_then m k w (only_prints_print _))
          as (w1 & (Hc1 & Hd1 & Hf1 & Hch1) & ->)
    end.
    rewrite and_then_io. unfold open_write.
    rewrite resolve_comparison_file, Hc1.
    replace (cwd w ++ ["scenario_results"; "scenario_comparison.txt"])
      with ((cwd w ++ ["scenario_results"]) ++ ["scenario_comparison.txt"])
      by (by rewrite <- app_assoc).
    rewrite parent_snoc.
    assert (Hdir1 : dir_exists w1 (cwd w ++ ["scenario_results"]) = false).
    { unfold dir_exists in *. by rewrite Hd1. }
    rewrite Hdir1. by exists w1.
Qed.

(** [compare_scenarios()] keeps the scenarios that have a table. *)
Lemma with_results_filter (scenarios : list string) (w : World) :
  with_results scenarios w
  = (Ok (filter
           (fun s =>
              let p := cwd w ++ ["scenario_results"; s; "simulation_results.csv"] in
              dir_exists w p || file_exists w p = true)
           scenarios), w).
Proof.
  induction scenarios as [|s rest IH]; cbn [with_results]; [done|].
  rewrite and_then_io. cbn [path_exists]. rewrite and_then_io, IH.
  cbn [mret io_ret].
  assert (Hp : resolve (cwd w)
                 (Rel (results_dir ++ [Name s; Name "simulation_results.csv"]))
               = cwd w ++ ["scenario_results"; s; "simulation_results.csv"]).
  { cbn [resolve results_dir app fold_left step]. by rewrite <- !app_assoc. }
  rewrite Hp. rewrite filter_cons. cbv zeta.
  destruct (dir_exists w _ || file_exists w _) eqn:Hex.
  - by rewrite decide_True by done.
  - by rewrite decide_False by done.
Qed.

Lemma compare_scenarios_none (w : World) :
  compare_scenarios cfg None w
  = compare_scenarios cfg (Some (scenarios_with_results cfg w)) w.
Proof.
  unfold compare_scenarios. by rewrite !and_then_io, with_results_filter.
Qed.

(** X21: [--compare].  The comparison is made over the scenarios that have
    a table [simulation_results.csv] in their result directory, in the order
    of the configuration, and the exit code is 0 whether there are any or
    not; no simulation is run. *)
Theorem compare_mode_returns_0 (a : RunScenarios.args) (w : World) :
  list_scenarios a = false -> given (analyze_only a) = None -> compare a = true ->
  (scenarios_with_results cfg w <> [] ->
   dir_exists w (cwd w ++ ["scenario_results"]) = true) ->
  exists w',
    RunScenarios.main cfg a w = (Ok 0, w') /\
    children w' = children w /\
    (scenarios_with_results cfg w = [] -> files w' = files w) /\
    (scenarios_with_results cfg w <> [] ->
     files w'
     = <[cwd w ++ ["scenario_results"; "scenario_comparison.txt"]
         := Text (comparison_text cfg (scenarios_with_results cfg w))]> (files w)).
Proof.
  intros Hl Ha Hc Hdir. unfold RunScenarios.main. rewrite Hl, Ha, Hc.
  rewrite and_then_io, compare_scenarios_none.
  destruct (decide (scenarios_with_results cfg w = [])) as [Heq|Hne].
  - rewrite Heq. eexists. split; [reflexivity|]. by cbn.
  - destruct (compare_scenarios_effect _ w Hne (Hdir Hne)) as (w' & -> & Hf & _ & _ & Hch).
    exists w'. split; [reflexivity|]. split; [done|]. split; [done|]. by intros _.
Qed.

(** X22: the edges of [analyze_scenario_results].  Without flow statistics
    in the scenario's result directory it returns [False] after one line of
    warning and does nothing else -- the parameters are not even read.  With
    them, a [simulation_time] or an [image_size] that is not a number makes
    it raise: the conversions stand outside its [try] block, so the
    exception reaches the caller. *)
Theorem analyze_scenario_results_edges (scenario_name : string) (w : World) :
  let flowmon := cwd w ++ ["scenario_results"; scenario_name; "flowmon-results.xml"] in
  (dir_exists w flowmon || file_exists w flowmon = false ->
   analyze_scenario_results cfg scenario_name w
   = (Ok false,
      set_console
        (console w ++ ["Warning: No FlowMonitor results found for " +:+ scenario_name])
        w)) /\
  (dir_exists w flowmon || file_exists w flowmon = true ->
   forall e : exn,
     float_of_string (config_get cfg scenario_name "simulation_time" "10.0") = Raise e \/
     (is_ok (float_of_string (config_get cfg scenario_name "simulation_time" "10.0"))
      = true /\
      int_of_string (config_get cfg scenario_name "image_size" "50000") = Raise e) ->
     analyze_scenario_results cfg scenario_name w
     = (Raise e,
        set_console
          (console w ++ ["Analyzing results for " +:+ scenario_name +:+ "..."]) w)).
Proof.
  cbv zeta.
  assert (Hp : resolve (cwd w)
                 (join (Rel (results_dir ++ [Name scenario_name]))
                       [Name "flowmon-results.xml"])
               = cwd w ++ ["scenario_results"; scenario_name; "flowmon-results.xml"]).
  { rewrite resolve_join, resolve_scenario_dir. by rewrite <- app_assoc. }
  split.
  - intros Hex. unfold analyze_scenario_results. cbv zeta.
    rewrite and_then_io. cbn [path_exists]. rewrite Hp, Hex. reflexivity.
  - intros Hex e Hbad. unfold analyze_scenario_results. cbv zeta.
    rewrite and_then_io. cbn [path_exists]. rewrite Hp, Hex. cbn [negb].
    rewrite and_then_io. cbn [print]. rewrite and_then_io. cbn [lift].
    destruct Hbad as [-> | [Hok ->]]; [done|].
    destruct (float_of_string _); [|done]. by rewrite and_then_io.
Qed.

(** What the child makes of its command line when it accepts it. *)
Lemma parse_args_parsed (flowmon_file scenario_dir : pypath)
    (simulation_time image_size : string) (a : AnalyzeResults.args) :
  parse_args flowmon_file scenario_dir simulation_time image_size = Parsed a ->
  read_as_value simulation_time = true /\
  read_as_value image_size = true /\
  float_of_string simulation_time = Ok (AnalyzeResults.simulation_time a) /\
  int_of_string image_size = Ok (AnalyzeResults.image_size a) /\
  flowmon a = flowmon_file /\ output a = scenario_dir /\ no_plots a = true.
Proof.
  unfold parse_args, converted.
  destruct (read_as_value simulation_time); [|done]. cbn [negb].
  destruct (float_of_string simulation_time) as [t|e]; [|by destruct (bool_decide _)].
  destruct (read_as_value image_size); [|done]. cbn [negb].
  destruct (int_of_string image_size) as [n|e]; [|by destruct (bool_decide _)].
  by intros [= <-].
Qed.

(** X23: the outcome of the analysis is the exit code of its process.
    With flow statistics in place and parameters that are numbers,
    [analyze_scenario_results] never raises: it starts the analysis script
    without plots on the scenario's directory, handing it the parameters as
    text, and returns [True] exactly when that process exits with 0.  The
    script reads the parameters back from the text.  A duration whose text
    starts with ["-"] without having the form of a negative number, as
    ["-1e-05"] and ["-inf"] have not, is taken for an option: the script
    exits with 2, having written nothing, and the answer is [False].  A
    crash of the script is an exit code of 1 and a traceback, reported as
    [False].  What the script wrote stays; what it printed is captured and
    does not reach the console. *)
Theorem analysis_outcome_is_the_exit_code (scenario_name : string) (w : World)
    (t : float) (n : Z) :
  let scenario_dir := Rel (results_dir ++ [Name scenario_name]) in
  let flowmon_file := join scenario_dir [Name "flowmon-results.xml"] in
  let started := "Analyzing results for " +:+ scenario_name +:+ "..." in
  let cmd :=
    [ sys_executable; "analyze_results.py";
      "--flowmon"; path_str flowmon_file;
      "--output"; path_str scenario_dir;
      "--simulation-time"; str_of_float t;
      "--image-size"; str_of_int n;
      "--no-plots" ] in
  let w0 := log_event (Spawned cmd) (set_console (console w ++ [started]) w) in
  (path_exists flowmon_file w).1 = Ok true ->
  float_of_string (config_get cfg scenario_name "simulation_time" "10.0") = Ok t ->
  int_of_string (config_get cfg scenario_name "image_size" "50000") = Ok n ->
  exists (code : Z) (errors : string) (w' : World),
    analyze_scenario_results cfg scenario_name w = (Ok (bool_decide (code = 0)), w') /\
    children w' = children w ++ [Spawned cmd; Exited cmd code] /\
    console w'
    = console w
      ++ started
         :: (if bool_decide (code = 0)
             then ["✓ Analysis completed for " +:+ scenario_name]
             else ["✗ Analysis failed for " +:+ scenario_name; errors]) /\
    match parse_args flowmon_file scenario_dir (str_of_float t) (str_of_int n) with
    | Parsed a =>
        let child := AnalyzeResults.main a w0 in
        read_as_value (str_of_float t) = true /\
        float_of_string (str_of_float t) = Ok (AnalyzeResults.simulation_time a) /\
        int_of_string (str_of_int n) = Ok (AnalyzeResults.image_size a) /\
        flowmon a = flowmon_file /\ output a = scenario_dir /\ no_plots a = true /\
        code = exit_status child.1 /\
        errors = match child.1 with Raise e => traceback e | Ok _ => "" end /\
        files w' = files child.2 /\ dirs w' = dirs child.2
    | Rejected =>
        code = 2 /\ errors = usage_error cmd /\ files w' = files w /\ dirs w' = dirs w
    | Crashed e =>
        code = 1 /\ errors = traceback e /\ files w' = files w /\ dirs w' = dirs w
    end /\
    (read_as_value (str_of_float t) = false ->
     code = 2 /\ files w' = files w /\ dirs w' = dirs w).
Proof.
  cbv zeta. intros Hex Ht Hn. unfold analyze_scenario_results. cbv zeta.
  rewrite and_then_io.
  destruct (path_exists _ w) as [r w0] eqn:Hpath.
  assert (w0 = w) as -> by (by injection Hpath as _ <-).
  cbn [fst] in Hex. subst r. cbn [negb].
  rewrite and_then_io. cbn [print]. rewrite and_then_io, Ht. cbn [lift].
  rewrite and_then_io, Hn. cbn [lift].
  unfold try_except. rewrite and_then_io. unfold run_analysis. cbv zeta.
  assert (Hrejected : read_as_value (str_of_float t) = false ->
            parse_args (join (Rel (results_dir ++ [Name scenario_name]))
                             [Name "flowmon-results.xml"])
                       (Rel (results_dir ++ [Name scenario_name]))
                       (str_of_float t) (str_of_int n) = Rejected).
  { intros Hno. unfold parse_args. by rewrite Hno. }
  destruct (parse_args _ _ (str_of_float t) (str_of_int n)) as [a| |e] eqn:Hargs.
  - apply parse_args_parsed in Hargs as (Hv & _ & Hfloat & Hint & Hfm & Hout & Hnp).
    lazymatch goal with
    | |- context [AnalyzeResults.main a ?w1] =>
        pose proof (touches_only_main a w1) as (_ & Hch);
        destruct (AnalyzeResults.main a w1) as [r w2] eqn:Hmain
    end.
    cbn [returncode stderr fst snd] in *.
    exists (exit_status r), (match r with Raise e => traceback e | Ok _ => "" end).
    destruct (decide (exit_status r = 0)) as [Hz|Hnz].
    + rewrite bool_decide_eq_true_2 by done.
      rewrite and_then_io. cbn [print mret io_ret]. eexists. split; [reflexivity|].
      cbn [files dirs children console set_console log_event set_children].
      split.
      { rewrite Hch. cbn [children set_console log_event set_children].
        by rewrite <- app_assoc. }
      split; [by rewrite <- app_assoc|]. split; [done|]. by rewrite Hv.
    + rewrite bool_decide_eq_false_2 by done.
      rewrite !and_then_io. cbn [print mret io_ret]. eexists. split; [reflexivity|].
      cbn [files dirs children console set_console log_event set_children].
      split.
      { rewrite Hch. cbn [children set_console log_event set_children].
        by rewrite <- app_assoc. }
      split; [by rewrite <- !app_assoc|]. split; [done|]. by rewrite Hv.
  - cbn [returncode stderr]. exists 2, (usage_error
        [ sys_executable; "analyze_results.py";
          "--flowmon"; path_str (join (Rel (results_dir ++ [Name scenario_name]))
                                      [Name "flowmon-results.xml"]);
          "--output"; path_str (Rel (results_dir ++ [Name scenario_name]));
          "--simulation-time"; str_of_float t;
          "--image-size"; str_of_int n;
          "--no-plots" ]).
    rewrite decide_False by done. rewrite bool_decide_eq_false_2 by done.
    rewrite !and_then_io. cbn [print mret io_ret]. eexists. split; [reflexivity|].
    cbn [files dirs children console set_console log_event set_children].
    split; [by rewrite <- app_assoc|]. split; [by rewrite <- !app_assoc|]. done.
  - cbn [returncode stderr]. exists 1, (traceback e).
    rewrite decide_False by done. rewrite bool_decide_eq_false_2 by done.
    rewrite !and_then_io. cbn [print mret io_ret]. eexists. split; [reflexivity|].
    cbn [files dirs children console set_console log_event set_children].
    split; [by rewrite <- app_assoc|]. split; [by rewrite <- !app_assoc|].
    split; [done|]. intros Hno. by specialize (Hrejected Hno).
Qed.

End modes.
End ModeProperties.

(* ================================================================== *)
(** * Examples for the further properties *)
(* ================================================================== *)
Module PropertyExamples.

Import AnalyzeResults RunScenarios PyFacts OSFacts Footprint Fixtures Demo
       ParsingProperties ReportProperties AnalysisProperties
       RunnerProperties RunnerOutcomes BatchProperties ModeProperties.

Lemma failed_parse_keeps_earlier_flows_witness :
  parse_flowmon_results init_flows (Rel [Name "flowmon-results.xml"]) broken_world
  = (Ok (false, example_table),
     set_console
       (console broken_world
        ++ ["Error parsing FlowMonitor results: " +:+ str_of_exn ValueError])
       broken_world).
Proof.
  apply (failed_parse_keeps_earlier_flows [example_flow] [(1, example_record)]
           bad_flow [example_flow] ValueError).
  - vm_compute. reflexivity.
  - constructor; [vm_compute; reflexivity | constructor].
  - vm_compute. reflexivity.
Defined.

Lemma attribute_defaults_witness :
  parse_flow (<["rxPackets" := "95"]> (∅ : gmap string string)) = Raise TypeError /\
  parse_flow idle_flow = Ok (9, idle_record).
Proof.
  destruct (attribute_defaults (H := builtins)) as [Hmissing Honly]. split.
  - apply Hmissing. vm_compute. reflexivity.
  - apply (Honly "9" 9). vm_compute. reflexivity.
Defined.

Lemma footballer_labels_distinct_witness : footballer 5 <> footballer 6.
Proof. apply footballer_labels_distinct. lia. Defined.

Lemma report_layout_witness :
  exists (report : string) (lines : list string),
    generate_performance_report example_table 10%float 50000 = Ok report /\
    report = join_lines lines /\
    length lines = 26%nat /\
    lines !! 7%nat = Some "  Number of Flows: 1" /\
    lines !! 17%nat = Some "Flow 1 - Messi:".
Proof.
  destruct (generate_performance_report example_table 10%float 50000)
    as [report|e] eqn:Hrep; [|vm_compute in Hrep; discriminate].
  destruct (report_layout example_table 10%float 50000 report Hrep)
    as (lines & Hjoin & Hlen & Hcount & Hsections).
  exists report, lines. split; [reflexivity|]. split; [exact Hjoin|].
  split; [exact Hlen|]. split; [exact Hcount|].
  exact (Hsections 0%nat 1 example_record eq_refl).
Defined.

Lemma idle_flow_is_exported_as_delivered_witness :
  exists row : csv_row,
    csv_row_of 10%float 0 9 idle_record = Ok row /\
    Packets_Sent row = 0 /\
    Packet_Loss_Rate_pct row = PInt 0 /\
    Success_Rate_pct row = PInt 100.
Proof.
  destruct (csv_row_of 10%float 0 9 idle_record) as [row|e] eqn:Hrow;
    [|vm_compute in Hrow; discriminate].
  exists row. split; [reflexivity|].
  apply (idle_flow_is_exported_as_delivered idle_flow 9 idle_record 10%float 0%nat row).
  - vm_compute. reflexivity.
  - simpl. lia.
  - exact Hrow.
Defined.

Lemma no_artifact_no_output_witness :
  exists w',
    AnalyzeResults.main analysis_args (world_at ["work"]) = (Ok 1, w') /\
    files w' = files (world_at ["work"]) /\ dirs w' = dirs (world_at ["work"]) /\
    cwd w' = cwd (world_at ["work"]) /\
    children w' = children (world_at ["work"]) /\
    exists printed, printed <> [] /\ console w' = console (world_at ["work"]) ++ printed.
Proof.
  apply no_artifact_no_output.
  intros (flows & els & Hfile & _). vm_compute in Hfile. discriminate.
Defined.

Lemma export_csv_report_writes_the_table_witness :
  exists (data : list csv_row) (w' : World),
    export_csv_report example_table (Rel [Name "results"]) 10%float analysis_world
    = (Ok data, w') /\
    length data = 1%nat /\
    dir_exists w' ["work"; "results"] = true /\
    files w'
    = <[["work"; "results"; "simulation_results.csv"] := Text (to_csv data)]>
        (files analysis_world) /\
    cwd w' = ["work"] /\ children w' = [].
Proof.
  destruct (csv_rows 10%float 0 example_table) as [data|e] eqn:Hrows;
    [|vm_compute in Hrows; discriminate].
  destruct (export_csv_report_writes_the_table example_table (Rel [Name "results"])
              10%float data analysis_world)
    as (w' & Hexp & Hlen & Hdir & Hfiles & Hcwd & Hch).
  - left. vm_compute. reflexivity.
  - exact Hrows.
  - exists data, w'. split; [exact Hexp|]. split; [exact Hlen|].
    split; [exact Hdir|]. split; [exact Hfiles|]. split; [exact Hcwd | exact Hch].
Defined.

Lemma zero_duration_aborts_before_writing_witness :
  exists (e : exn) (w' : World),
    AnalyzeResults.main zero_duration_args analysis_world = (Raise e, w') /\
    generate_performance_report example_table 0%float 50000 = Raise e /\
    files w' = files analysis_world /\ dirs w' = dirs analysis_world /\
    cwd w' = cwd analysis_world.
Proof.
  apply (zero_duration_aborts_before_writing zero_duration_args analysis_world
           example_table).
  - exists [example_flow]. split; vm_compute; reflexivity.
  - left. reflexivity.
Defined.

Lemma plot_failure_keeps_reports_witness :
  exists (report : string) (data : list csv_row) (w' : World),
    AnalyzeResults.main (H1 := broken_plots) plot_args analysis_world
    = (Raise ValueError, w') /\
    files w' !! ["work"; "results"; "performance_report.txt"] = Some (Text report) /\
    files w' !! ["work"; "results"; "simulation_results.csv"]
    = Some (Text (to_csv data)).
Proof.
  destruct (generate_performance_report example_table 10%float 50000)
    as [report|e] eqn:Hrep; [|vm_compute in Hrep; discriminate].
  destruct (csv_rows 10%float 0 example_table) as [data|e] eqn:Hrows;
    [|vm_compute in Hrows; discriminate].
  destruct (plot_failure_keeps_reports (H1 := broken_plots) plot_args analysis_world
              example_table report data ValueError)
    as (w' & Hmain & Hreport & Hcsv).
  - exists [example_flow]. split; vm_compute; reflexivity.
  - exact Hrep.
  - exact Hrows.
  - left. vm_compute. reflexivity.
  - reflexivity.
  - reflexivity.
  - discriminate.
  - exists report, data, w'. split; [exact Hmain|]. split; [exact Hreport | exact Hcsv].
Defined.

Lemma exit_0_means_reports_written_witness :
  exists (flows : flow_table) (report : string) (data : list csv_row),
    artifact_flows analysis_args analysis_world flows /\
    generate_performance_report flows 10%float 50000 = Ok report /\
    csv_rows 10%float 0 flows = Ok data /\
    files (AnalyzeResults.main analysis_args analysis_world).2
      !! ["work"; "results"; "performance_report.txt"] = Some (Text report) /\
    files (AnalyzeResults.main analysis_args analysis_world).2
      !! ["work"; "results"; "simulation_results.csv"] = Some (Text (to_csv data)) /\
    dir_exists (AnalyzeResults.main analysis_args analysis_world).2
      ["work"; "results"] = true.
Proof.
  assert (Hok : (AnalyzeResults.main analysis_args analysis_world).1 = Ok 0)
    by (vm_compute; reflexivity).
  destruct (AnalyzeResults.main analysis_args analysis_world) as [r w'] eqn:Hmain.
  cbn [fst snd] in Hok |- *. subst r.
  exact (exit_0_means_reports_written analysis_args analysis_world w' Hmain).
Defined.

Lemma results_directory_is_lost_after_chdir_witness :
  exists w',
    run_scenario cfg_fail_then_ok "scenario_b" (world_at project_dir) = (Ok false, w') /\
    forall scenario,
      section cfg_fail_then_ok "scenario_b" = Some scenario ->
      files w'
      = files_after_simulator
          (behaviour_of (scenario_cmd cfg_fail_then_ok scenario)
                        (parent (cwd (world_at project_dir)))
                        (files (world_at project_dir)))
          (files (world_at project_dir)).
Proof.
  apply results_directory_is_lost_after_chdir.
  - discriminate.
  - discriminate.
  - vm_compute. reflexivity.
Defined.

Lemma success_means_exit_code_zero_witness :
  let w := world_with_parent_results ["scenario_ok"] in
  let w' := (run_scenario cfg_outcomes "scenario_ok" w).2 in
  exists scenario : gmap string string,
    section cfg_outcomes "scenario_ok" = Some scenario /\
    launch_error (behaviour_of (scenario_cmd cfg_outcomes scenario) (parent (cwd w))
                               (files w)) = None /\
    PrimFloat.ltb 300
      (runtime (behaviour_of (scenario_cmd cfg_outcomes scenario) (parent (cwd w))
                             (files w))) = false /\
    exit_code (behaviour_of (scenario_cmd cfg_outcomes scenario) (parent (cwd w))
                            (files w)) = 0 /\
    last (children w') = Some (Exited (scenario_cmd cfg_outcomes scenario) 0) /\
    dir_exists w' (parent (cwd w) ++ ["scenario_results"; "scenario_ok"]) = true /\
    is_Some (files w' !! (parent (cwd w)
                          ++ ["scenario_results"; "scenario_ok";
                              "simulation_output.txt"])) /\
    forall f, f ∈ files_to_move ->
      files w' !! (parent (cwd w) ++ [f]) = None /\
      forall c,
        apply_writes
          (writes (behaviour_of (scenario_cmd cfg_outcomes scenario) (parent (cwd w))
                                (files w)))
          (files w) !! (parent (cwd w) ++ [f]) = Some c ->
        files w' !! (parent (cwd w) ++ ["scenario_results"; "scenario_ok"; f]) = Some c.
Proof.
  cbv zeta.
  assert (Hok : (run_scenario cfg_outcomes "scenario_ok"
                   (world_with_parent_results ["scenario_ok"])).1 = Ok true)
    by (vm_compute; reflexivity).
  destruct (run_scenario cfg_outcomes "scenario_ok"
              (world_with_parent_results ["scenario_ok"])) as [r w'] eqn:Hrun.
  cbn [fst snd] in Hok |- *. subst r.
  exact (success_means_exit_code_zero cfg_outcomes "scenario_ok" _ w' Hrun).
Defined.

Lemma every_scenario_is_recorded_witness :
  exists (outcomes : list (string * bool)) (w1 w' : World),
    batch_runs cfg_fail_then_ok (length (get_scenarios cfg_fail_then_ok)) 1
      (get_scenarios cfg_fail_then_ok)
      (batch_start cfg_fail_then_ok (world_at project_dir)) outcomes w1 /\
    run_all_scenarios cfg_fail_then_ok (world_at project_dir) = (Ok outcomes, w') /\
    dict_keys outcomes = get_scenarios cfg_fail_then_ok /\
    (get_scenarios cfg_fail_then_ok <> [] -> quiet w1 w').
Proof.
  apply every_scenario_is_recorded.
  - repeat (constructor; [split; vm_compute; reflexivity|]). constructor.
  - apply (bool_decide_unpack (NoDup _)). vm_compute. exact I.
Defined.

Lemma empty_batch_returns_1_witness :
  RunScenarios.main cfg_no_scenarios batch_args (world_at project_dir)
  = (Ok 1,
     set_console
       (console (world_at project_dir) ++ ["No scenarios found in configuration file."])
       (world_at project_dir)).
Proof. apply empty_batch_returns_1; reflexivity. Defined.

Example list_mode_evaluated :
  RunScenarios.main cfg_fail_then_ok list_args (world_at project_dir)
  = (Ok 0,
     set_console
       (console (world_at project_dir)
        ++ "Available scenarios:"
           :: ((fun s => "  " +:+ s +:+ ": "
                         +:+ config_get cfg_fail_then_ok s "description" "No description")
               <$> get_scenarios cfg_fail_then_ok))
       (world_at project_dir)).
Proof. apply list_mode_only_prints. reflexivity. Qed.

Lemma batch_in_project_layout_returns_1_witness :
  exists (results : list (string * bool)) (w' : World),
    (run_all_scenarios cfg_fail_then_ok (world_at project_dir)).1 = Ok results /\
    (forall name, name ∈ get_scenarios cfg_fail_then_ok <-> name ∈ dict_keys results) /\
    (forall name ok, (name, ok) ∈ results -> ok = false) /\
    RunScenarios.main cfg_fail_then_ok batch_args (world_at project_dir) = (Ok 1, w') /\
    cwd w' = cwd (world_at project_dir) /\
    files w'
    = (simulators_alone cfg_fail_then_ok (parent (cwd (world_at project_dir)))
         (get_scenarios cfg_fail_then_ok) (files (world_at project_dir))).1 /\
    children w'
    = children (world_at project_dir)
      ++ (simulators_alone cfg_fail_then_ok (parent (cwd (world_at project_dir)))
            (get_scenarios cfg_fail_then_ok) (files (world_at project_dir))).2.
Proof.
  apply batch_in_project_layout_returns_1; try reflexivity.
  - discriminate.
  - assert (Hs : get_scenarios cfg_fail_then_ok = ["scenario_a"; "scenario_b"])
      by (vm_compute; reflexivity).
    rewrite Hs. intros name Hin.
    apply elem_of_cons in Hin as [->|Hin];
      [split; [discriminate | vm_compute; reflexivity]|].
    apply elem_of_cons in Hin as [->|Hin];
      [split; [discriminate | vm_compute; reflexivity]|].
    by apply elem_of_nil in Hin.
Defined.

(** The simulators of that batch, alone: the first exits with 1, the
    second with 0, leaving its flow statistics in the directory above the
    project. *)
Example simulators_of_the_batch :
  let alone := simulators_alone cfg_fail_then_ok (parent project_dir)
                 (get_scenarios cfg_fail_then_ok) ∅ in
  alone.1 !! (parent project_dir ++ ["flowmon-results.xml"])
  = Some (XmlDoc [example_flow]) /\
  alone.2
  = [ Spawned (scenario_cmd cfg_fail_then_ok (scenario_section "fail"));
      Exited (scenario_cmd cfg_fail_then_ok (scenario_section "fail")) 1;
      Spawned (scenario_cmd cfg_fail_then_ok (scenario_section "5Mbps"));
      Exited (scenario_cmd cfg_fail_then_ok (scenario_section "5Mbps")) 0 ].
Proof. cbv zeta. split; vm_compute; reflexivity. Qed.

Lemma compare_mode_returns_0_witness :
  exists w',
    RunScenarios.main cfg_fail_then_ok compare_args (world_with_table "scenario_b")
    = (Ok 0, w') /\
    children w' = children (world_with_table "scenario_b") /\
    (scenarios_with_results cfg_fail_then_ok (world_with_table "scenario_b") = [] ->
     files w' = files (world_with_table "scenario_b")) /\
    (scenarios_with_results cfg_fail_then_ok (world_with_table "scenario_b") <> [] ->
     files w'
     = <[cwd (world_with_table "scenario_b")
         ++ ["scenario_results"; "scenario_comparison.txt"]
         := Text (comparison_text cfg_fail_then_ok
                    (scenarios_with_results cfg_fail_then_ok
                       (world_with_table "scenario_b")))]>
         (files (world_with_table "scenario_b"))).
Proof.
  apply compare_mode_returns_0; [reflexivity | reflexivity | reflexivity |].
  intros _. vm_compute. reflexivity.
Defined.

(** The comparison of the example lists the one scenario that has a table. *)
Example compare_mode_evaluated :
  scenarios_with_results cfg_fail_then_ok (world_with_table "scenario_b")
  = ["scenario_b"].
Proof. vm_compute. reflexivity. Qed.

Lemma analyze_scenario_results_edges_witness :
  analyze_scenario_results cfg_bad_duration "scenario_x"
    (world_with_statistics "scenario_x")
  = (Raise ValueError,
     set_console
       (console (world_with_statistics "scenario_x")
        ++ ["Analyzing results for scenario_x..."])
       (world_with_statistics "scenario_x")).
Proof.
  destruct (analyze_scenario_results_edges cfg_bad_duration "scenario_x"
              (world_with_statistics "scenario_x")) as [_ Hbad].
  apply (Hbad ltac:(vm_compute; reflexivity) ValueError).
  left. vm_compute. reflexivity.
Defined.

Lemma analysis_outcome_is_the_exit_code_witness :
  exists w',
    analyze_scenario_results cfg_negative_duration "scenario_n"
      (world_with_statistics "scenario_n") = (Ok false, w') /\
    files w' = files (world_with_statistics "scenario_n") /\
    children w'
    = [ Spawned
          [ sys_executable; "analyze_results.py";
            "--flowmon"; "scenario_results/scenario_n/flowmon-results.xml";
            "--output"; "scenario_results/scenario_n";
            "--simulation-time"; "-1e-05"; "--image-size"; "50000"; "--no-plots" ];
        Exited
          [ sys_executable; "analyze_results.py";
            "--flowmon"; "scenario_results/scenario_n/flowmon-results.xml";
            "--output"; "scenario_results/scenario_n";
            "--simulation-time"; "-1e-05"; "--image-size"; "50000"; "--no-plots" ]
          2 ].
Proof.
  destruct (analysis_outcome_is_the_exit_code
              cfg_negative_duration "scenario_n" (world_with_statistics "scenario_n")
              (-0x1.4f8b588e368f1p-17)%float 50000)
    as (code & errors & w' & Hrun & Hch & _ & _ & Hrejected).
  - vm_compute. reflexivity.
  - vm_compute. reflexivity.
  - vm_compute. reflexivity.
  - destruct Hrejected as (-> & Hfiles & _); [vm_compute; reflexivity|].
    exists w'. split; [exact Hrun|]. split; [exact Hfiles | exact Hch].
Defined.

(** A duration of zero is accepted by the child, which then crashes while
    generating the report: exit code 1, a traceback, and [False]. *)
Example analysis_crash_is_reported :
  let run := analyze_scenario_results cfg_zero_duration "scenario_z"
               (world_with_statistics "scenario_z") in
  run.1 = Ok false /\
  last (console run.2) = Some (traceback ZeroDivisionError) /\
  last (children run.2)
  = Some (Exited
            [ sys_executable; "analyze_results.py";
              "--flowmon"; "scenario_results/scenario_z/flowmon-results.xml";
              "--output"; "scenario_results/scenario_z";
              "--simulation-time"; "0.0"; "--image-size"; "50000"; "--no-plots" ]
            1).
Proof. cbv zeta. repeat split; vm_compute; reflexivity. Qed.

(** A negative duration written with digits and a point reaches the child
    as a value; written with an exponent it does not. *)
Example negative_durations :
  read_as_value "-5.0" = true /\ read_as_value "-1e-05" = false /\
  read_as_value "-inf" = false /\ read_as_value "1e-05" = true /\
  str_of_float (-0x1.4f8b588e368f1p-17)%float = "-1e-05" /\
  float_of_string "-0.00001" = Ok (-0x1.4f8b588e368f1p-17)%float.
Proof. repeat split; vm_compute; reflexivity. Qed.


End PropertyExamples.
